(** * Relay and batching core of the meeting-transcription proxy

    A shallow embedding of the repository's TypeScript sources:
    - [JS]: the values, exceptions and operators of JavaScript they use;
    - [Wav]: the container header builder [getWavHeader] (the same text in
      the OpenAI client and in the bot);
    - [Utf8]: what [Buffer.toString("utf8")] does to a payload;
    - [Batcher]: the class [OpenAIClient] (timer, audio buffer, flush);
    - [Relay]: the class [TranscriptionProxy] (classification, fan-out,
      session flag, transcript callback, shutdown);
    - [Bot]: the class [TranscriptionBot] (its own flush through [fetch],
      its connection handlers, [shutdown]);
    - [Server]: the class [MeetingBaasClient] and the handler of
      [POST /start-bot].

    JavaScript runs every handler to completion on one thread, so each
    handler is a function on an explicit state.  An [await] splits a
    function into the part before the suspension and the continuation, and
    what is suspended (a request to the backend, a persistence call) is kept
    in the state until an event settles it.  The reaction of a promise that
    is already resolved runs when the handler that queued it returns.

    The field [gladiaClient] of the proxy is typed by a class imported from
    a module that is not among the sources; the proxy uses the four methods
    [initSession], [sendAudioChunk], [onTranscription] and [endSession], and
    the client embedded here is the one the sources hold with these
    methods, [OpenAIClient].  [proxyConfig.audioParams] and [JSON.parse]
    are parameters.  Calls of the logger change no state and are left
    out. *)

From Stdlib Require Import ZArith QArith Qround Lia Bool.
From Stdlib Require Import Strings.Byte Strings.String Strings.Ascii.
From stdpp Require Import base option list functions gmap sets strings.

#[local] Set Warnings "-register-all,-clear-no-such-hyp".
Local Open Scope Z_scope.

(** A Node [Buffer]: a sequence of octets. *)
Abbreviation Buffer := (list byte).

(* ================================================================== *)
(** ** The JavaScript values and exceptions the sources rely on *)
(* ================================================================== *)

Module JS.

Inductive JSError :=
  | SyntaxError        (* JSON.parse on text that is not JSON *)
  | TypeError          (* property of null, [in] on a primitive *)
  | ERR_OUT_OF_RANGE   (* Buffer write of a value outside the field *)
  | ENOENT.            (* fs call on a missing path *)

(** The outcome of running a statement list: it completes, or throws. *)
Inductive Completion (A : Type) :=
  | Normal (a : A)
  | Throw (e : JSError).
Arguments Normal {A} a.
Arguments Throw {A} e.

#[export] Instance Completion_ret : MRet Completion := @Normal.
#[export] Instance Completion_bind : MBind Completion :=
  fun A B f m => match m with Normal a => f a | Throw e => Throw e end.

(** [try { body } catch { handler }] *)
Definition try_catch {A} (body : Completion A) (handler : JSError -> Completion A)
  : Completion A :=
  match body with Normal a => Normal a | Throw e => handler e end.

Definition completes {A} (c : Completion A) : bool :=
  match c with Normal _ => true | Throw _ => false end.

(** The values [JSON.parse] returns, and [undefined]. *)
Inductive JSValue :=
  | JUndefined
  | JNull
  | JBool (b : bool)
  | JNumber (q : Q)
  | JString (s : string)
  | JArray (items : list JSValue)
  | JObject (fields : list (string * JSValue)).

(** The first binding of [k] among the own properties. *)
Fixpoint assoc (k : string) (fields : list (string * JSValue)) : option JSValue :=
  match fields with
  | [] => None
  | (k', v) :: rest => if String.eqb k k' then Some v else assoc k rest
  end.

(** ToBoolean. *)
Definition truthy (v : JSValue) : bool :=
  match v with
  | JUndefined | JNull => false
  | JBool b => b
  | JNumber q => negb (Qeq_bool q 0)
  | JString s => negb (String.eqb s "")
  | JArray _ | JObject _ => true
  end.

(** [v.k] for the keys the sources read ([type], [client], [text], [name],
    [isSpeaking]), none of which a built-in prototype defines: the own
    property of an object, [undefined] on any other value that has
    properties, a TypeError on [null] and [undefined]. *)
Definition get (v : JSValue) (k : string) : Completion JSValue :=
  match v with
  | JUndefined | JNull => Throw TypeError
  | JObject fields => Normal (default JUndefined (assoc k fields))
  | _ => Normal JUndefined
  end.

(** [k in v] for the same keys: a TypeError unless [v] is an object. *)
Definition has_property (k : string) (v : JSValue) : Completion bool :=
  match v with
  | JObject fields => Normal (bool_decide (is_Some (assoc k fields)))
  | JArray _ => Normal false
  | _ => Throw TypeError
  end.

(** [v === "lit"] *)
Definition is_string (lit : string) (v : JSValue) : bool :=
  match v with JString s => String.eqb s lit | _ => false end.

(** [a === b]: primitives by value; two objects are the same only when
    they are one object, which a freshly parsed one never is. *)
Definition strict_eq (a b : JSValue) : bool :=
  match a, b with
  | JUndefined, JUndefined | JNull, JNull => true
  | JBool x, JBool y => Bool.eqb x y
  | JNumber x, JNumber y => Qeq_bool x y
  | JString x, JString y => String.eqb x y
  | _, _ => false
  end.

(** What the [ws] library hands to a message handler. *)
Inductive RawData :=
  | BufferData (b : Buffer)
  | StringData (s : string).

End JS.

(* ================================================================== *)
(** ** The container header *)
(* ================================================================== *)

Module Wav.
Import JS.

(** [ToUint8]: the octet stored by [buf[i] = value]. *)
Definition byte_of_Z (z : Z) : byte :=
  match Byte.of_N (Z.to_N (z mod 256)) with
  | Some b => b
  | None => x00
  end.

Definition Z_of_byte (b : byte) : Z := Z.of_N (Byte.to_N b).

(** [Buffer.alloc(n)]: [n] zero octets. *)
Definition alloc (n : nat) : Buffer := replicate n x00.

(** Octets written one after another from [off]; an index past the end
    of the buffer is not written. *)
Fixpoint write_bytes (bs : list byte) (off : nat) (buf : Buffer) : Buffer :=
  match bs with
  | [] => buf
  | b :: bs' => write_bytes bs' (S off) (<[off := b]> buf)
  end.

(** [buffer.write(str, off)] for the ASCII tags of the header. *)
Definition write (s : string) (off : nat) (buf : Buffer) : Buffer :=
  write_bytes (list_byte_of_string s) off buf.

(** The [n] low octets of [z], least significant first:
    [buf[off++] = value; value = value >>> 8; ...]. *)
Fixpoint le_bytes (n : nat) (z : Z) : list byte :=
  match n with
  | O => []
  | S n' => byte_of_Z z :: le_bytes n' (z / 256)
  end.

Fixpoint le_decode (bs : list byte) : Z :=
  match bs with
  | [] => 0
  | b :: bs' => Z_of_byte b + 256 * le_decode bs'
  end.

(** [writeUIntLE]: Node checks [min <= value <= max] on the number as it
    is (a fraction included) and the offset against the buffer, and throws
    [ERR_OUT_OF_RANGE] otherwise; the stored octets are those of
    the integer part.  Numbers are rationals here: every value of the
    header is an integer or an integer over 8. *)
Definition writeUIntLE (n : nat) (value : Q) (off : nat) (buf : Buffer)
  : Completion Buffer :=
  if Qle_bool 0 value && Qle_bool value (inject_Z (2 ^ (8 * Z.of_nat n) - 1))
     && (off + n <=? length buf)%nat
  then Normal (write_bytes (le_bytes n (Qfloor value)) off buf)
  else Throw ERR_OUT_OF_RANGE.

Definition writeUInt32LE := writeUIntLE 4.
Definition writeUInt16LE := writeUIntLE 2.

Local Coercion inject_Z : Z >-> Q.

(** [getWavHeader(dataLength, sampleRate, numChannels, bitsPerSample)];
    the first write that throws ends it. *)
Definition getWavHeader (dataLength sampleRate numChannels bitsPerSample : Z)
  : Completion Buffer :=
  let buffer := alloc 44 in
  let buffer := write "RIFF" 0 buffer in
  buffer ← writeUInt32LE (36 + dataLength)%Z 4 buffer;
  let buffer := write "WAVE" 8 buffer in
  let buffer := write "fmt " 12 buffer in
  buffer ← writeUInt32LE 16%Z 16 buffer;
  buffer ← writeUInt16LE 1%Z 20 buffer;
  buffer ← writeUInt16LE numChannels 22 buffer;
  buffer ← writeUInt32LE sampleRate 24 buffer;
  buffer ← writeUInt32LE
    (sampleRate * numChannels * (bitsPerSample / 8%Z))%Q 28 buffer;
  buffer ← writeUInt16LE (numChannels * (bitsPerSample / 8%Z))%Q 32 buffer;
  buffer ← writeUInt16LE bitsPerSample 34 buffer;
  let buffer := write "data" 36 buffer in
  buffer ← writeUInt32LE dataLength 40 buffer;
  Normal buffer.

(** The header in the words of the interface description: the four tags
    and the little-endian fields, one after another. *)
Definition spec_header (dataLength sampleRate channels : Z) : Buffer :=
  list_byte_of_string "RIFF" ++ le_bytes 4 (36 + dataLength) ++
  list_byte_of_string "WAVE" ++
  list_byte_of_string "fmt " ++ le_bytes 4 16 ++
  le_bytes 2 1 ++ le_bytes 2 channels ++ le_bytes 4 sampleRate ++
  le_bytes 4 (sampleRate * channels * 2) ++ le_bytes 2 (channels * 2) ++
  le_bytes 2 16 ++
  list_byte_of_string "data" ++ le_bytes 4 dataLength.

Definition u16 (z : Z) : bool := (0 <=? z) && (z <=? 65535).
Definition u32 (z : Z) : bool := (0 <=? z) && (z <=? 4294967295).

(** Every value fits the field it is written to. *)
Definition fits (dataLength sampleRate channels : Z) : bool :=
  u32 (36 + dataLength) && u16 channels && u32 sampleRate
  && u32 (sampleRate * channels * 2) && u16 (channels * 2) && u32 dataLength.

(** [buf.readUIntLE(off, n)], to read a field back. *)
Definition readUIntLE (n off : nat) (buf : Buffer) : Z :=
  le_decode (take n (drop off buf)).

(** The header of 32000 octets of 16 kHz mono audio, octet by octet. *)
Definition golden_header : Buffer :=
  [ x52; x49; x46; x46;  x24; x7d; x00; x00;   (* "RIFF", 32036 *)
    x57; x41; x56; x45;                        (* "WAVE" *)
    x66; x6d; x74; x20;  x10; x00; x00; x00;   (* "fmt ", 16 *)
    x01; x00;  x01; x00;                       (* PCM, 1 channel *)
    x80; x3e; x00; x00;  x00; x7d; x00; x00;   (* 16000, 32000 *)
    x02; x00;  x10; x00;                       (* block align 2, 16 bits *)
    x64; x61; x74; x61;  x00; x7d; x00; x00 ]. (* "data", 32000 *)

End Wav.

(* ================================================================== *)
(** ** [Buffer.toString("utf8")] *)
(* ================================================================== *)

(** A JavaScript string is kept as its UTF-8 octets (a Rocq [string]), which
    is also what [ws.send(str)] puts on the wire.  Decoding a buffer copies
    every well-formed sequence and puts U+FFFD (EF BF BD) in place of every
    maximal ill-formed part, as the WHATWG decoder that Node follows does. *)
Module Utf8.

Definition replacement : list byte := [xef; xbf; xbd].

(** A sequence under way: octets still expected, octets read so far, and
    the range the next octet has to lie in. *)
Record Pending := {
  needed : nat;
  seen : list byte;
  lower : N;
  upper : N;
}.

Definition between (lo hi n : N) : bool := ((lo <=? n) && (n <=? hi))%N.

(** An octet read with no sequence under way: what is emitted at once and
    the sequence it opens. *)
Definition lead (b : byte) : list byte * option Pending :=
  let n := Byte.to_N b in
  if (n <=? 127)%N then ([b], None)
  else if between 194 223 n then
    ([], Some {| needed := 1; seen := [b]; lower := 128; upper := 191 |})
  else if between 224 239 n then
    ([], Some {| needed := 2; seen := [b];
                 lower := if (n =? 224)%N then 160%N else 128%N;
                 upper := if (n =? 237)%N then 159%N else 191%N |})
  else if between 240 244 n then
    ([], Some {| needed := 3; seen := [b];
                 lower := if (n =? 240)%N then 144%N else 128%N;
                 upper := if (n =? 244)%N then 143%N else 191%N |})
  else (replacement, None).

Fixpoint decode (st : option Pending) (bs : list byte) : list byte :=
  match bs with
  | [] => match st with None => [] | Some _ => replacement end
  | b :: rest =>
      match st with
      | None => let '(out, st') := lead b in out ++ decode st' rest
      | Some p =>
          if between (lower p) (upper p) (Byte.to_N b) then
            match needed p with
            | 0%nat | 1%nat => (seen p ++ [b]) ++ decode None rest
            | S k =>
                decode (Some {| needed := k; seen := seen p ++ [b];
                                lower := 128; upper := 191 |}) rest
            end
          else
            (* the sequence is cut short: U+FFFD, and [b] is read afresh *)
            let '(out, st') := lead b in replacement ++ out ++ decode st' rest
      end
  end.

Definition toString (b : Buffer) : string := string_of_list_byte (decode None b).

(** [message.toString()] on what a handler receives. *)
Definition messageToString (m : JS.RawData) : string :=
  match m with
  | JS.BufferData b => toString b
  | JS.StringData s => s
  end.

(** The octets of a message as they arrived: a binary frame's payload, or
    the UTF-8 octets of a text frame. *)
Definition payload (m : JS.RawData) : list byte :=
  match m with
  | JS.BufferData b => b
  | JS.StringData s => list_byte_of_string s
  end.

Definition ascii_only (bs : list byte) : bool :=
  forallb (fun b => (Byte.to_N b <=? 127)%N) bs.

End Utf8.

(* ================================================================== *)
(** ** The Audio Batcher: class [OpenAIClient] *)
(* ================================================================== *)

Module Batcher.
Import JS.

(** The fields of the object.  [onTranscriptionCallback] records whether
    a callback is stored; a call of it is handed back to the owner of the
    object, who runs it. *)
Record OpenAIClient := {
  audioBuffer : list Buffer;
  isProcessing : bool;
  onTranscriptionCallback : bool;
  processingInterval : option nat;
}.

(** A submission to the transcription backend that has not settled yet:
    the container posted and the scratch file its continuation unlinks. *)
Record Request := {
  body : Buffer;
  tempFile : Z;
}.

(** What the object touches outside itself. *)
Record Node := {
  timers : gmap nat Z;        (* armed [setInterval] timers: handle, period in ms;
                                 each of them runs [processAudioBuffer] *)
  nextTimer : nat;            (* the handle the next [setInterval] returns *)
  tempDirExists : bool;
  tempFiles : gmap Z Buffer;  (* [tempDir/audio_<t>.wav], by [t] *)
  inflight : list Request;    (* [axios.post] promises still pending *)
}.

Record State := {
  this : OpenAIClient;
  node : Node;
}.

(** How a pending [axios.post] settles: a 2xx response with its parsed
    body, or a rejection (any other status, or no response). *)
Inductive Outcome :=
  | Resolved (data : JSValue)
  | Rejected.

(** A call of the stored callback: [(text, isFinal)]. *)
Definition Call : Type := JSValue * bool.

(** *** Field updates *)

Definition set_audioBuffer (v : list Buffer) (s : State) : State :=
  {| this := {| audioBuffer := v;
                isProcessing := isProcessing (this s);
                onTranscriptionCallback := onTranscriptionCallback (this s);
                processingInterval := processingInterval (this s) |};
     node := node s |}.

Definition set_isProcessing (v : bool) (s : State) : State :=
  {| this := {| audioBuffer := audioBuffer (this s);
                isProcessing := v;
                onTranscriptionCallback := onTranscriptionCallback (this s);
                processingInterval := processingInterval (this s) |};
     node := node s |}.

Definition set_onTranscriptionCallback (v : bool) (s : State) : State :=
  {| this := {| audioBuffer := audioBuffer (this s);
                isProcessing := isProcessing (this s);
                onTranscriptionCallback := v;
                processingInterval := processingInterval (this s) |};
     node := node s |}.

Definition set_processingInterval (v : option nat) (s : State) : State :=
  {| this := {| audioBuffer := audioBuffer (this s);
                isProcessing := isProcessing (this s);
                onTranscriptionCallback := onTranscriptionCallback (this s);
                processingInterval := v |};
     node := node s |}.

Definition set_node (n : Node) (s : State) : State :=
  {| this := this s; node := n |}.

(** *** Timers, files, requests *)

(** [setInterval(() => this.processAudioBuffer(), ms)] *)
Definition setInterval (ms : Z) (n : Node) : nat * Node :=
  (nextTimer n,
   {| timers := <[nextTimer n := ms]> (timers n);
      nextTimer := S (nextTimer n);
      tempDirExists := tempDirExists n;
      tempFiles := tempFiles n;
      inflight := inflight n |}).

Definition clearInterval (id : nat) (n : Node) : Node :=
  {| timers := delete id (timers n);
     nextTimer := nextTimer n;
     tempDirExists := tempDirExists n;
     tempFiles := tempFiles n;
     inflight := inflight n |}.

Definition set_files (exists_ : bool) (files : gmap Z Buffer) (n : Node) : Node :=
  {| timers := timers n;
     nextTimer := nextTimer n;
     tempDirExists := exists_;
     tempFiles := files;
     inflight := inflight n |}.

Definition set_inflight (l : list Request) (n : Node) : Node :=
  {| timers := timers n;
     nextTimer := nextTimer n;
     tempDirExists := tempDirExists n;
     tempFiles := tempFiles n;
     inflight := l |}.

(** [fs.writeFileSync(path.join(tempDir, name), data)] *)
Definition writeFileSync (name : Z) (data : Buffer) (n : Node) : Completion Node :=
  if tempDirExists n
  then Normal (set_files true (<[name := data]> (tempFiles n)) n)
  else Throw ENOENT.

Definition readFileSync (name : Z) (n : Node) : Completion Buffer :=
  match tempFiles n !! name with
  | Some data => Normal data
  | None => Throw ENOENT
  end.

Definition unlinkSync (name : Z) (n : Node) : Completion Node :=
  match tempFiles n !! name with
  | Some _ => Normal (set_files (tempDirExists n) (delete name (tempFiles n)) n)
  | None => Throw ENOENT
  end.

(** [axios.post(...)]: the request is under way until it settles. *)
Definition post (r : Request) (n : Node) : Node :=
  set_inflight (inflight n ++ [r]) n.

(** *** States named in the statements below *)

(** The timer handle the object keeps, and the timers that are armed. *)
Definition clock (s : State) : option nat * gmap nat Z :=
  (processingInterval (this s), timers (node s)).

(** The state a flush leaves when it ends before its [await]. *)
Definition dropped (s : State) : State :=
  set_isProcessing false (set_audioBuffer [] s).

(** The state a flush is suspended in: the container is staged in the
    scratch file and posted. *)
Definition suspended (now : Z) (container : Buffer) (s : State) : State :=
  set_node
    (post {| body := container; tempFile := now |}
       (set_files true (<[now := container]> (tempFiles (node s))) (node s)))
    (set_audioBuffer [] (set_isProcessing true s)).

(** The invariant of the in-flight flag: a request is pending only while
    [isProcessing] is set, and never more than one. *)
Definition serialized (s : State) : Prop :=
  (length (inflight (node s)) <= 1)%nat
  /\ (isProcessing (this s) = false -> inflight (node s) = []).

Section WithConfig.

(** [proxyConfig.audioParams], from the configuration module. *)
Variables (sampleRate channels : Z).

(** *** The methods *)

(** [constructor()]: the field initialisers, and [tempDir] made when it is
    missing.  [existed] and [files] describe the directory beforehand. *)
Definition constructor (existed : bool) (files : gmap Z Buffer) : State :=
  {| this := {| audioBuffer := [];
                isProcessing := false;
                onTranscriptionCallback := false;
                processingInterval := None |};
     node := {| timers := ∅;
                nextTimer := 0;
                tempDirExists := true;
                tempFiles := if existed then files else ∅;
                inflight := [] |} |}.

(** [initSession()]: [setInterval] does not throw, so the [catch] that
    returns [false] is never entered. *)
Definition initSession (s : State) : State * bool :=
  let '(id, n) := setInterval 5000 (node s) in
  (set_processingInterval (Some id) (set_node n s), true).

(** [processAudioBuffer()] up to its [await]: either it returns at once
    (skip), or it ends in [catch]/[finally], or it is suspended with one
    more request under way.  [now] is [Date.now()]. *)
Definition processAudioBuffer (now : Z) (s : State) : State :=
  if isProcessing (this s) || bool_decide (audioBuffer (this s) = []) then s
  else
    let s := set_isProcessing true s in
    let rawAudioData := concat (audioBuffer (this s)) in
    let s := set_audioBuffer [] s in
    let bitsPerSample := 16 in
    let staged :=
      wavHeader ← Wav.getWavHeader (Z.of_nat (length rawAudioData))
                     sampleRate channels bitsPerSample;
      let wavAudioData := wavHeader ++ rawAudioData in
      let tempFile := now in
      n ← writeFileSync tempFile wavAudioData (node s);
      blob ← readFileSync tempFile n;
      Normal (post {| body := blob; tempFile := tempFile |} n) in
    match staged with
    | Normal n => set_node n s
    | Throw _ => set_isProcessing false s      (* catch: logged; finally *)
    end.

(** [a && b] on values. *)
Definition and_then (a : JSValue) (b : Completion JSValue) : Completion JSValue :=
  if truthy a then b else Normal a.

(** The rest of [processAudioBuffer()], run when the request [r] settles.
    A rejection enters [catch] before [unlinkSync] is reached. *)
Definition processAudioBuffer_resume (r : Request) (o : Outcome) (s : State)
  : State * option Call :=
  match o with
  | Rejected => (set_isProcessing false s, None)
  | Resolved data =>
      match unlinkSync (tempFile r) (node s) with
      | Throw _ => (set_isProcessing false s, None)
      | Normal n =>
          let s := set_node n s in
          match and_then data (get data "text") with
          | Throw _ => (set_isProcessing false s, None)
          | Normal text =>
              if truthy text then
                let transcription := text in
                (set_isProcessing false s,
                 if onTranscriptionCallback (this s)
                 then Some (transcription, true) else None)
              else (set_isProcessing false s, None)
          end
      end
  end.

(** [sendAudioChunk(audioData)] *)
Definition sendAudioChunk (audioData : Buffer) (s : State) : State * bool :=
  (set_audioBuffer (audioBuffer (this s) ++ [audioData]) s, true).

(** [onTranscription(callback)] *)
Definition onTranscription (s : State) : State :=
  set_onTranscriptionCallback true s.

(** [endSession()]: not [async]; [processAudioBuffer()] is called and its
    promise dropped, then the directory is emptied and removed. *)
Definition endSession (now : Z) (s : State) : State :=
  let s := match processingInterval (this s) with
           | Some id =>
               set_processingInterval None (set_node (clearInterval id (node s)) s)
           | None => s
           end in
  let s := if bool_decide (audioBuffer (this s) ≠ [])
           then processAudioBuffer now s else s in
  if tempDirExists (node s)
  then set_node (set_files false ∅ (node s)) s
  else s.                                    (* readdirSync throws: logged *)

(** *** The object in its event loop *)

Inductive Event :=
  | TimerFires (id : nat) (now : Z)
  | CallInitSession
  | CallSendAudioChunk (audioData : Buffer)
  | CallOnTranscription
  | CallEndSession (now : Z)
  | PostSettles (i : nat) (o : Outcome).

Definition step (s : State) (e : Event) : State * option Call :=
  match e with
  | TimerFires id now =>
      (if bool_decide (is_Some (timers (node s) !! id))
       then processAudioBuffer now s else s, None)
  | CallInitSession => ((initSession s).1, None)
  | CallSendAudioChunk audioData => ((sendAudioChunk audioData s).1, None)
  | CallOnTranscription => (onTranscription s, None)
  | CallEndSession now => (endSession now s, None)
  | PostSettles i o =>
      match inflight (node s) !! i with
      | Some r =>
          processAudioBuffer_resume r o
            (set_node (set_inflight (delete i (inflight (node s))) (node s)) s)
      | None => (s, None)
      end
  end.

(** The state after a run, and the callback calls made on the way. *)
Fixpoint run (s : State) (evs : list Event) : State * list Call :=
  match evs with
  | [] => (s, [])
  | e :: rest =>
      let '(s1, c) := step s e in
      let '(s2, cs) := run s1 rest in
      (s2, option_list c ++ cs)
  end.

(** A flush is under way while a request of it is pending. *)
Definition flushes_in_flight (s : State) : nat := length (inflight (node s)).

End WithConfig.

End Batcher.

(* ================================================================== *)
(** ** The Relay Core: class [TranscriptionProxy] *)
(* ================================================================== *)

Module Relay.
Import JS.

(** Which handlers [setupBotClient] or [setupMeetingBaasClient] attached
    to a connection. *)
Inductive Role := Bot | Meeting.

Inductive ReadyState := CONNECTING | OPEN | CLOSING | CLOSED.

#[export] Instance ReadyState_eq_dec : EqDecision ReadyState.
Proof. solve_decision. Defined.

Record TranscriptionMessage := {
  text : JSValue;
  isFinal : bool;
  startTime : Z;
  endTime : Z;
}.

(** What [ws.send] is given: a string that is relayed (whatever it
    holds), or [JSON.stringify] of the [{type: "transcription", data}]
    object built by the callback. *)
Inductive Frame :=
  | Text (s : string)
  | Transcription (data : TranscriptionMessage).

(** The octets a frame carries, where they are modelled. *)
Definition frame_octets (f : Frame) : option (list byte) :=
  match f with
  | Text s => Some (list_byte_of_string s)
  | Transcription _ => None
  end.

(** A promise reaction waiting in the microtask queue: the [.then] of
    [initSession()]. *)
Inductive Microtask := SessionStarted (success : bool).

(** The fields of the object; connections are named by numbers. *)
Record TranscriptionProxy := {
  botClient : option nat;
  meetingBaasClients : gset nat;
  gladiaClient : Batcher.State;
  isGladiaSessionActive : bool;
  lastSpeaker : JSValue;
  activeBotId : option string;
}.

(** What the object touches outside itself. *)
Record Net := {
  roles : gmap nat Role;
  readyState : nat -> ReadyState;
  microtasks : list Microtask;
  appending : list TranscriptionMessage; (* callbacks suspended at
                                            [await appendTranscription] *)
  sent : list (nat * Frame);             (* every [ws.send], oldest first *)
  appended : list (string * JSValue);    (* every [appendTranscription] *)
  calls : list Batcher.Call;             (* every call of the callback *)
}.

Record World := {
  proxy : TranscriptionProxy;
  net : Net;
}.

(** *** Field updates *)

Definition set_botClient (v : option nat) (w : World) : World :=
  {| proxy := {| botClient := v;
                 meetingBaasClients := meetingBaasClients (proxy w);
                 gladiaClient := gladiaClient (proxy w);
                 isGladiaSessionActive := isGladiaSessionActive (proxy w);
                 lastSpeaker := lastSpeaker (proxy w);
                 activeBotId := activeBotId (proxy w) |};
     net := net w |}.

Definition set_meetingBaasClients (v : gset nat) (w : World) : World :=
  {| proxy := {| botClient := botClient (proxy w);
                 meetingBaasClients := v;
                 gladiaClient := gladiaClient (proxy w);
                 isGladiaSessionActive := isGladiaSessionActive (proxy w);
                 lastSpeaker := lastSpeaker (proxy w);
                 activeBotId := activeBotId (proxy w) |};
     net := net w |}.

Definition set_gladiaClient (v : Batcher.State) (w : World) : World :=
  {| proxy := {| botClient := botClient (proxy w);
                 meetingBaasClients := meetingBaasClients (proxy w);
                 gladiaClient := v;
                 isGladiaSessionActive := isGladiaSessionActive (proxy w);
                 lastSpeaker := lastSpeaker (proxy w);
                 activeBotId := activeBotId (proxy w) |};
     net := net w |}.

Definition set_isGladiaSessionActive (v : bool) (w : World) : World :=
  {| proxy := {| botClient := botClient (proxy w);
                 meetingBaasClients := meetingBaasClients (proxy w);
                 gladiaClient := gladiaClient (proxy w);
                 isGladiaSessionActive := v;
                 lastSpeaker := lastSpeaker (proxy w);
                 activeBotId := activeBotId (proxy w) |};
     net := net w |}.

Definition set_lastSpeaker (v : JSValue) (w : World) : World :=
  {| proxy := {| botClient := botClient (proxy w);
                 meetingBaasClients := meetingBaasClients (proxy w);
                 gladiaClient := gladiaClient (proxy w);
                 isGladiaSessionActive := isGladiaSessionActive (proxy w);
                 lastSpeaker := v;
                 activeBotId := activeBotId (proxy w) |};
     net := net w |}.

Definition set_roles (v : gmap nat Role) (w : World) : World :=
  {| proxy := proxy w;
     net := {| roles := v;
               readyState := readyState (net w);
               microtasks := microtasks (net w);
               appending := appending (net w);
               sent := sent (net w);
               appended := appended (net w);
               calls := calls (net w) |} |}.

Definition set_readyState (v : nat -> ReadyState) (w : World) : World :=
  {| proxy := proxy w;
     net := {| roles := roles (net w);
               readyState := v;
               microtasks := microtasks (net w);
               appending := appending (net w);
               sent := sent (net w);
               appended := appended (net w);
               calls := calls (net w) |} |}.

Definition set_microtasks (v : list Microtask) (w : World) : World :=
  {| proxy := proxy w;
     net := {| roles := roles (net w);
               readyState := readyState (net w);
               microtasks := v;
               appending := appending (net w);
               sent := sent (net w);
               appended := appended (net w);
               calls := calls (net w) |} |}.

Definition set_appending (v : list TranscriptionMessage) (w : World) : World :=
  {| proxy := proxy w;
     net := {| roles := roles (net w);
               readyState := readyState (net w);
               microtasks := microtasks (net w);
               appending := v;
               sent := sent (net w);
               appended := appended (net w);
               calls := calls (net w) |} |}.

Definition set_sent (v : list (nat * Frame)) (w : World) : World :=
  {| proxy := proxy w;
     net := {| roles := roles (net w);
               readyState := readyState (net w);
               microtasks := microtasks (net w);
               appending := appending (net w);
               sent := v;
               appended := appended (net w);
               calls := calls (net w) |} |}.

Definition set_appended (v : list (string * JSValue)) (w : World) : World :=
  {| proxy := proxy w;
     net := {| roles := roles (net w);
               readyState := readyState (net w);
               microtasks := microtasks (net w);
               appending := appending (net w);
               sent := sent (net w);
               appended := v;
               calls := calls (net w) |} |}.

Definition set_calls (v : list Batcher.Call) (w : World) : World :=
  {| proxy := proxy w;
     net := {| roles := roles (net w);
               readyState := readyState (net w);
               microtasks := microtasks (net w);
               appending := appending (net w);
               sent := sent (net w);
               appended := appended (net w);
               calls := v |} |}.

(** [ws.readyState === WebSocket.OPEN] *)
Definition isOpen (ws : nat) (w : World) : bool :=
  bool_decide (readyState (net w) ws = OPEN).

(** [ws.send(data)] *)
Definition send (ws : nat) (f : Frame) (w : World) : World :=
  set_sent (sent (net w) ++ [(ws, f)]) w.

(** [ws.close()]: the closing handshake starts. *)
Definition close (ws : nat) (w : World) : World :=
  set_readyState (<[ws := CLOSING]> (readyState (net w))) w.

(** [if (this.botClient && this.botClient.readyState === WebSocket.OPEN)
        this.botClient.send(data)] *)
Definition sendToBot (f : Frame) (w : World) : World :=
  match botClient (proxy w) with
  | Some bot => if isOpen bot w then send bot f w else w
  | None => w
  end.

(** Truthiness of [this.activeBotId]: a string that is not empty. *)
Definition botId_set (id : option string) : option string :=
  match id with
  | Some s => if String.eqb s "" then None else Some s
  | None => None
  end.

Section WithRuntime.

(** [JSON.parse] (a SyntaxError on text that is not JSON), and
    [proxyConfig.audioParams] from the configuration module. *)
Variable JSON_parse : string -> Completion JSValue.
Variables (sampleRate channels : Z).

(** *** The callback given to [gladiaClient.onTranscription] *)

(** The continuation after [await appendTranscription(...)], and the
    whole rest of the callback when that call is not made. *)
Definition callback_send (msg : TranscriptionMessage) (w : World) : World :=
  sendToBot (Transcription msg) w.

(** [async (text, isFinal) => {...}]; [t1] and [t2] are the two
    [Date.now()]. *)
Definition callback (t1 t2 : Z) (c : Batcher.Call) (w : World) : World :=
  let '(text, isFinal) := c in
  let w := set_calls (calls (net w) ++ [c]) w in
  let transcriptionMsg :=
    {| text := text; isFinal := isFinal; startTime := t1; endTime := t2 |} in
  match (if isFinal then botId_set (activeBotId (proxy w)) else None) with
  | Some id =>
      set_appending (appending (net w) ++ [transcriptionMsg])
        (set_appended (appended (net w) ++ [(id, text)]) w)
  | None => callback_send transcriptionMsg w
  end.

(** *** [constructor(botId)] *)

Definition constructor (botId : option string)
    (dirExisted : bool) (files : gmap Z Buffer) : World :=
  {| proxy := {| botClient := None;
                 meetingBaasClients := ∅;
                 gladiaClient :=
                   Batcher.onTranscription (Batcher.constructor dirExisted files);
                 isGladiaSessionActive := false;
                 lastSpeaker := JNull;
                 activeBotId := botId |};
     net := {| roles := ∅;
               readyState := fun _ => OPEN;
               microtasks := [];
               appending := [];
               sent := [];
               appended := [];
               calls := [] |} |}.

(** *** [setupBotClient(ws)] and its handlers *)

Definition setupBotClient (ws : nat) (w : World) : World :=
  set_roles (<[ws := Bot]> (roles (net w))) (set_botClient (Some ws) w).

(** [ws.on("message")] of a bot connection; the set is walked in the
    order of [elements]. *)
Definition onBotMessage (message : RawData) (w : World) : World :=
  foldl (fun w client =>
           if isOpen client w
           then send client (Text (Utf8.messageToString message)) w else w)
        w (elements (meetingBaasClients (proxy w))).

Definition onBotClose (w : World) : World := set_botClient None w.

(** *** [setupMeetingBaasClient(ws)] and its handlers *)

Definition setupMeetingBaasClient (ws : nat) (w : World) : World :=
  let w := set_meetingBaasClients ({[ws]} ∪ meetingBaasClients (proxy w)) w in
  let w :=
    if negb (isGladiaSessionActive (proxy w)) then
      let '(client, success) := Batcher.initSession (gladiaClient (proxy w)) in
      set_microtasks (microtasks (net w) ++ [SessionStarted success])
        (set_gladiaClient client w)
    else w in
  set_roles (<[ws := Meeting]> (roles (net w))) w.

(** The [try] block of the message handler, for a buffer. *)
Definition speakerActivity (message : Buffer) (w : World) : Completion World :=
  jsonData ← JSON_parse (Utf8.toString message);
  match jsonData with
  | JArray (item :: _) =>
      hasName ← has_property "name" item;
      hasSpeaking ← (if hasName : bool then has_property "isSpeaking" item
                     else Normal false);
      if hasSpeaking : bool then
        let speakerInfo := item in
        isSpeaking ← get speakerInfo "isSpeaking";
        name ← (if truthy isSpeaking then get speakerInfo "name"
                else Normal JUndefined);
        if truthy isSpeaking
           && (strict_eq (lastSpeaker (proxy w)) JNull
               || negb (strict_eq (lastSpeaker (proxy w)) name))
        then Normal (set_lastSpeaker name w)
        else Normal w
      else Normal w
  | _ => Normal w
  end.

Definition onMeetingMessage (message : RawData) (w : World) : World :=
  let w :=
    match message with
    | BufferData b =>
        match speakerActivity b w with
        | Normal w' => w'
        | Throw _ =>
            if isGladiaSessionActive (proxy w)
            then set_gladiaClient
                   (Batcher.sendAudioChunk b (gladiaClient (proxy w))).1 w
            else w
        end
    | StringData _ => w
    end in
  sendToBot (Text (Utf8.messageToString message)) w.

Definition onMeetingClose (ws : nat) (now : Z) (w : World) : World :=
  let w := set_meetingBaasClients (meetingBaasClients (proxy w) ∖ {[ws]}) w in
  if bool_decide (size (meetingBaasClients (proxy w)) = 0%nat)
     && isGladiaSessionActive (proxy w)
  then set_isGladiaSessionActive false
         (set_gladiaClient
            (Batcher.endSession sampleRate channels now (gladiaClient (proxy w))) w)
  else w.

(** *** The [connection] handler: [ws.once("message")] *)

Definition onFirstMessage (ws : nat) (message : RawData) (w : World)
  : Completion World :=
  try_catch
    (msg ← JSON_parse (Utf8.messageToString message);
     type ← get msg "type";
     isBot ← (if is_string "register" type
              then client ← get msg "client"; Normal (is_string "bot" client)
              else Normal false);
     if isBot : bool then Normal (setupBotClient ws w)
     else Normal (setupMeetingBaasClient ws w))
    (fun _ => Normal (setupMeetingBaasClient ws w)).

(** *** [shutdown()] *)

Definition shutdown (now : Z) (w : World) : World :=
  let w :=
    if isGladiaSessionActive (proxy w)
    then set_isGladiaSessionActive false
           (set_gladiaClient
              (Batcher.endSession sampleRate channels now (gladiaClient (proxy w))) w)
    else w in
  let w := foldl (fun w client => if isOpen client w then close client w else w)
                 w (elements (meetingBaasClients (proxy w))) in
  match botClient (proxy w) with
  | Some bot => if isOpen bot w then close bot w else w
  | None => w
  end.

(** *** The event loop *)

Inductive Event :=
  | Message (ws : nat) (message : RawData)
  | Close (ws : nat) (now : Z)
  | SocketState (ws : nat) (st : ReadyState)
  | TimerFires (id : nat) (now : Z)
  | PostSettles (i : nat) (o : Batcher.Outcome) (t1 t2 : Z)
  | AppendSettles (i : nat)
  | Shutdown (now : Z).

Definition runMicrotask (w : World) (m : Microtask) : World :=
  match m with
  | SessionStarted success => set_isGladiaSessionActive success w
  end.

(** The microtask queue is emptied when a handler returns: the reaction of
    a promise that is already resolved (an [async] function that ran to
    its end without an [await]) runs as soon as the call stack is empty,
    before the next connection, close, timer or response event. *)
Definition drain (w : World) : World :=
  foldl runMicrotask (set_microtasks [] w) (microtasks (net w)).

(** The handler an event runs; an exception that leaves a handler is the
    [Throw] of the result. *)
Definition handle (w : World) (e : Event) : Completion World :=
  match e with
  | Message ws message =>
      match roles (net w) !! ws with
      | None => onFirstMessage ws message w
      | Some Bot => Normal (onBotMessage message w)
      | Some Meeting => Normal (onMeetingMessage message w)
      end
  | Close ws now =>
      let w := set_readyState (<[ws := CLOSED]> (readyState (net w))) w in
      match roles (net w) !! ws with
      | None => Normal w
      | Some Bot => Normal (onBotClose w)
      | Some Meeting => Normal (onMeetingClose ws now w)
      end
  | SocketState ws st =>
      Normal (set_readyState (<[ws := st]> (readyState (net w))) w)
  | TimerFires id now =>
      Normal (set_gladiaClient
                (Batcher.step sampleRate channels (gladiaClient (proxy w))
                   (Batcher.TimerFires id now)).1 w)
  | PostSettles i o t1 t2 =>
      let '(client, call) :=
        Batcher.step sampleRate channels (gladiaClient (proxy w))
          (Batcher.PostSettles i o) in
      let w := set_gladiaClient client w in
      Normal (match call with Some c => callback t1 t2 c w | None => w end)
  | AppendSettles i =>
      match appending (net w) !! i with
      | Some msg =>
          Normal (callback_send msg
                    (set_appending (delete i (appending (net w))) w))
      | None => Normal w
      end
  | Shutdown now => Normal (shutdown now w)
  end.

(** One turn of the loop.  An exception nobody caught would end the
    process: the world is then left as it was and the turn is [None]. *)
Definition dispatch (w : World) (e : Event) : option World :=
  match handle w e with
  | Normal w' => Some (drain w')
  | Throw _ => None
  end.

Fixpoint run (w : World) (evs : list Event) : option World :=
  match evs with
  | [] => Some w
  | e :: rest => w' ← dispatch w e; run w' rest
  end.

Definition is_shutdown (e : Event) : bool :=
  match e with Shutdown _ => true | _ => false end.

(** The role the classifier gives a first message, read off the
    handlers it attaches. *)
Definition classify (message : RawData) : Completion Role :=
  try_catch
    (msg ← JSON_parse (Utf8.messageToString message);
     type ← get msg "type";
     isBot ← (if is_string "register" type
              then client ← get msg "client"; Normal (is_string "bot" client)
              else Normal false);
     Normal (if isBot : bool then Bot else Meeting))
    (fun _ => Normal Meeting).

(** The decision taken inside the [try] block of the classifier. *)
Definition decision (message : RawData) : Completion bool :=
  msg ← JSON_parse (Utf8.messageToString message);
  type ← get msg "type";
  if is_string "register" type
  then client ← get msg "client"; Normal (is_string "bot" client)
  else Normal false.

(** "The message parses as JSON and has type register and client bot". *)
Definition registers_bot (message : RawData) : Prop :=
  exists msg,
    JSON_parse (Utf8.messageToString message) = Normal msg
    /\ get msg "type" = Normal (JString "register")
    /\ get msg "client" = Normal (JString "bot").

(** The session flag agrees with the Meeting set, and no promise reaction
    is waiting. *)
Definition settled (w : World) : Prop :=
  microtasks (net w) = []
  /\ (isGladiaSessionActive (proxy w) = true <-> meetingBaasClients (proxy w) ≠ ∅).

(** What a handler leaves behind, before the microtasks run. *)
Definition pending_ok (w : World) : Prop :=
  settled w
  \/ (microtasks (net w) = [SessionStarted true]
      /\ meetingBaasClients (proxy w) ≠ ∅).

End WithRuntime.

(** A payload that [toString] and [send] carry over unchanged for sure: a
    text frame, or a buffer of 7-bit octets. *)
Definition plain (message : RawData) : bool :=
  match message with
  | StringData _ => true
  | BufferData b => Utf8.ascii_only b
  end.

Definition is_transcription (f : Frame) : bool :=
  match f with Transcription _ => true | Text _ => false end.

(** A frame is a forwarded text, or it is a transcription marked final. *)
Definition final_frame (x : nat * Frame) : Prop :=
  match x.2 with
  | Transcription data => isFinal data = true
  | Text _ => True
  end.

(** The calls [appendTranscription] gets when every call of the callback
    is handed on under the identifier [id]. *)
Definition handed_on (id : option string) (cs : list Batcher.Call)
  : list (string * JSValue) :=
  match botId_set id with
  | Some id => (fun c : Batcher.Call => (id, c.1)) <$> cs
  | None => []
  end.

(** Every transcript is final: the calls of the callback, the callbacks
    suspended at the persistence call, the frames sent; and the persistence
    calls are those of the callback. *)
Definition final_only (botId : option string) (w : World) : Prop :=
  activeBotId (proxy w) = botId
  /\ Forall (fun c : Batcher.Call => c.2 = true) (calls (net w))
  /\ Forall (fun data => isFinal data = true) (appending (net w))
  /\ Forall final_frame (sent (net w))
  /\ appended (net w) = handed_on botId (calls (net w)).

(** The logs a handler leaves alone when it only relays text. *)
Definition logs (w : World) :=
  (activeBotId (proxy w), calls (net w), appending (net w), appended (net w)).

Definition quiet (w w' : World) : Prop :=
  logs w' = logs w
  /\ exists l, sent (net w') = sent (net w) ++ l
              /\ Forall (fun x => is_transcription x.2 = false) l.

(** The timer of the session is armed exactly while the flag is set, and
    it is the only one. *)
Definition one_timer (w : World) : Prop :=
  if isGladiaSessionActive (proxy w)
  then exists id, Batcher.clock (gladiaClient (proxy w))
                  = (Some id, {[id := 5000]})
  else Batcher.clock (gladiaClient (proxy w)) = (None, ∅).

(** The same between a start and the promise reaction that sets the
    flag. *)
Definition timer_pending (w : World) : Prop :=
  (microtasks (net w) = [] /\ one_timer w)
  \/ (microtasks (net w) = [SessionStarted true]
      /\ exists id, Batcher.clock (gladiaClient (proxy w))
                    = (Some id, {[id := 5000]})).

(** The part of a world the timer invariant is about. *)
Definition timing (w : World) : bool * (option nat * gmap nat Z) * list Microtask :=
  (isGladiaSessionActive (proxy w), Batcher.clock (gladiaClient (proxy w)),
   microtasks (net w)).

(** The part of a world the session invariant is about. *)
Definition core (w : World) : bool * gset nat * list Microtask :=
  (isGladiaSessionActive (proxy w), meetingBaasClients (proxy w),
   microtasks (net w)).

End Relay.

(* ================================================================== *)
(** ** Concrete runs *)
(* ================================================================== *)

(** A deployment with 16 kHz mono audio, and states of it that the
    statements below are evaluated at. *)
Module Scenario.
Import JS.

Definition sampleRate : Z := 16000.
Definition channels : Z := 1.

(** A Batcher whose session was started and that holds one chunk. *)
Definition ready : Batcher.State :=
  (Batcher.sendAudioChunk [x01; x02]
     (Batcher.initSession
        (Batcher.onTranscription (Batcher.constructor true ∅))).1).1.

(** The container of that chunk: the header for two octets, then them. *)
Definition container : Buffer :=
  [ x52; x49; x46; x46;  x26; x00; x00; x00;  x57; x41; x56; x45;
    x66; x6d; x74; x20;  x10; x00; x00; x00;  x01; x00;  x01; x00;
    x80; x3e; x00; x00;  x00; x7d; x00; x00;  x02; x00;  x10; x00;
    x64; x61; x74; x61;  x02; x00; x00; x00;  x01; x02 ].

(** The timer fired at time 1000: the flush of the chunk is under way. *)
Definition flushing : Batcher.State :=
  Batcher.processAudioBuffer sampleRate channels 1000 ready.

(** A backend response that carries [text]. *)
Definition response (text : string) : JSValue :=
  JObject [("text", JString text)].

(** The registration message of the bot,
    [{"type":"register","client":"bot"}]. *)
Definition quote : string := String "034"%char EmptyString.
Definition register_text : string :=
  String.concat quote
    ["{"; "type"; ":"; "register"; ","; "client"; ":"; "bot"; "}"].

(** [JSON.parse] on the texts of the runs below: the registration message,
    and payloads that are not JSON. *)
Definition parse (s : string) : Completion JSValue :=
  if String.eqb s register_text
  then Normal (JObject [("type", JString "register"); ("client", JString "bot")])
  else Throw SyntaxError.

(** A relay for bot identifier "bot-1": connection 1 registers as the bot,
    connection 2 sends audio as its first message and so becomes a Meeting
    connection, which starts the session. *)
Definition connected : list Relay.Event :=
  [Relay.Message 1 (StringData register_text);
   Relay.Message 2 (BufferData [x00; x00])].

Definition relay (evs : list Relay.Event) : option Relay.World :=
  Relay.run parse sampleRate channels
    (Relay.constructor (Some "bot-1") true ∅) evs.

(** Two octets of audio from the Meeting connection, and the timer of the
    session firing at time 1000: a flush is under way. *)
Definition flushed : list Relay.Event :=
  connected ++ [Relay.Message 2 (BufferData [x00; x00]);
                Relay.TimerFires 0 1000].

(** The world a run ends in (the new relay, had the run been cut short by
    an exception). *)
Definition after (evs : list Relay.Event) : Relay.World :=
  default (Relay.constructor (Some "bot-1") true ∅) (relay evs).

End Scenario.

(* ================================================================== *)
(** ** The bot: class [TranscriptionBot] *)
(* ================================================================== *)

(** The bot keeps the same three fields as the Batcher ([audioBuffer],
    [isProcessing], [processingInterval]) and its [processAudioBuffer] has
    the same text up to the [await]; they are kept in a [Batcher.State]
    whose callback field the bot does not have and never reads.  The
    request is a [fetch], which resolves for every answer of the backend
    and rejects only when there is none, and the body is read by a second
    [await]. *)
Module Bot.
Import JS.
Import (hints) Relay.

(** A [response.json()] that has not settled: all the continuation needs
    of the response is [response.ok]. *)
Record Reading := {
  ok : bool;
}.

(** How a [fetch] settles. *)
Inductive FetchOutcome :=
  | Responded (ok : bool)
  | NetworkError.

Record State := {
  proxyClient : option nat;
  batch : Batcher.State;            (* the three fields, timers, files, and
                                       the [fetch] promises pending *)
  reading : list Reading;           (* [response.json()] promises pending *)
  listeners : nat;                  (* [connection] listeners on the server *)
  attached : gmap nat nat;          (* handler sets attached to a connection *)
  readyState : nat -> Relay.ReadyState;
  sent : list (nat * Relay.Frame);  (* every [ws.send], oldest first *)
  awaiting : bool;                  (* [shutdown] is suspended on the promise
                                       of its call of [processAudioBuffer] *)
  closed : bool;                    (* [server.close] was called *)
}.

(** *** Field updates *)

Definition set_proxyClient (v : option nat) (s : State) : State :=
  {| proxyClient := v; batch := batch s; reading := reading s;
     listeners := listeners s; attached := attached s;
     readyState := readyState s; sent := sent s; awaiting := awaiting s;
     closed := closed s |}.

Definition set_batch (v : Batcher.State) (s : State) : State :=
  {| proxyClient := proxyClient s; batch := v; reading := reading s;
     listeners := listeners s; attached := attached s;
     readyState := readyState s; sent := sent s; awaiting := awaiting s;
     closed := closed s |}.

Definition set_reading (v : list Reading) (s : State) : State :=
  {| proxyClient := proxyClient s; batch := batch s; reading := v;
     listeners := listeners s; attached := attached s;
     readyState := readyState s; sent := sent s; awaiting := awaiting s;
     closed := closed s |}.

Definition set_listeners (v : nat) (s : State) : State :=
  {| proxyClient := proxyClient s; batch := batch s; reading := reading s;
     listeners := v; attached := attached s;
     readyState := readyState s; sent := sent s; awaiting := awaiting s;
     closed := closed s |}.

Definition set_attached (v : gmap nat nat) (s : State) : State :=
  {| proxyClient := proxyClient s; batch := batch s; reading := reading s;
     listeners := listeners s; attached := v;
     readyState := readyState s; sent := sent s; awaiting := awaiting s;
     closed := closed s |}.

Definition set_readyState (v : nat -> Relay.ReadyState) (s : State) : State :=
  {| proxyClient := proxyClient s; batch := batch s; reading := reading s;
     listeners := listeners s; attached := attached s;
     readyState := v; sent := sent s; awaiting := awaiting s;
     closed := closed s |}.

Definition set_sent (v : list (nat * Relay.Frame)) (s : State) : State :=
  {| proxyClient := proxyClient s; batch := batch s; reading := reading s;
     listeners := listeners s; attached := attached s;
     readyState := readyState s; sent := v; awaiting := awaiting s;
     closed := closed s |}.

Definition set_awaiting (v : bool) (s : State) : State :=
  {| proxyClient := proxyClient s; batch := batch s; reading := reading s;
     listeners := listeners s; attached := attached s;
     readyState := readyState s; sent := sent s; awaiting := v;
     closed := closed s |}.

Definition set_closed (v : bool) (s : State) : State :=
  {| proxyClient := proxyClient s; batch := batch s; reading := reading s;
     listeners := listeners s; attached := attached s;
     readyState := readyState s; sent := sent s; awaiting := awaiting s;
     closed := v |}.

Definition isOpen (ws : nat) (s : State) : bool :=
  bool_decide (readyState s ws = Relay.OPEN).

Section WithRuntime.

(** [JSON.parse], [Buffer.from(value, "base64")] (which throws on a value
    it cannot take), and [proxyConfig.audioParams]. *)
Variable JSON_parse : string -> Completion JSValue.
Variable Buffer_from_base64 : JSValue -> Completion Buffer.
Variables (sampleRate channels : Z).

(** [constructor()] *)
Definition constructor (dirExisted : bool) (files : gmap Z Buffer) : State :=
  {| proxyClient := None;
     batch := Batcher.constructor dirExisted files;
     reading := [];
     listeners := 0;
     attached := ∅;
     readyState := fun _ => Relay.OPEN;
     sent := [];
     awaiting := false;
     closed := false |}.

(** [start()]: one more timer, one more [connection] listener. *)
Definition start (s : State) : State :=
  set_listeners (S (listeners s)) (set_batch (Batcher.initSession (batch s)).1 s).

(** One [connection] listener run for [ws]. *)
Definition onConnection (ws : nat) (s : State) : State :=
  set_attached (<[ws := S (default 0%nat (attached s !! ws))]> (attached s))
    (set_proxyClient (Some ws) s).

(** [processAudioData(audioData)] *)
Definition processAudioData (audioData : JSValue) (s : State) : State :=
  match (audio ← get audioData "audio"; Buffer_from_base64 audio) with
  | Normal audioBuffer =>
      set_batch (Batcher.sendAudioChunk audioBuffer (batch s)).1 s
  | Throw _ => s
  end.

(** [ws.on("message")] *)
Definition onMessage (message : RawData) (s : State) : State :=
  match (msg ← JSON_parse (Utf8.messageToString message);
         type ← get msg "type";
         if is_string "audio" type
         then data ← get msg "data"; Normal (processAudioData data s)
         else Normal s) with
  | Normal s' => s'
  | Throw _ => s
  end.

Definition onClose (s : State) : State := set_proxyClient None s.

(** The rest of [shutdown()], after the final flush. *)
Definition shutdown_rest (s : State) : State :=
  let n := Batcher.node (batch s) in
  let s := if Batcher.tempDirExists n
           then set_batch (Batcher.set_node (Batcher.set_files false ∅ n) (batch s)) s
           else s in
  let s := match proxyClient s with
           | Some ws =>
               if isOpen ws s
               then set_readyState (<[ws := Relay.CLOSING]> (readyState s)) s
               else s
           | None => s
           end in
  set_closed true s.

(** A flush is over ([finally]): the flag is reset, and a [shutdown]
    that waits for it goes on. *)
Definition finish (s : State) : State :=
  let s := set_batch (Batcher.set_isProcessing false (batch s)) s in
  if awaiting s then shutdown_rest (set_awaiting false s) else s.

(** [shutdown()] up to its [await]: [processAudioBuffer()] is awaited, and
    the call is suspended when that call is. *)
Definition shutdown (now : Z) (s : State) : State :=
  let b := batch s in
  let b := match Batcher.processingInterval (Batcher.this b) with
           | Some id =>
               Batcher.set_processingInterval None
                 (Batcher.set_node (Batcher.clearInterval id (Batcher.node b)) b)
           | None => b
           end in
  if bool_decide (Batcher.audioBuffer (Batcher.this b) ≠ []) then
    let b' := Batcher.processAudioBuffer sampleRate channels now b in
    if negb (Batcher.isProcessing (Batcher.this b))
       && Batcher.isProcessing (Batcher.this b')
    then set_awaiting true (set_batch b' s)
    else shutdown_rest (set_batch b' s)
  else shutdown_rest (set_batch b s).

(** The continuation of [processAudioBuffer()] when its [fetch] settles. *)
Definition resume_fetch (r : Batcher.Request) (o : FetchOutcome) (s : State)
  : State :=
  match o with
  | NetworkError => finish s
  | Responded ok =>
      match Batcher.unlinkSync (Batcher.tempFile r) (Batcher.node (batch s)) with
      | Throw _ => finish s
      | Normal n =>
          set_reading (reading s ++ [{| ok := ok |}])
            (set_batch (Batcher.set_node n (batch s)) s)
      end
  end.

(** The continuation when [response.json()] settles; [t1] and [t2] are
    the two [Date.now()]. *)
Definition resume_json (rd : Reading) (body : Completion JSValue) (t1 t2 : Z)
    (s : State) : State :=
  if ok rd then
    match (data ← body; get data "text") with
    | Normal text =>
        if truthy text then
          match proxyClient s with
          | Some ws =>
              if isOpen ws s then
                let transcriptionMessage :=
                  {| Relay.text := text; Relay.isFinal := true;
                     Relay.startTime := t1 - 5000; Relay.endTime := t2 |} in
                finish
                  (set_sent (sent s ++ [(ws, Relay.Transcription transcriptionMessage)]) s)
              else finish s
          | None => finish s
          end
        else finish s
    | Throw _ => finish s
    end
  else finish s.

(** *** The bot in its event loop *)

Inductive Event :=
  | CallStart
  | Connection (ws : nat)
  | Message (ws : nat) (message : RawData)
  | Close (ws : nat)
  | SocketState (ws : nat) (st : Relay.ReadyState)
  | TimerFires (id : nat) (now : Z)
  | FetchSettles (i : nat) (o : FetchOutcome)
  | JsonSettles (i : nat) (body : Completion JSValue) (t1 t2 : Z)
  | CallShutdown (now : Z).

Definition step (s : State) (e : Event) : State :=
  match e with
  | CallStart => start s
  | Connection ws => Nat.iter (listeners s) (onConnection ws) s
  | Message ws message =>
      Nat.iter (default 0%nat (attached s !! ws)) (onMessage message) s
  | Close ws =>
      let s := set_readyState (<[ws := Relay.CLOSED]> (readyState s)) s in
      Nat.iter (default 0%nat (attached s !! ws)) onClose s
  | SocketState ws st => set_readyState (<[ws := st]> (readyState s)) s
  | TimerFires id now =>
      set_batch (Batcher.step sampleRate channels (batch s)
                   (Batcher.TimerFires id now)).1 s
  | FetchSettles i o =>
      let n := Batcher.node (batch s) in
      match Batcher.inflight n !! i with
      | Some r =>
          resume_fetch r o
            (set_batch
               (Batcher.set_node
                  (Batcher.set_inflight (delete i (Batcher.inflight n)) n)
                  (batch s)) s)
      | None => s
      end
  | JsonSettles i body t1 t2 =>
      match reading s !! i with
      | Some rd => resume_json rd body t1 t2 (set_reading (delete i (reading s)) s)
      | None => s
      end
  | CallShutdown now => shutdown now s
  end.

Definition run (s : State) (evs : list Event) : State := foldl step s evs.

(** The flushes under way: waiting for the answer or for its body. *)
Definition flushes_in_flight (s : State) : nat :=
  (length (Batcher.inflight (Batcher.node (batch s))) + length (reading s))%nat.

(** A flush is under way exactly while the flag is set, and never more
    than one. *)
Definition serialized (s : State) : Prop :=
  flushes_in_flight s
  = if Batcher.isProcessing (Batcher.this (batch s)) then 1%nat else 0%nat.

(** A transcription frame marked final whose text is truthy. *)
Definition final_transcript (x : nat * Relay.Frame) : Prop :=
  match x.2 with
  | Relay.Transcription data =>
      Relay.isFinal data = true /\ truthy (Relay.text data) = true
  | Relay.Text _ => False
  end.

(** The buffer an audio message carries: the message parses, its [type]
    is "audio", and [Buffer.from] takes [data.audio]. *)
Definition audio_of (message : RawData) : option Buffer :=
  match (msg ← JSON_parse (Utf8.messageToString message);
         type ← get msg "type";
         if is_string "audio" type
         then data ← get msg "data"; audio ← get data "audio";
              Buffer_from_base64 audio
         else Throw TypeError) with
  | Normal b => Some b
  | Throw _ => None
  end.

End WithRuntime.

End Bot.

(* ================================================================== *)
(** ** The server: class [MeetingBaasClient] and [startBotHandler] *)
(* ================================================================== *)

(** The handler of [POST /start-bot] makes a [MeetingBaasClient], keeps it
    in the module variable [meetingBaasClient], awaits its [connect] and
    then reads the bot identifier back through the module variable.  The
    objects live in a store, addressed by position, and a call of
    [connect] is suspended twice: at [axios.post] and at [insertBot]. *)
Module Server.
Import JS.

(** An object of class [MeetingBaasClient]: its field [botId]. *)
Record MeetingBaasClient := {
  botId : JSValue;
}.

(** What [startBotHandler] writes to [res], by its message. *)
Inductive Answer :=
  | MissingParameters
  | FailedToConnect
  | BotIdMissing
  | InternalError
  | Started.


(** A call of [connect] that is suspended: the request whose handler
    awaits it, the object it runs on, and its argument [meetingId]. *)
Record Connect := {
  request : nat;
  this : nat;
  meetingId : JSValue;
}.

(** How [axios.post] settles: with [response.data], or not. *)
Inductive PostOutcome :=
  | Resolved (data : JSValue)
  | Rejected.

Record State := {
  clients : list MeetingBaasClient;     (* the objects made, by address *)
  meetingBaasClient : option nat;       (* the module variable *)
  proxy : option JSValue;               (* the module variable: the bot
                                           identifier its proxy was made with *)
  posting : list Connect;               (* suspended at [axios.post] *)
  inserting : list Connect;             (* suspended at [insertBot] *)
  inserted : list (JSValue * JSValue);  (* every [db.execute] of [insertBot] *)
  deleted : list JSValue;               (* every [axios.delete], by bot *)
  answers : list (nat * Answer);        (* every response, oldest first *)
}.

Definition init : State :=
  {| clients := []; meetingBaasClient := None; proxy := None;
     posting := []; inserting := []; inserted := []; deleted := [];
     answers := [] |}.

(** *** Field updates *)

Definition set_clients (v : list MeetingBaasClient) (s : State) : State :=
  {| clients := v; meetingBaasClient := meetingBaasClient s; proxy := proxy s;
     posting := posting s; inserting := inserting s; inserted := inserted s;
     deleted := deleted s; answers := answers s |}.

Definition set_meetingBaasClient (v : option nat) (s : State) : State :=
  {| clients := clients s; meetingBaasClient := v; proxy := proxy s;
     posting := posting s; inserting := inserting s; inserted := inserted s;
     deleted := deleted s; answers := answers s |}.

Definition set_proxy (v : option JSValue) (s : State) : State :=
  {| clients := clients s; meetingBaasClient := meetingBaasClient s; proxy := v;
     posting := posting s; inserting := inserting s; inserted := inserted s;
     deleted := deleted s; answers := answers s |}.

Definition set_posting (v : list Connect) (s : State) : State :=
  {| clients := clients s; meetingBaasClient := meetingBaasClient s;
     proxy := proxy s; posting := v; inserting := inserting s;
     inserted := inserted s; deleted := deleted s; answers := answers s |}.

Definition set_inserting (v : list Connect) (s : State) : State :=
  {| clients := clients s; meetingBaasClient := meetingBaasClient s;
     proxy := proxy s; posting := posting s; inserting := v;
     inserted := inserted s; deleted := deleted s; answers := answers s |}.

Definition set_inserted (v : list (JSValue * JSValue)) (s : State) : State :=
  {| clients := clients s; meetingBaasClient := meetingBaasClient s;
     proxy := proxy s; posting := posting s; inserting := inserting s;
     inserted := v; deleted := deleted s; answers := answers s |}.


(** [res.status(...).json(...)] *)
Definition respond (req : nat) (a : Answer) (s : State) : State :=
  {| clients := clients s; meetingBaasClient := meetingBaasClient s;
     proxy := proxy s; posting := posting s; inserting := inserting s;
     inserted := inserted s; deleted := deleted s;
     answers := answers s ++ [(req, a)] |}.

(** [this.botId = v] on the object at [c]. *)
Definition set_botId (c : nat) (v : JSValue) (s : State) : State :=
  set_clients (<[c := {| botId := v |}]> (clients s)) s.

(** *** Class [MeetingBaasClient] *)

(** [getBotId()] on the object at [c]. *)
Definition getBotId (c : nat) (s : State) : JSValue :=
  match clients s !! c with
  | Some o => botId o
  | None => JNull
  end.


(** *** [startBotHandler] *)

(** The handler from the return of [connect] on.  The bot identifier is
    read through the module variable. *)
Definition startBotHandler_resume (req : nat) (connected : bool) (s : State)
  : State :=
  if negb connected then respond req FailedToConnect s
  else
    match meetingBaasClient s with
    | Some g =>
        let botId := getBotId g s in
        if negb (truthy botId) then respond req BotIdMissing s
        else respond req Started (set_proxy (Some botId) s)
    | None => respond req InternalError s
    end.

(** The handler up to its [await], with [connect] up to [axios.post].
    Reading the parameters off a body that is [null] or [undefined] throws
    before the [try] block: the handler ends without a response. *)
Definition startBotHandler (req : nat) (body : JSValue) (s : State)
  : Completion State :=
  meeting_id ← get body "meeting_id";
  meeting_url ← get body "meeting_url";
  bot_name ← get body "bot_name";
  ngrok_url ← get body "ngrok_url";
  if negb (truthy meeting_url) || negb (truthy bot_name)
     || negb (truthy ngrok_url)
  then Normal (respond req MissingParameters s)
  else
    let c := length (clients s) in
    Normal
      (set_posting
         (posting s ++ [{| request := req; this := c; meetingId := meeting_id |}])
         (set_meetingBaasClient (Some c)
            (set_clients (clients s ++ [{| botId := JNull |}]) s))).

(** [connect] from the answer of [axios.post] to [await insertBot(...)],
    or to its end when it returns [false]. *)
Definition connect_resume (c : Connect) (o : PostOutcome) (s : State) : State :=
  match o with
  | Rejected => startBotHandler_resume (request c) false s
  | Resolved data =>
      match get data "bot_id" with
      | Throw _ => startBotHandler_resume (request c) false s
      | Normal id =>
          if negb (truthy id)
          then startBotHandler_resume (request c) false s
          else
            set_inserting (inserting s ++ [c])
              (set_inserted (inserted s ++ [(id, meetingId c)])
                 (set_botId (this c) id s))
      end
  end.

(** *** The server in its event loop *)

(** [insertBot] catches whatever its query does, so that the way the query
    settles is of no account. *)
Inductive Event :=
  | StartBot (req : nat) (body : JSValue)
  | PostSettles (i : nat) (o : PostOutcome)
  | InsertSettles (i : nat).

Definition step (s : State) (e : Event) : State :=
  match e with
  | StartBot req body =>
      match startBotHandler req body s with
      | Normal s' => s'
      | Throw _ => s
      end
  | PostSettles i o =>
      match posting s !! i with
      | Some c => connect_resume c o (set_posting (delete i (posting s)) s)
      | None => s
      end
  | InsertSettles i =>
      match inserting s !! i with
      | Some c =>
          startBotHandler_resume (request c) true
            (set_inserting (delete i (inserting s)) s)
      | None => s
      end
  end.

Definition run (s : State) (evs : list Event) : State := foldl step s evs.


(** The bot identifier an answer of the backend carries. *)
Definition bot_of (o : PostOutcome) : option JSValue :=
  match o with
  | Resolved data =>
      match get data "bot_id" with
      | Normal id => if truthy id then Some id else None
      | Throw _ => None
      end
  | Rejected => None
  end.

(** No call of [connect] is suspended. *)
Definition quiet (s : State) : Prop := posting s = [] /\ inserting s = [].

(** The answers given once [insertBot] is over. *)
Definition past_insert (x : nat * Answer) : bool :=
  match x.2 with
  | BotIdMissing | InternalError | Started => true
  | MissingParameters | FailedToConnect => false
  end.

(** While a call of [connect] is suspended the module variable refers to
    a client. *)
Definition wired (s : State) : Prop :=
  posting s <> [] \/ inserting s <> [] -> is_Some (meetingBaasClient s).

End Server.

(* ================================================================== *)
(** ** Further notions used in the statements *)
(* ================================================================== *)

Module Views.
Import JS.

(** Chunks handed to the Batcher one after another. *)
Definition feed (chunks : list Buffer) (s : Batcher.State) : Batcher.State :=
  foldl (fun s chunk => (Batcher.sendAudioChunk chunk s).1) s chunks.

(** The scratch directory is gone, and nothing is left of it. *)
Definition swept (s : Batcher.State) : Prop :=
  Batcher.tempDirExists (Batcher.node s) = false
  /\ Batcher.tempFiles (Batcher.node s) = ∅.

(** No file is recorded in a directory that does not exist. *)
Definition tidy (s : Batcher.State) : Prop :=
  Batcher.tempDirExists (Batcher.node s) = false ->
  Batcher.tempFiles (Batcher.node s) = ∅.

(** A Batcher whose session was started, with nothing buffered. *)
Definition started : Batcher.State :=
  (Batcher.initSession
     (Batcher.onTranscription (Batcher.constructor true ∅))).1.

(** The decoder at a sequence under way that [seen] led to. *)
Definition reached (p : Utf8.Pending) : Prop :=
  forall xs, Utf8.decode None (Utf8.seen p ++ xs) = Utf8.decode (Some p) xs.


Section WithParser.
Variable JSON_parse : string -> Completion JSValue.


End WithParser.


(** An audio message for the bot and [JSON.parse] on it:
    [{"type":"audio","data":{"audio":"AQI=","sampleRate":16000,"channels":1}}]. *)
Definition audio_text : string :=
  String.concat Scenario.quote
    ["{"; "type"; ":"; "audio"; ","; "data"; ":{"; "audio"; ":"; "AQI="; ",";
     "sampleRate"; ":16000,"; "channels"; ":1}}"].
Definition audio_octets : Buffer := list_byte_of_string audio_text.
Definition audio_parse (s : string) : Completion JSValue :=
  if String.eqb s audio_text
  then Normal (JObject [("type", JString "audio");
                        ("data", JObject [("audio", JString "AQI=");
                                          ("sampleRate", JNumber 16000);
                                          ("channels", JNumber 1)])])
  else Throw SyntaxError.

(** [Buffer.from(v, "base64")] on the values of the runs below: the text
    "AQI=" holds the octets 01 02, [undefined] is refused, and no other
    value occurs. *)
Definition from_base64 (v : JSValue) : Completion Buffer :=
  match v with
  | JString s => if String.eqb s "AQI=" then Normal [x01; x02] else Normal []
  | _ => Throw TypeError
  end.

(** A bot started once, with connection 7 as its proxy client and one
    audio message received. *)
Definition bot_ready : Bot.State :=
  Bot.run audio_parse from_base64 Scenario.sampleRate Scenario.channels
    (Bot.constructor true ∅)
    [Bot.CallStart; Bot.Connection 7; Bot.Message 7 (BufferData audio_octets)].

(** The timer of that bot firing at time 1000: a flush is under way. *)
Definition bot_flushing : Bot.State :=
  Bot.step audio_parse from_base64 Scenario.sampleRate Scenario.channels
    bot_ready (Bot.TimerFires 0 1000).

(** A bot started once to which connection 1, then connection 2 were
    made. *)
Definition bot_two : Bot.State :=
  Bot.run audio_parse from_base64 Scenario.sampleRate Scenario.channels
    (Bot.constructor true ∅)
    [Bot.CallStart; Bot.Connection 1; Bot.Connection 2].


End Views.

(* ================================================================== *)
(** * Properties *)
(* ================================================================== *)

(** ** The container header *)

Module WavFacts.
Import JS Wav.

Lemma Z_of_byte_of_Z z : Z_of_byte (byte_of_Z z) = z mod 256.
Proof.
  unfold Z_of_byte, byte_of_Z.
  assert (Hb : 0 <= z mod 256 < 256) by (apply Z.mod_pos_bound; lia).
  destruct (Byte.of_N (Z.to_N (z mod 256))) as [b|] eqn:E.
  - apply Byte.to_of_N in E. rewrite E. lia.
  - apply Byte.of_N_None_iff in E. lia.
Qed.

Lemma le_decode_le_bytes n : forall z,
  0 <= z < 2 ^ (8 * Z.of_nat n) -> le_decode (le_bytes n z) = z.
Proof.
  induction n as [|n IH]; intros z Hz.
  - simpl in *. lia.
  - cbn [le_bytes le_decode]. rewrite Z_of_byte_of_Z.
    replace (8 * Z.of_nat (S n)) with (8 + 8 * Z.of_nat n) in Hz by lia.
    rewrite Z.pow_add_r in Hz by lia. change (2 ^ 8) with 256 in Hz.
    rewrite IH.
    + pose proof (Z.div_mod z 256). lia.
    + split; [apply Z.div_pos; lia | apply Z.div_lt_upper_bound; lia].
Qed.

Lemma Qle_bool_inject a b : Qle_bool (inject_Z a) (inject_Z b) = (a <=? b).
Proof. unfold Qle_bool. simpl. by rewrite !Z.mul_1_r. Qed.

(** A write of an integer, with the range test on [Z]. *)
Lemma writeUIntLE_Z n z off buf :
  writeUIntLE n (inject_Z z) off buf =
  if (0 <=? z) && (z <=? 2 ^ (8 * Z.of_nat n) - 1) && (off + n <=? length buf)%nat
  then Normal (write_bytes (le_bytes n z) off buf)
  else Throw ERR_OUT_OF_RANGE.
Proof.
  unfold writeUIntLE. change 0%Q with (inject_Z 0).
  by rewrite !Qle_bool_inject, Qfloor_Z.
Qed.

Lemma writeUIntLE_Qeq n q z off buf :
  (q == inject_Z z)%Q -> writeUIntLE n q off buf = writeUIntLE n (inject_Z z) off buf.
Proof.
  intros E. unfold writeUIntLE.
  rewrite (Qleb_comp 0%Q 0%Q (Qeq_refl 0%Q) _ _ E).
  rewrite (Qleb_comp _ _ E _ _ (Qeq_refl _)).
  by rewrite (Qfloor_comp _ _ E).
Qed.

Lemma byteRate_Q s c :
  (inject_Z s * inject_Z c * (inject_Z 16 / inject_Z 8) == inject_Z (s * c * 2))%Q.
Proof. rewrite !inject_Z_mult. field. Qed.

Lemma blockAlign_Q c :
  (inject_Z c * (inject_Z 16 / inject_Z 8) == inject_Z (c * 2))%Q.
Proof. rewrite !inject_Z_mult. field. Qed.

Lemma writeUInt32LE_Z z off buf :
  writeUIntLE 4 (inject_Z z) off buf =
  if u32 z && (off + 4 <=? length buf)%nat
  then Normal (write_bytes (le_bytes 4 z) off buf)
  else Throw ERR_OUT_OF_RANGE.
Proof. apply writeUIntLE_Z. Qed.

Lemma writeUInt16LE_Z z off buf :
  writeUIntLE 2 (inject_Z z) off buf =
  if u16 z && (off + 2 <=? length buf)%nat
  then Normal (write_bytes (le_bytes 2 z) off buf)
  else Throw ERR_OUT_OF_RANGE.
Proof. apply writeUIntLE_Z. Qed.

Ltac header_cbn :=
  cbn -[Z.div Z.modulo byte_of_Z Z.leb Z.mul Z.add Z.pow Z.sub Z.of_nat
        inject_Z Qmult Qdiv writeUIntLE u16 u32].

(** One write of the header: the range test is split, the octets are put
    in place. *)
Ltac write_step :=
  lazymatch goal with
  | |- context [writeUIntLE 4 (inject_Z ?z) ?off ?buf] =>
      rewrite (writeUInt32LE_Z z off buf);
      let E := fresh "E" in destruct (u32 z) eqn:E; header_cbn
  | |- context [writeUIntLE 2 (inject_Z ?z) ?off ?buf] =>
      rewrite (writeUInt16LE_Z z off buf);
      let E := fresh "E" in destruct (u16 z) eqn:E; header_cbn
  end.

(** The builder writes the described header whenever every value fits,
    and throws otherwise. *)
Lemma getWavHeader_spec d s c :
  getWavHeader d s c 16 =
  if fits d s c then Normal (spec_header d s c) else Throw ERR_OUT_OF_RANGE.
Proof.
  unfold getWavHeader, writeUInt32LE, writeUInt16LE, fits. header_cbn.
  write_step; [|done].
  write_step; [|done].
  write_step; [|done].
  write_step; [|done].
  write_step; [|done].
  rewrite (writeUIntLE_Qeq 4 _ _ 28 _ (byteRate_Q s c)).
  write_step; [|done].
  rewrite (writeUIntLE_Qeq 2 _ _ 32 _ (blockAlign_Q c)).
  write_step; [|done].
  write_step; [|done].
  write_step; [|done].
  reflexivity.
Qed.

End WavFacts.


Section Header.
Import JS Wav WavFacts.

(** C5. For every data length, sample rate and channel count the builder
    (called with 16 bits per sample, as the Batcher calls it) either writes
    a header or throws a range error, and it writes one exactly when every
    value fits its field.  The header written is 44 octets long: the tags
    RIFF, WAVE, "fmt " and data, and the little-endian fields
    ChunkSize = 36 + dataLength, Subchunk1Size = 16, AudioFormat = 1, the
    channel count, the sample rate, byte rate = sampleRate * channels * 2,
    block align = channels * 2, bits per sample = 16 and
    Subchunk2Size = dataLength.  For 32000 octets of 16 kHz mono audio it is
    the golden sequence. *)
Theorem wav_header_layout (dataLength sampleRate channels : Z) :
  completes (getWavHeader dataLength sampleRate channels 16)
    = fits dataLength sampleRate channels
  /\ match getWavHeader dataLength sampleRate channels 16 with
     | Normal h =>
         length h = 44%nat
         /\ h = spec_header dataLength sampleRate channels
         /\ take 4 h = list_byte_of_string "RIFF"
         /\ readUIntLE 4 4 h = 36 + dataLength
         /\ take 4 (drop 8 h) = list_byte_of_string "WAVE"
         /\ take 4 (drop 12 h) = list_byte_of_string "fmt "
         /\ readUIntLE 4 16 h = 16
         /\ readUIntLE 2 20 h = 1
         /\ readUIntLE 2 22 h = channels
         /\ readUIntLE 4 24 h = sampleRate
         /\ readUIntLE 4 28 h = sampleRate * channels * 2
         /\ readUIntLE 2 32 h = channels * 2
         /\ readUIntLE 2 34 h = 16
         /\ take 4 (drop 36 h) = list_byte_of_string "data"
         /\ readUIntLE 4 40 h = dataLength
     | Throw e => e = ERR_OUT_OF_RANGE
     end
  /\ getWavHeader 32000 16000 1 16 = Normal golden_header.
Proof.
  rewrite getWavHeader_spec. split; [by destruct (fits _ _ _)|].
  split; [|reflexivity].
  destruct (fits dataLength sampleRate channels) eqn:F; [|done].
  unfold fits, u32, u16 in F.
  repeat (apply andb_prop in F; destruct F as [F ?]).
  repeat match goal with H : (_ <=? _) = true |- _ => apply Z.leb_le in H end.
  assert (R32 : forall z, 0 <= z -> z <= 4294967295 ->
                          le_decode (le_bytes 4 z) = z)
    by (intros; apply le_decode_le_bytes; simpl; lia).
  assert (R16 : forall z, 0 <= z -> z <= 65535 ->
                          le_decode (le_bytes 2 z) = z)
    by (intros; apply le_decode_le_bytes; simpl; lia).
  unfold readUIntLE, spec_header.
  cbn [length app take drop le_bytes list_byte_of_string
       Ascii.byte_of_ascii String.append].
  repeat split; try reflexivity;
    first [ apply R32; lia | apply R16; lia ].
Qed.

End Header.

(** ** The Audio Batcher *)

Module BatcherFacts.
Import JS Batcher.

Section WithConfig.
Variables (sampleRate channels : Z).

Local Abbreviation processAudioBuffer := (Batcher.processAudioBuffer sampleRate channels).
Local Abbreviation endSession := (Batcher.endSession sampleRate channels).
Local Abbreviation step := (Batcher.step sampleRate channels).
Local Abbreviation run := (Batcher.run sampleRate channels).

(** [processAudioBuffer] up to its [await], case by case. *)
Lemma processAudioBuffer_unfold now s :
  processAudioBuffer now s =
  if isProcessing (this s) || bool_decide (audioBuffer (this s) = []) then s
  else
    let raw := concat (audioBuffer (this s)) in
    match Wav.getWavHeader (Z.of_nat (length raw)) sampleRate channels 16 with
    | Normal hdr =>
        if tempDirExists (node s) then suspended now (hdr ++ raw) s
        else dropped s
    | Throw _ => dropped s
    end.
Proof.
  unfold Batcher.processAudioBuffer.
  destruct (isProcessing (this s) || bool_decide (audioBuffer (this s) = []));
    [done|].
  cbn [set_isProcessing set_audioBuffer this node audioBuffer].
  destruct (Wav.getWavHeader _ _ _ _) as [hdr|e]; cbn; [|done].
  unfold writeFileSync. destruct (tempDirExists (node s)) eqn:D; cbn; [|done].
  unfold readFileSync. cbn. by rewrite lookup_insert_eq.
Qed.

(** The three ways a call of [processAudioBuffer] can go. *)
Lemma processAudioBuffer_cases now s :
  processAudioBuffer now s = s
  \/ (isProcessing (this s) = false /\ processAudioBuffer now s = dropped s)
  \/ (isProcessing (this s) = false /\ tempDirExists (node s) = true /\
      exists hdr,
        processAudioBuffer now s
        = suspended now (hdr ++ concat (audioBuffer (this s))) s).
Proof.
  rewrite processAudioBuffer_unfold.
  destruct (isProcessing (this s)) eqn:P; [by left|].
  destruct (bool_decide (audioBuffer (this s) = [])); [by left|]. cbn.
  destruct (Wav.getWavHeader _ _ _ _) as [hdr|e]; [|by right; left].
  destruct (tempDirExists (node s)) eqn:D; [|by right; left].
  right; right. eauto.
Qed.

Lemma processAudioBuffer_serialized now s :
  serialized s -> serialized (processAudioBuffer now s).
Proof.
  intros [Hlen Hidle].
  destruct (processAudioBuffer_cases now s) as [-> | [[P ->] | (P & _ & hdr & ->)]].
  - done.
  - split; cbn; [done | auto].
  - split; cbn; rewrite (Hidle P); cbn; [lia | done].
Qed.

Lemma endSession_serialized now s : serialized s -> serialized (endSession now s).
Proof.
  intros H. unfold Batcher.endSession.
  set (s1 := match processingInterval (this s) with
             | Some id => _ | None => s end).
  assert (H1 : serialized s1) by (subst s1; by destruct (processingInterval _)).
  clearbody s1.
  set (s2 := if bool_decide _ then processAudioBuffer now s1 else s1).
  assert (H2 : serialized s2)
    by (subst s2; destruct (bool_decide _);
        [by apply processAudioBuffer_serialized | done]).
  clearbody s2. by destruct (tempDirExists (node s2)).
Qed.

Lemma resume_isProcessing r o s :
  isProcessing (this (processAudioBuffer_resume r o s).1) = false.
Proof.
  unfold processAudioBuffer_resume.
  destruct o as [data|]; [|done].
  destruct (unlinkSync _ _); [|done].
  destruct (and_then _ _) as [t|]; [|done]. by destruct (truthy t).
Qed.

Lemma resume_inflight r o s :
  inflight (node (processAudioBuffer_resume r o s).1) = inflight (node s).
Proof.
  unfold processAudioBuffer_resume, unlinkSync.
  destruct o as [data|]; [|done].
  destruct (tempFiles (node s) !! tempFile r); [|done].
  destruct (and_then _ _) as [t|]; [|done]. by destruct (truthy t).
Qed.

(** The callback is only ever called with [isFinal = true]. *)
Lemma resume_call r o s c :
  (processAudioBuffer_resume r o s).2 = Some c ->
  c.2 = true /\ truthy c.1 = true /\ onTranscriptionCallback (this s) = true.
Proof.
  unfold processAudioBuffer_resume, unlinkSync.
  destruct o as [data|]; [|done].
  destruct (tempFiles (node s) !! tempFile r); [|done].
  destruct (and_then _ _) as [t|]; [|done].
  destruct (truthy t) eqn:T; [|done]. cbn.
  destruct (onTranscriptionCallback (this s)); [|done].
  by intros [= <-].
Qed.

(** An answer whose text is empty makes no callback call. *)
Lemma resume_empty_text r data s :
  get data "text" = Normal (JString "") ->
  (processAudioBuffer_resume r (Resolved data) s).2 = None.
Proof.
  intros T. unfold processAudioBuffer_resume, and_then.
  destruct (unlinkSync _ _); [|done].
  destruct (truthy data) eqn:D; [by rewrite T | by rewrite D].
Qed.

Lemma step_serialized s e : serialized s -> serialized (step s e).1.
Proof.
  intros H. destruct e as [id now| |b| |now|i o]; cbn.
  - destruct (bool_decide _); [by apply processAudioBuffer_serialized | done].
  - done.
  - done.
  - done.
  - by apply endSession_serialized.
  - destruct (inflight (node s) !! i) as [r|] eqn:L; [|done].
    destruct H as [Hlen _].
    split; [rewrite resume_inflight | intros _; rewrite resume_inflight]; cbn.
    + rewrite length_delete by eauto. lia.
    + destruct (inflight (node s)) as [|r0 [|r1 l]]; cbn in *; [done| |lia].
      by destruct i.
Qed.

Lemma run_serialized evs : forall s, serialized s -> serialized (run s evs).1.
Proof.
  induction evs as [|e evs IH]; intros s H; cbn; [done|].
  pose proof (step_serialized s e H) as H1.
  destruct (step s e) as [s1 c]. specialize (IH s1 H1).
  by destruct (run s1 evs) as [s2 cs].
Qed.

(** Only [initSession] and [endSession] touch the timers. *)
Lemma clock_processAudioBuffer now s : clock (processAudioBuffer now s) = clock s.
Proof.
  by destruct (processAudioBuffer_cases now s)
    as [-> | [[_ ->] | (_ & _ & hdr & ->)]].
Qed.

Lemma clock_resume r o s : clock (processAudioBuffer_resume r o s).1 = clock s.
Proof.
  unfold processAudioBuffer_resume, unlinkSync.
  destruct o as [data|]; [|done].
  destruct (tempFiles (node s) !! tempFile r); [|done].
  destruct (and_then _ _) as [t|]; [|done]. by destruct (truthy t).
Qed.

Lemma clock_step s e :
  match e with
  | TimerFires _ _ | PostSettles _ _ | CallSendAudioChunk _
  | CallOnTranscription => clock (step s e).1 = clock s
  | _ => True
  end.
Proof.
  destruct e as [id now| |b| |now|i o]; cbn; try done.
  - destruct (bool_decide _); [apply clock_processAudioBuffer | done].
  - destruct (inflight (node s) !! i) as [r|]; [|done].
    by rewrite clock_resume.
Qed.

Lemma clock_endSession now s :
  clock (endSession now s)
  = (None, match processingInterval (this s) with
           | Some id => delete id (timers (node s))
           | None => timers (node s)
           end).
Proof.
  unfold Batcher.endSession.
  set (s1 := match processingInterval (this s) with
             | Some id => _ | None => s end).
  assert (C1 : clock s1
               = (None, match processingInterval (this s) with
                        | Some id => delete id (timers (node s))
                        | None => timers (node s)
                        end))
    by (subst s1; unfold clock; by destruct (processingInterval (this s)) eqn:E;
        cbn; rewrite ?E).
  clearbody s1. rewrite <- C1.
  set (s2 := if bool_decide _ then processAudioBuffer now s1 else s1).
  assert (C2 : clock s2 = clock s1)
    by (subst s2; destruct (bool_decide _);
        [apply clock_processAudioBuffer | done]).
  clearbody s2. rewrite <- C2. by destruct (tempDirExists (node s2)).
Qed.

Lemma constructor_serialized existed files :
  serialized (Batcher.constructor existed files).
Proof. split; cbn; [lia | done]. Qed.

End WithConfig.

End BatcherFacts.

Section Flushes.
Import JS Batcher BatcherFacts.
Variables (sampleRate channels : Z).

(** C1. At most one flush is in flight at any instant.  After any sequence
    of timer firings, method calls ([endSession] among them) and settling
    requests on a new Batcher, at most one submission to the backend is
    pending; and while one is pending, a timer firing leaves the state as
    it is (the flush is skipped), and a forced end starts no submission
    and leaves the pending segment where it is: nothing is queued. *)
Theorem at_most_one_flush_in_flight existed files evs :
  let s := (Batcher.run sampleRate channels
              (Batcher.constructor existed files) evs).1 in
  (flushes_in_flight s <= 1)%nat
  /\ (flushes_in_flight s = 1%nat ->
      forall id now,
        Batcher.step sampleRate channels s (TimerFires id now) = (s, None)
        /\ inflight (node (Batcher.endSession sampleRate channels now s))
           = inflight (node s)
        /\ audioBuffer (this (Batcher.endSession sampleRate channels now s))
           = audioBuffer (this s)).
Proof.
  intros s.
  pose proof (run_serialized sampleRate channels evs _
                (constructor_serialized existed files)) as [Hlen Hidle].
  fold s in Hlen, Hidle. split; [exact Hlen|].
  unfold flushes_in_flight. intros H1 id now.
  assert (P : isProcessing (this s) = true).
  { destruct (isProcessing (this s)); [done|]. rewrite Hidle in H1; done. }
  assert (Skip : forall s', isProcessing (this s') = true ->
            Batcher.processAudioBuffer sampleRate channels now s' = s')
    by (intros s' P'; by rewrite processAudioBuffer_unfold, P').
  split; [|].
  - cbn. rewrite (Skip s P). by destruct (bool_decide _).
  - unfold Batcher.endSession.
    set (s1 := match processingInterval (this s) with
               | Some t => _ | None => s end).
    assert (E1 : isProcessing (this s1) = true
                 /\ inflight (node s1) = inflight (node s)
                 /\ audioBuffer (this s1) = audioBuffer (this s))
      by (subst s1; by destruct (processingInterval (this s))).
    destruct E1 as (P1 & I1 & A1). clearbody s1.
    rewrite (Skip s1 P1).
    destruct (bool_decide _), (tempDirExists (node s1)); cbn; by rewrite ?I1, ?A1.
Qed.

End Flushes.

(** At the run "start, one chunk, timer fires" a flush is in flight, and
    the next firing of the timer is skipped. *)
Lemma at_most_one_flush_in_flight_witness :
  let evs := [Batcher.CallInitSession;
              Batcher.CallSendAudioChunk [x01; x02];
              Batcher.TimerFires 0 1000] in
  let s := (Batcher.run 16000 1 (Batcher.constructor true ∅) evs).1 in
  Batcher.flushes_in_flight s = 1%nat
  /\ Batcher.step 16000 1 s (Batcher.TimerFires 0 6000) = (s, None).
Proof.
  intros evs s. split; [vm_compute; reflexivity|].
  apply (at_most_one_flush_in_flight 16000 1 true ∅ evs). vm_compute; reflexivity.
Defined.

Section EndOfSession.
Import JS Batcher Scenario.

(** C3 on the code.  [endSession] is evaluated on a Batcher that holds one
    chunk: when it returns, the timer is cancelled, but the final flush is
    still in flight ([isProcessing] is set and its request is pending) and
    the scratch file of that flush is already removed with the directory,
    so that the continuation of the flush, once the backend answers, throws
    at [unlinkSync] and makes no callback call.  Called while a flush is in
    flight, [endSession] leaves the pending segment in the buffer with no
    timer armed and no second submission. *)
Theorem endSession_returns_before_final_flush :
  let s := Batcher.endSession sampleRate channels 1000 ready in
  timers (node s) = ∅
  /\ isProcessing (this s) = true
  /\ inflight (node s) = [{| body := container; tempFile := 1000 |}]
  /\ tempFiles (node s) = ∅
  /\ tempDirExists (node s) = false
  /\ (Batcher.step sampleRate channels s
        (PostSettles 0 (Resolved (response "hello")))).2 = None
  /\ let s' := Batcher.endSession sampleRate channels 3000
                 (sendAudioChunk [x03] flushing).1 in
     audioBuffer (this s') = [[x03]]
     /\ inflight (node s') = [{| body := container; tempFile := 1000 |}]
     /\ timers (node s') = ∅.
Proof. vm_compute. repeat split; reflexivity. Qed.

(** C4 on the code.  The timer fires on a Batcher that holds one chunk and
    the submission is rejected: the flush is over ([isProcessing] is reset,
    nothing is pending) and the scratch file is still in the directory.
    When the same submission is answered, the file is gone. *)
Theorem scratch_file_outlives_failed_flush :
  let failed := (Batcher.run sampleRate channels ready
                   [TimerFires 0 1000; PostSettles 0 Rejected]).1 in
  let answered := (Batcher.run sampleRate channels ready
                     [TimerFires 0 1000;
                      PostSettles 0 (Resolved (response "hello"))]).1 in
  isProcessing (this failed) = false
  /\ inflight (node failed) = []
  /\ tempFiles (node failed) !! 1000 = Some container
  /\ tempFiles (node answered) !! 1000 = None.
Proof. vm_compute. repeat split; reflexivity. Qed.

End EndOfSession.

(** ** The Relay Core *)

Module RelayFacts.
Import JS Relay.

Lemma is_string_eq lit v : is_string lit v = true <-> v = JString lit.
Proof.
  destruct v; cbn; try (split; [done | discriminate]).
  rewrite String.eqb_eq. split; [by intros -> | by intros [= ->]].
Qed.

(** Well-formed sequences of one to four octets are copied. *)
Example decode_well_formed :
  Utf8.decode None [x41; xc3; xa9; xe2; x82; xac; xf0; x9f; x98; x80]
  = [x41; xc3; xa9; xe2; x82; xac; xf0; x9f; x98; x80].
Proof. reflexivity. Qed.

(** A sequence cut short, an overlong form and a surrogate give one
    U+FFFD for each maximal ill-formed part. *)
Example decode_ill_formed :
  Utf8.decode None [xe2; x82; x41; xc0; x80; xed; xa0; x80]
  = Utf8.replacement ++ [x41] ++ Utf8.replacement ++ Utf8.replacement
    ++ Utf8.replacement ++ Utf8.replacement ++ Utf8.replacement.
Proof. reflexivity. Qed.

Lemma ascii_decode bs :
  Utf8.ascii_only bs = true -> Utf8.decode None bs = bs.
Proof.
  induction bs as [|b bs IH]; [done|]. cbn [Utf8.ascii_only forallb].
  intros [Hb Hbs]%andb_prop. cbn [Utf8.decode]. unfold Utf8.lead.
  rewrite Hb. cbn. by rewrite IH.
Qed.

Lemma plain_octets message :
  plain message = true ->
  list_byte_of_string (Utf8.messageToString message) = Utf8.payload message.
Proof.
  destruct message as [b|s]; cbn [plain Utf8.messageToString Utf8.payload];
    [|done].
  intros H. unfold Utf8.toString.
  by rewrite list_byte_of_string_of_list_byte, ascii_decode.
Qed.

Section WithRuntime.
Variable JSON_parse : string -> Completion JSValue.
Variables (sampleRate channels : Z).

Local Abbreviation onFirstMessage := (Relay.onFirstMessage JSON_parse).
Local Abbreviation onMeetingMessage := (Relay.onMeetingMessage JSON_parse).
Local Abbreviation speakerActivity := (Relay.speakerActivity JSON_parse).
Local Abbreviation registers_bot := (Relay.registers_bot JSON_parse).
Local Abbreviation classify := (Relay.classify JSON_parse).
Local Abbreviation decision := (Relay.decision JSON_parse).

Lemma decision_true message :
  decision message = Normal true <-> registers_bot message.
Proof.
  unfold decision, Relay.registers_bot. split.
  - destruct (JSON_parse _) as [msg|] eqn:P; cbn; [|done].
    destruct (get msg "type") as [type|] eqn:T; cbn; [|done].
    destruct (is_string "register" type) eqn:R; [|done].
    destruct (get msg "client") as [client|] eqn:C; cbn; [|done].
    intros [= B]. exists msg.
    apply is_string_eq in R, B. by subst.
  - intros (msg & -> & T & C). cbn. rewrite T. cbn. rewrite C. done.
Qed.

Lemma onFirstMessage_decision ws message w :
  onFirstMessage ws message w =
  Normal (match decision message with
          | Normal true => setupBotClient ws w
          | _ => setupMeetingBaasClient ws w
          end).
Proof.
  unfold Relay.onFirstMessage, decision.
  destruct (JSON_parse _) as [msg|]; cbn; [|done].
  destruct (get msg "type") as [type|]; cbn; [|done].
  destruct (is_string "register" type); cbn; [|done].
  destruct (get msg "client") as [client|]; cbn; [|done].
  by destruct (is_string "bot" client).
Qed.

Lemma classify_decision message :
  classify message =
  Normal (match decision message with Normal true => Bot | _ => Meeting end).
Proof.
  unfold Relay.classify, decision.
  destruct (JSON_parse _) as [msg|]; cbn; [|done].
  destruct (get msg "type") as [type|]; cbn; [|done].
  destruct (is_string "register" type); cbn; [|done].
  destruct (get msg "client") as [client|]; cbn; [|done].
  by destruct (is_string "bot" client).
Qed.

End WithRuntime.

End RelayFacts.

Section Classifier.
Import JS Relay RelayFacts.
Variable JSON_parse : string -> Completion JSValue.

(** C8. The first message of a connection gives it the role Bot exactly
    when it parses as JSON with type "register" and client "bot": the
    handler then runs [setupBotClient], which attaches the bot handlers and
    makes the connection the bot connection.  In every other case (a parse
    failure, [null], any other shape) it runs [setupMeetingBaasClient], which
    attaches the meeting handlers and adds the connection to the Meeting
    set.  The handler completes for every message: no exception leaves
    it. *)
Theorem first_message_classified (ws : nat) (message : RawData) (w : World) :
  completes (Relay.onFirstMessage JSON_parse ws message w) = true
  /\ (Relay.classify JSON_parse message = Normal Bot
      <-> Relay.registers_bot JSON_parse message)
  /\ (Relay.registers_bot JSON_parse message ->
      Relay.onFirstMessage JSON_parse ws message w = Normal (setupBotClient ws w)
      /\ roles (net (setupBotClient ws w)) !! ws = Some Bot
      /\ botClient (proxy (setupBotClient ws w)) = Some ws)
  /\ (~ Relay.registers_bot JSON_parse message ->
      Relay.classify JSON_parse message = Normal Meeting
      /\ Relay.onFirstMessage JSON_parse ws message w
         = Normal (setupMeetingBaasClient ws w)
      /\ roles (net (setupMeetingBaasClient ws w)) !! ws = Some Meeting
      /\ ws ∈ meetingBaasClients (proxy (setupMeetingBaasClient ws w))).
Proof.
  rewrite onFirstMessage_decision, classify_decision.
  pose proof (decision_true JSON_parse message) as D.
  split; [done|]. split; [|split].
  - rewrite <- D. clear D.
    destruct (decision _ _) as [[]|]; split; (done || by intros [=]).
  - intros R. apply D in R. rewrite R. repeat split.
    cbn. by rewrite lookup_insert_eq.
  - intros R.
    assert (N : Relay.decision JSON_parse message <> Normal true) by (by rewrite D).
    assert (E : match Relay.decision JSON_parse message with
                | Normal true => setupBotClient ws w
                | _ => setupMeetingBaasClient ws w
                end = setupMeetingBaasClient ws w)
      by (by destruct (decision _ _) as [[]|]).
    rewrite E. split; [by destruct (decision _ _) as [[]|]|]. split; [done|].
    clear. unfold setupMeetingBaasClient.
    destruct (negb _); [destruct (Batcher.initSession _)|]; cbn;
      rewrite ?lookup_insert_eq; (split; [done | set_solver]).
Qed.

End Classifier.

(** The registration message is classified Bot, two zero octets are
    not. *)
Lemma first_message_classified_witness :
  let w := Relay.constructor (Some "bot-1"%string) true ∅ in
  (Relay.registers_bot Scenario.parse (JS.StringData Scenario.register_text)
   /\ Relay.onFirstMessage Scenario.parse 1
        (JS.StringData Scenario.register_text) w
      = JS.Normal (Relay.setupBotClient 1 w))
  /\ (~ Relay.registers_bot Scenario.parse (JS.BufferData [x00; x00])
      /\ Relay.onFirstMessage Scenario.parse 2 (JS.BufferData [x00; x00]) w
         = JS.Normal (Relay.setupMeetingBaasClient 2 w)).
Proof.
  intros w.
  assert (R : Relay.registers_bot Scenario.parse
                (JS.StringData Scenario.register_text)).
  { eexists. vm_compute. repeat split; reflexivity. }
  assert (N : ~ Relay.registers_bot Scenario.parse (JS.BufferData [x00; x00])).
  { intros (msg & P & _). vm_compute in P. discriminate. }
  split; (split; [assumption|]).
  - apply (first_message_classified Scenario.parse 1
             (JS.StringData Scenario.register_text) w). exact R.
  - apply (first_message_classified Scenario.parse 2
             (JS.BufferData [x00; x00]) w). exact N.
Defined.

Section MeetingTraffic.
Import JS Relay RelayFacts.
Variable JSON_parse : string -> Completion JSValue.

Lemma speakerActivity_cases b w w' :
  Relay.speakerActivity JSON_parse b w = Normal w' ->
  w' = w \/ exists name, w' = set_lastSpeaker name w.
Proof.
  unfold Relay.speakerActivity. intros H.
  destruct (JSON_parse _) as [jsonData|]; cbn in H; [|done].
  destruct jsonData as [| | | | |[|item items]|]; try (simplify_eq; by left).
  destruct (has_property "name" item) as [[]|]; cbn in H;
    try (simplify_eq; by left); try done.
  destruct (has_property "isSpeaking" item) as [[]|]; cbn in H;
    try (simplify_eq; by left); try done.
  destruct (get item "isSpeaking") as [isSpeaking|]; cbn in H; [|done].
  destruct (truthy isSpeaking); cbn in H.
  - destruct (get item "name") as [name|]; cbn in H; [|done].
    destruct (_ || _); simplify_eq; eauto.
  - simplify_eq. by left.
Qed.

(** C9, as the code has it.  Whatever branch a message of a Meeting
    connection takes, the handler sends exactly one frame to the bot
    connection when one is registered and open: the string
    [message.toString()].  Its octets are those of the payload when the
    message is a text frame or a buffer of 7-bit octets. *)
Theorem meeting_payload_forwarded (message : RawData) (w : World) (bot : nat) :
  botClient (proxy w) = Some bot ->
  isOpen bot w = true ->
  sent (net (Relay.onMeetingMessage JSON_parse message w))
    = sent (net w) ++ [(bot, Text (Utf8.messageToString message))]
  /\ (plain message = true ->
      frame_octets (Text (Utf8.messageToString message))
        = Some (Utf8.payload message)).
Proof.
  intros B O. split.
  - unfold Relay.onMeetingMessage.
    set (w1 := match message with BufferData _ => _ | StringData _ => w end).
    assert (L : botClient (proxy w1) = Some bot /\ isOpen bot w1 = true
                /\ sent (net w1) = sent (net w)).
    { subst w1. destruct message as [b|s]; [|done].
      destruct (Relay.speakerActivity JSON_parse b w) as [w'|] eqn:S.
      - by destruct (speakerActivity_cases b w w' S) as [-> | [name ->]].
      - by destruct (isGladiaSessionActive (proxy w)). }
    destruct L as (B1 & O1 & S1). clearbody w1.
    unfold sendToBot. rewrite B1, O1. cbn. by rewrite S1.
  - intros P. cbn. by rewrite plain_octets.
Qed.

End MeetingTraffic.

(** With the bot and a Meeting connection in place, the text "AB" sent as
    a buffer reaches the bot as it is. *)
Lemma meeting_payload_forwarded_witness :
  let w := Scenario.after Scenario.connected in
  let m := JS.BufferData [x41; x42] in
  Relay.sent (Relay.net (Relay.onMeetingMessage Scenario.parse m w))
    = Relay.sent (Relay.net w) ++ [(1%nat, Relay.Text "AB")]
  /\ Relay.frame_octets (Relay.Text "AB") = Some [x41; x42].
Proof.
  intros w m.
  assert (B : Relay.botClient (Relay.proxy w) = Some 1%nat)
    by (vm_compute; reflexivity).
  assert (O : Relay.isOpen 1 w = true) by (vm_compute; reflexivity).
  destruct (meeting_payload_forwarded Scenario.parse m w 1 B O) as [S F].
  split; [exact S | apply F; vm_compute; reflexivity].
Defined.

(** C9 as stated fails on a payload that is not UTF-8: the single octet FF,
    sent by a Meeting connection while the bot is registered and open,
    reaches the bot as the three octets EF BF BD. *)
Lemma binary_payload_not_forwarded_verbatim :
  let w := Scenario.after Scenario.connected in
  let m := JS.BufferData [xff] in
  Relay.botClient (Relay.proxy w) = Some 1%nat
  /\ Relay.isOpen 1 w = true
  /\ (exists f,
        Relay.sent (Relay.net (Relay.onMeetingMessage Scenario.parse m w))
          = Relay.sent (Relay.net w) ++ [(1%nat, f)]
        /\ Relay.frame_octets f = Some [xef; xbf; xbd]
        /\ Relay.frame_octets f <> Some (Utf8.payload m)).
Proof.
  vm_compute. repeat split.
  eexists. repeat split. discriminate.
Qed.

(** ** The session flag and the Meeting set *)

Module SessionFacts.
Import JS Relay RelayFacts.

Lemma foldl_invariant {A} (P : World -> Prop) (f : World -> A -> World) l :
  (forall w a, P w -> P (f w a)) -> forall w, P w -> P (foldl f w l).
Proof.
  intros Hf. induction l as [|a l IH]; intros w Hw; cbn; [done|].
  apply IH, Hf, Hw.
Qed.

Lemma core_sendToBot f w : core (sendToBot f w) = core w.
Proof.
  unfold sendToBot. destruct (botClient (proxy w)); [|done].
  by destruct (isOpen _ _).
Qed.

Section WithRuntime.
Variable JSON_parse : string -> Completion JSValue.
Variables (sampleRate channels : Z).

Local Abbreviation handle := (Relay.handle JSON_parse sampleRate channels).
Local Abbreviation dispatch := (Relay.dispatch JSON_parse sampleRate channels).
Local Abbreviation run := (Relay.run JSON_parse sampleRate channels).

Lemma core_onBotMessage message w : core (onBotMessage message w) = core w.
Proof.
  unfold onBotMessage.
  apply (foldl_invariant (fun w' => core w' = core w)); [|done].
  intros w' client <-. by destruct (isOpen client w').
Qed.

Lemma core_onMeetingMessage message w :
  core (Relay.onMeetingMessage JSON_parse message w) = core w.
Proof.
  unfold Relay.onMeetingMessage. rewrite core_sendToBot.
  destruct message as [b|s]; [|done].
  destruct (Relay.speakerActivity JSON_parse b w) as [w'|] eqn:S.
  - by destruct (speakerActivity_cases JSON_parse b w w' S) as [-> | [name ->]].
  - by destruct (isGladiaSessionActive (proxy w)).
Qed.

Lemma core_callback t1 t2 c w : core (callback t1 t2 c w) = core w.
Proof.
  unfold callback. destruct c as [text final].
  destruct (if final then _ else _); [done|].
  unfold callback_send. by rewrite core_sendToBot.
Qed.

(** Every handler completes. *)
Lemma handle_completes w e : completes (handle w e) = true.
Proof.
  destruct e; cbn -[Batcher.step]; try done.
  - destruct (roles (net w) !! ws) as [[]|]; [done|done|].
    by rewrite onFirstMessage_decision.
  - by destruct (_ !! ws) as [[]|].
  - by destruct (Batcher.step _ _ _ _).
  - by destruct (appending (net w) !! i).
Qed.

Lemma dispatch_total w e : is_Some (dispatch w e).
Proof.
  unfold Relay.dispatch. pose proof (handle_completes w e).
  destruct (handle w e); [eauto | done].
Qed.

Lemma run_total evs : forall w, is_Some (run w evs).
Proof.
  induction evs as [|e evs IH]; intros w; cbn; [eauto|].
  destruct (dispatch_total w e) as [w' ->]. cbn. apply IH.
Qed.

Lemma settled_core w w' : core w' = core w -> Relay.settled w -> Relay.settled w'.
Proof. unfold core, Relay.settled. intros [= -> -> ->]. done. Qed.

Lemma drain_settled w : pending_ok w -> Relay.settled (drain w).
Proof.
  unfold drain, Relay.settled.
  intros [[M Inv] | [M N]]; rewrite M; cbn; [done|]. split; [done|]. done.
Qed.

Lemma setupMeetingBaasClient_pending ws w :
  Relay.settled w -> pending_ok (setupMeetingBaasClient ws w).
Proof.
  intros [M Inv]. unfold setupMeetingBaasClient.
  cbn [proxy isGladiaSessionActive set_meetingBaasClients].
  destruct (isGladiaSessionActive (proxy w)) eqn:A; cbn.
  - left. split; [done|]. cbn. split; [intros _; clear; set_solver | done].
  - right. cbn. rewrite M. split; [done | clear; set_solver].
Qed.

Lemma onMeetingClose_settled ws now w :
  Relay.settled w -> Relay.settled (Relay.onMeetingClose sampleRate channels ws now w).
Proof.
  intros [M Inv]. unfold Relay.onMeetingClose.
  cbn [proxy meetingBaasClients isGladiaSessionActive set_meetingBaasClients].
  case_bool_decide as Hz; cbn.
  - apply size_empty_inv in Hz. apply leibniz_equiv in Hz.
    destruct (isGladiaSessionActive (proxy w)) eqn:A; cbn;
      (split; [done|]); cbn; rewrite ?A, Hz; done.
  - split; [done|]. cbn.
    assert (NE : meetingBaasClients (proxy w) ∖ {[ws]} ≠ ∅).
    { intros E. apply Hz. rewrite E. apply size_empty. }
    split; [done|]. intros _. apply Inv. clear -NE. set_solver.
Qed.

Lemma handle_pending w e :
  Relay.settled w -> is_shutdown e = false ->
  exists w', handle w e = Normal w' /\ pending_ok w'.
Proof.
  intros S NS. destruct e; try done; cbn -[Batcher.step].
  - destruct (roles (net w) !! ws) as [[]|].
    + eexists; split; [done|]. left.
      apply (settled_core w); [apply core_onBotMessage | done].
    + eexists; split; [done|]. left.
      apply (settled_core w); [apply core_onMeetingMessage | done].
    + rewrite onFirstMessage_decision. eexists; split; [done|].
      destruct (decision _ _) as [[]|];
        try (by apply setupMeetingBaasClient_pending).
      left. by apply (settled_core w).
  - destruct (_ !! ws) as [[]|]; eexists; (split; [done|]); left.
    + by apply (settled_core w).
    + apply onMeetingClose_settled. by apply (settled_core w).
    + by apply (settled_core w).
  - eexists; split; [done|]. left. by apply (settled_core w).
  - eexists; split; [done|]. left. by apply (settled_core w).
  - destruct (Batcher.step _ _ _ _) as [client [c|]];
      eexists; (split; [done|]); left.
    + apply (settled_core w); [|done]. by rewrite core_callback.
    + by apply (settled_core w).
  - destruct (appending (net w) !! i); eexists; (split; [done|]); left;
      [|done].
    apply (settled_core w); [|done]. unfold callback_send.
    by rewrite core_sendToBot.
Qed.

Lemma dispatch_settled w e :
  Relay.settled w -> is_shutdown e = false ->
  exists w', dispatch w e = Some w' /\ Relay.settled w'.
Proof.
  intros S NS. destruct (handle_pending w e S NS) as (w' & H & P).
  exists (drain w'). unfold Relay.dispatch. rewrite H.
  split; [done | by apply drain_settled].
Qed.

Lemma run_settled evs : forall w,
  Relay.settled w -> forallb (fun e => negb (is_shutdown e)) evs = true ->
  exists w', run w evs = Some w' /\ Relay.settled w'.
Proof.
  induction evs as [|e evs IH]; intros w S NS; cbn; [eauto|].
  cbn in NS. apply andb_prop in NS as [N1 N2]. apply negb_true_iff in N1.
  destruct (dispatch_settled w e S N1) as (w1 & -> & S1). cbn.
  by apply IH.
Qed.

End WithRuntime.

End SessionFacts.

Section Session.
Import JS Relay RelayFacts SessionFacts.
Variable JSON_parse : string -> Completion JSValue.
Variables (sampleRate channels : Z).

Local Abbreviation dispatch := (Relay.dispatch JSON_parse sampleRate channels).
Local Abbreviation run := (Relay.run JSON_parse sampleRate channels).

(** C2. Along every sequence of events of a new relay that holds no
    shutdown (first messages that register connections, closes that
    deregister them, and any traffic, timer firings and settling requests
    in between), every turn of the loop completes and, once the promise
    reaction of the start has run at the end of the turn, the session flag
    is set if and only if the Meeting set is not empty.  In the world
    reached, a first message that is not a bot registration, arriving while
    the flag is clear, adds the connection, calls [initSession] and sets
    the flag; the close of the only Meeting connection empties the set,
    calls [endSession] and clears the flag. *)
Theorem session_follows_meeting_set botId existed files evs :
  forallb (fun e => negb (is_shutdown e)) evs = true ->
  exists w,
    run (Relay.constructor botId existed files) evs = Some w
    /\ (isGladiaSessionActive (proxy w) = true
        <-> meetingBaasClients (proxy w) ≠ ∅)
    /\ (forall ws message,
          roles (net w) !! ws = None ->
          ~ Relay.registers_bot JSON_parse message ->
          isGladiaSessionActive (proxy w) = false ->
          exists w',
            dispatch w (Message ws message) = Some w'
            /\ meetingBaasClients (proxy w') = {[ws]} ∪ meetingBaasClients (proxy w)
            /\ isGladiaSessionActive (proxy w') = true
            /\ gladiaClient (proxy w')
               = (Batcher.initSession (gladiaClient (proxy w))).1)
    /\ (forall ws now,
          roles (net w) !! ws = Some Meeting ->
          meetingBaasClients (proxy w) = {[ws]} ->
          exists w',
            dispatch w (Close ws now) = Some w'
            /\ meetingBaasClients (proxy w') = ∅
            /\ isGladiaSessionActive (proxy w') = false
            /\ gladiaClient (proxy w')
               = Batcher.endSession sampleRate channels now
                   (gladiaClient (proxy w))).
Proof.
  intros NS.
  destruct (run_settled JSON_parse sampleRate channels evs
              (Relay.constructor botId existed files)) as (w & R & M & Inv);
    [by split | done |].
  exists w. split; [done|]. split; [done|]. split.
  - intros ws message Hr Hn A.
    assert (D : match Relay.decision JSON_parse message with
                | Normal true => setupBotClient ws w
                | _ => setupMeetingBaasClient ws w
                end = setupMeetingBaasClient ws w).
    { destruct (Relay.decision JSON_parse message) as [[]|] eqn:E; try done.
      by apply decision_true in E. }
    eexists. unfold Relay.dispatch. cbn [Relay.handle].
    rewrite Hr, onFirstMessage_decision, D. split; [done|].
    unfold setupMeetingBaasClient, drain. cbn. rewrite A. cbn. rewrite M. cbn. done.
  - intros ws now Hr Hs.
    assert (A : isGladiaSessionActive (proxy w) = true).
    { apply Inv. rewrite Hs. clear. set_solver. }
    eexists. unfold Relay.dispatch. cbn [Relay.handle]. cbn. rewrite Hr.
    split; [done|].
    assert (E : ({[ws]} : gset nat) ∖ {[ws]} = ∅) by (clear; set_solver).
    unfold Relay.onMeetingClose, drain. cbn. rewrite Hs, A, E, size_empty.
    rewrite bool_decide_eq_true_2 by done. cbn. rewrite M. cbn. done.
Qed.

End Session.

(** The session of the relay of the runs: started by the first Meeting
    connection, kept by the second, ended when both are closed; and, with
    connection 2 the only Meeting connection, its close ends the session. *)
Lemma session_follows_meeting_set_witness :
  let evs := Scenario.connected
             ++ [Relay.Message 3 (JS.BufferData [x00]);
                 Relay.Close 2 100; Relay.Close 3 200] in
  (forallb (fun e => negb (Relay.is_shutdown e)) evs = true
   /\ exists w,
        Scenario.relay evs = Some w
        /\ (Relay.isGladiaSessionActive (Relay.proxy w) = true
            <-> Relay.meetingBaasClients (Relay.proxy w) ≠ ∅))
  /\ exists w',
       Relay.dispatch Scenario.parse Scenario.sampleRate Scenario.channels
         (Scenario.after Scenario.connected) (Relay.Close 2 100) = Some w'
       /\ Relay.isGladiaSessionActive (Relay.proxy w') = false.
Proof.
  intros evs.
  assert (NS : forallb (fun e => negb (Relay.is_shutdown e)) evs = true)
    by reflexivity.
  split.
  - split; [exact NS|].
    destruct (session_follows_meeting_set Scenario.parse Scenario.sampleRate
                Scenario.channels (Some "bot-1"%string) true ∅ evs NS)
      as (w & R & Inv & _).
    exists w. split; [exact R | exact Inv].
  - destruct (session_follows_meeting_set Scenario.parse Scenario.sampleRate
                Scenario.channels (Some "bot-1"%string) true ∅
                Scenario.connected eq_refl)
      as (w & R & _ & _ & End).
    assert (E : w = Scenario.after Scenario.connected)
      by (unfold Scenario.after, Scenario.relay; by rewrite R).
    rewrite E in End.
    destruct (End 2%nat 100) as (w' & D & _ & A & _);
      [vm_compute; reflexivity | vm_compute; reflexivity |].
    exists w'. split; [exact D | exact A].
Defined.

(** ** Transcripts *)

Module TranscriptFacts.
Import JS Relay RelayFacts SessionFacts.

Lemma quiet_refl w : quiet w w.
Proof. split; [done|]. exists []. by rewrite app_nil_r. Qed.

Lemma quiet_trans w1 w2 w3 : quiet w1 w2 -> quiet w2 w3 -> quiet w1 w3.
Proof.
  intros [L1 (l1 & S1 & F1)] [L2 (l2 & S2 & F2)]. split; [congruence|].
  exists (l1 ++ l2). rewrite S2, S1, app_assoc. split; [done|].
  by apply Forall_app.
Qed.

Lemma quiet_same w w' :
  logs w' = logs w -> sent (net w') = sent (net w) -> quiet w w'.
Proof. intros L S. split; [done|]. exists []. by rewrite app_nil_r. Qed.

Lemma quiet_send_text ws s w : quiet w (send ws (Text s) w).
Proof. split; [done|]. exists [(ws, Text s)]. split; [done|]. by constructor. Qed.

Lemma quiet_sendToBot_text s w : quiet w (sendToBot (Text s) w).
Proof.
  unfold sendToBot. destruct (botClient (proxy w)); [|apply quiet_refl].
  destruct (isOpen _ _); [apply quiet_send_text | apply quiet_refl].
Qed.

Lemma quiet_foldl {A} (f : World -> A -> World) l :
  (forall w a, quiet w (f w a)) -> forall w, quiet w (foldl f w l).
Proof.
  intros Hf w.
  apply (foldl_invariant (fun w' => quiet w w')); [|apply quiet_refl].
  intros w' a Q. eapply quiet_trans; [exact Q | apply Hf].
Qed.

Lemma final_only_quiet botId w w' :
  final_only botId w -> quiet w w' -> final_only botId w'.
Proof.
  intros (B & C & P & S & A) [L (l & E & F)].
  unfold logs in L. injection L as L1 L2 L3 L4.
  unfold final_only. rewrite L1, L2, L3, L4, E.
  repeat split; try done.
  apply Forall_app. split; [done|].
  eapply Forall_impl; [exact F|]. intros [ws f]; cbn.
  unfold final_frame. by destruct f.
Qed.

Section WithRuntime.
Variable JSON_parse : string -> Completion JSValue.
Variables (sampleRate channels : Z).

Local Abbreviation handle := (Relay.handle JSON_parse sampleRate channels).
Local Abbreviation dispatch := (Relay.dispatch JSON_parse sampleRate channels).
Local Abbreviation run := (Relay.run JSON_parse sampleRate channels).

Lemma quiet_onBotMessage message w : quiet w (onBotMessage message w).
Proof.
  unfold onBotMessage. apply quiet_foldl. intros w' client.
  destruct (isOpen client w'); [apply quiet_send_text | apply quiet_refl].
Qed.

Lemma quiet_onMeetingMessage message w :
  quiet w (Relay.onMeetingMessage JSON_parse message w).
Proof.
  unfold Relay.onMeetingMessage.
  eapply quiet_trans; [|apply quiet_sendToBot_text].
  destruct message as [b|s]; [|apply quiet_refl].
  destruct (Relay.speakerActivity JSON_parse b w) as [w'|] eqn:S.
  - destruct (speakerActivity_cases JSON_parse b w w' S) as [-> | [name ->]];
      by apply quiet_same.
  - destruct (isGladiaSessionActive (proxy w)); by apply quiet_same.
Qed.

Lemma quiet_setupMeetingBaasClient ws w : quiet w (setupMeetingBaasClient ws w).
Proof.
  unfold setupMeetingBaasClient.
  cbn [proxy isGladiaSessionActive set_meetingBaasClients].
  destruct (negb _); by apply quiet_same.
Qed.

Lemma quiet_onMeetingClose ws now w :
  quiet w (Relay.onMeetingClose sampleRate channels ws now w).
Proof.
  unfold Relay.onMeetingClose. destruct (_ && _); by apply quiet_same.
Qed.

Lemma quiet_shutdown now w : quiet w (Relay.shutdown sampleRate channels now w).
Proof.
  unfold Relay.shutdown.
  set (w1 := if isGladiaSessionActive (proxy w) then _ else w).
  assert (Q1 : quiet w w1)
    by (subst w1; destruct (isGladiaSessionActive (proxy w)); by apply quiet_same).
  clearbody w1.
  set (w2 := foldl _ w1 _).
  assert (Q2 : quiet w1 w2).
  { subst w2. apply quiet_foldl. intros w' client.
    destruct (isOpen client w'); by apply quiet_same. }
  clearbody w2.
  eapply quiet_trans; [exact Q1|]. eapply quiet_trans; [exact Q2|].
  destruct (botClient (proxy w2)); [|apply quiet_refl].
  destruct (isOpen _ _); by apply quiet_same.
Qed.

Lemma quiet_drain w : quiet w (drain w).
Proof.
  unfold drain.
  eapply quiet_trans; [by apply (quiet_same _ (set_microtasks [] w))|].
  apply quiet_foldl. intros w' []. by apply quiet_same.
Qed.

(** A final transcript leaves every transcript final. *)
Lemma final_only_callback_send botId data w :
  isFinal data = true -> final_only botId w ->
  final_only botId (callback_send data w).
Proof.
  intros F (B & C & P & S & A). unfold callback_send, sendToBot.
  destruct (botClient (proxy w)); [|done].
  destruct (isOpen _ _); [|done].
  repeat split; try done. cbn. apply Forall_app. split; [done|].
  by repeat constructor.
Qed.

Lemma final_only_callback botId t1 t2 c w :
  c.2 = true -> final_only botId w -> final_only botId (callback t1 t2 c w).
Proof.
  destruct c as [text final]. cbn. intros -> H.
  destruct H as (B & C & P & S & A). cbn. rewrite B.
  destruct (botId_set botId) as [id|] eqn:I.
  - repeat split; cbn; try done.
    + apply Forall_app. split; [done | by repeat constructor].
    + apply Forall_app. split; [done | by repeat constructor].
    + rewrite A. unfold handed_on. rewrite I. by rewrite fmap_app.
  - apply final_only_callback_send; [done|].
    repeat split; cbn; try done.
    + apply Forall_app. split; [done | by repeat constructor].
    + rewrite A. unfold handed_on. by rewrite I.
Qed.

Lemma step_call s e c :
  (Batcher.step sampleRate channels s e).2 = Some c -> c.2 = true.
Proof.
  destruct e; cbn; try done.
  destruct (Batcher.inflight (Batcher.node s) !! i); [|done].
  intros H. by apply BatcherFacts.resume_call in H as [? _].
Qed.

Lemma handle_final_only botId w e :
  final_only botId w ->
  exists w', handle w e = Normal w' /\ final_only botId w'.
Proof.
  intros H. destruct e; cbn -[Batcher.step].
  - destruct (roles (net w) !! ws) as [[]|].
    + eexists; split; [done|].
      eapply final_only_quiet; [exact H | apply quiet_onBotMessage].
    + eexists; split; [done|].
      eapply final_only_quiet; [exact H | apply quiet_onMeetingMessage].
    + rewrite onFirstMessage_decision. eexists; split; [done|].
      eapply final_only_quiet; [exact H|].
      destruct (decision _ _) as [[]|];
        try apply quiet_setupMeetingBaasClient.
      by apply quiet_same.
  - destruct (_ !! ws) as [[]|]; eexists; (split; [done|]);
      (eapply final_only_quiet; [exact H|]).
    + by apply quiet_same.
    + eapply quiet_trans; [|apply quiet_onMeetingClose]. by apply quiet_same.
    + by apply quiet_same.
  - eexists; split; [done|]. eapply final_only_quiet; [exact H|].
    by apply quiet_same.
  - eexists; split; [done|]. eapply final_only_quiet; [exact H|].
    by apply quiet_same.
  - destruct (Batcher.step _ _ _ _) as [client [c|]] eqn:S;
      eexists; (split; [done|]).
    + apply final_only_callback.
      * apply (step_call (gladiaClient (proxy w)) (Batcher.PostSettles i o)).
        by rewrite S.
      * eapply final_only_quiet; [exact H | by apply quiet_same].
    + eapply final_only_quiet; [exact H | by apply quiet_same].
  - destruct (appending (net w) !! i) as [data|] eqn:L;
      eexists; (split; [done|]); [|done].
    destruct H as (B & C & P & S & A).
    apply final_only_callback_send.
    + rewrite Forall_forall in P. apply P. by eapply list_elem_of_lookup_2.
    + repeat split; try done. cbn.
      eapply Forall_forall. intros x Hx. rewrite Forall_forall in P. apply P.
      by eapply list_elem_of_delete_inv.
  - eexists; split; [done|]. eapply final_only_quiet; [exact H|].
    apply quiet_shutdown.
Qed.

Lemma run_final_only botId evs : forall w,
  final_only botId w -> exists w', run w evs = Some w' /\ final_only botId w'.
Proof.
  induction evs as [|e evs IH]; intros w H; cbn; [eauto|].
  destruct (handle_final_only botId w e H) as (w1 & E & H1).
  unfold Relay.dispatch. rewrite E. cbn. apply IH.
  eapply final_only_quiet; [exact H1 | apply quiet_drain].
Qed.

End WithRuntime.

End TranscriptFacts.

Section Transcripts.
Import JS Relay RelayFacts SessionFacts TranscriptFacts.
Variable JSON_parse : string -> Completion JSValue.
Variables (sampleRate channels : Z).

Local Abbreviation dispatch := (Relay.dispatch JSON_parse sampleRate channels).
Local Abbreviation run := (Relay.run JSON_parse sampleRate channels).

(** C10. Every transcript the Batcher emits is final.  A step of the
    Batcher calls the callback with [isFinal = true] or not at all.  Hence,
    along every sequence of events of a new relay, every turn completes
    and: every call of the callback had [isFinal = true]; every
    transcription message the callback has sent to the bot (and every one
    still waiting for the persistence call) carries [isFinal = true]; and
    the calls of
    [appendTranscription] are exactly the texts of the callback calls, in
    order, under the bot identifier, when that identifier is set (a
    non-empty string, which is what the code tests), and none
    otherwise. *)
Theorem transcripts_are_final botId existed files evs s e :
  match (Batcher.step sampleRate channels s e).2 with
  | Some c => c.2 = true
  | None => True
  end
  /\ exists w,
       run (Relay.constructor botId existed files) evs = Some w
       /\ Forall (fun c : Batcher.Call => c.2 = true) (calls (net w))
       /\ Forall final_frame (sent (net w))
       /\ Forall (fun data => isFinal data = true) (appending (net w))
       /\ appended (net w) = handed_on botId (calls (net w)).
Proof.
  split.
  - destruct (Batcher.step _ _ s e).2 as [c|] eqn:E; [|done].
    by apply (step_call sampleRate channels s e).
  - destruct (run_final_only JSON_parse sampleRate channels botId evs
                (Relay.constructor botId existed files))
      as (w & R & B & C & P & S & A).
    { repeat split; cbn; try done. unfold handed_on.
      by destruct (botId_set botId). }
    exists w. done.
Qed.

Lemma drain_logs w :
  sent (net (drain w)) = sent (net w) /\ logs (drain w) = logs w
  /\ gladiaClient (proxy (drain w)) = gladiaClient (proxy w).
Proof.
  unfold drain.
  apply (foldl_invariant
           (fun w' => sent (net w') = sent (net w) /\ logs w' = logs w
                      /\ gladiaClient (proxy w') = gladiaClient (proxy w)));
    [|done].
  intros w' [b] H. exact H.
Qed.

(** C6, as the code has it.  When the backend answers a flush with an
    empty text, the turn completes (no exception leaves it), the callback
    is not called, nothing is sent to the bot or to the persistence
    collaborator, and the flush that was in flight is over. *)
Theorem empty_text_is_suppressed (w : World) (i : nat) (data : JSValue) (t1 t2 : Z) :
  get data "text" = Normal (JString "") ->
  exists w',
    dispatch w (PostSettles i (Batcher.Resolved data) t1 t2) = Some w'
    /\ calls (net w') = calls (net w)
    /\ sent (net w') = sent (net w)
    /\ appended (net w') = appended (net w)
    /\ (is_Some (Batcher.inflight (Batcher.node (gladiaClient (proxy w))) !! i) ->
        Batcher.isProcessing (Batcher.this (gladiaClient (proxy w'))) = false).
Proof.
  intros T. unfold Relay.dispatch. cbn -[Batcher.step].
  destruct (Batcher.step _ _ _ _) as [client call] eqn:S.
  assert (N : call = None /\
              (is_Some (Batcher.inflight (Batcher.node (gladiaClient (proxy w))) !! i)
               -> Batcher.isProcessing (Batcher.this client) = false)).
  { unfold Batcher.step in S.
    destruct (Batcher.inflight (Batcher.node (gladiaClient (proxy w))) !! i)
      as [r|]; [|simplify_eq; split; [done | by intros [? ?]]].
    split.
    - apply (f_equal snd) in S. cbn [snd] in S. rewrite <- S.
      by apply BatcherFacts.resume_empty_text.
    - intros _. apply (f_equal fst) in S. cbn [fst] in S. rewrite <- S.
      apply BatcherFacts.resume_isProcessing. }
  destruct N as [-> P]. eexists. split; [done|].
  destruct (drain_logs (set_gladiaClient client w)) as (Sn & L & G).
  unfold logs in L. cbn in L, G. injection L as _ Lc _ La.
  rewrite Lc, Sn, La, G. done.
Qed.

End Transcripts.

(** In the relay of the runs, with a flush under way, an answer with an
    empty text is dropped. *)
Lemma empty_text_is_suppressed_witness :
  let w := Scenario.after Scenario.flushed in
  exists w',
    Relay.dispatch Scenario.parse Scenario.sampleRate Scenario.channels w
      (Relay.PostSettles 0 (Batcher.Resolved (Scenario.response "")) 1500 1501)
    = Some w'
    /\ Relay.calls (Relay.net w') = Relay.calls (Relay.net w)
    /\ Relay.sent (Relay.net w') = Relay.sent (Relay.net w).
Proof.
  intros w.
  destruct (empty_text_is_suppressed Scenario.parse Scenario.sampleRate
              Scenario.channels w 0 (Scenario.response "") 1500 1501 eq_refl)
    as (w' & D & C & S & _).
  exists w'. split; [exact D|]. split; [exact C | exact S].
Defined.

(** C6 as stated fails: the bot is registered and open, a Meeting
    connection has sent two octets of audio, the timer has fired and one
    submission is pending; the backend answers with an empty text.  The
    callback is not called and the only frame the bot ever got is the
    forwarded audio.  (With the text "hello" the callback is called.) *)
Lemma empty_text_emits_no_transcript :
  let answered text :=
    Scenario.after
      (Scenario.flushed
       ++ [Relay.PostSettles 0 (Batcher.Resolved (Scenario.response text))
             1500 1501]) in
  Batcher.flushes_in_flight
    (Relay.gladiaClient (Relay.proxy (Scenario.after Scenario.flushed))) = 1%nat
  /\ Relay.botClient (Relay.proxy (answered ""%string)) = Some 1%nat
  /\ Relay.isOpen 1 (answered ""%string) = true
  /\ Relay.calls (Relay.net (answered ""%string)) = []
  /\ Relay.sent (Relay.net (answered ""%string))
     = [(1%nat, Relay.Text (string_of_list_byte [x00; x00]))]
  /\ ~ (exists data, (1%nat, Relay.Transcription data)
                     ∈ Relay.sent (Relay.net (answered ""%string)))
  /\ Relay.calls (Relay.net (answered "hello"%string))
     = [(JS.JString "hello", true)].
Proof.
  vm_compute. repeat split.
  intros [data H]. apply list_elem_of_singleton in H. discriminate.
Qed.

(** ** The timer of the session *)

Module TimerFacts.
Import JS Relay RelayFacts SessionFacts.

Lemma timing_sendToBot f w : timing (sendToBot f w) = timing w.
Proof.
  unfold sendToBot. destruct (botClient (proxy w)); [|done].
  by destruct (isOpen _ _).
Qed.

Lemma timer_pending_timing w w' :
  timing w' = timing w -> timer_pending w -> timer_pending w'.
Proof.
  unfold timing. intros E.
  assert (E1 : isGladiaSessionActive (proxy w') = isGladiaSessionActive (proxy w))
    by congruence.
  assert (E2 : Batcher.clock (gladiaClient (proxy w'))
               = Batcher.clock (gladiaClient (proxy w))) by congruence.
  assert (E3 : microtasks (net w') = microtasks (net w)) by congruence.
  unfold timer_pending, one_timer. by rewrite E1, E2, E3.
Qed.

Lemma ended_clock now sampleRate channels s id :
  Batcher.clock s = (Some id, {[id := 5000]}) ->
  Batcher.clock (Batcher.endSession sampleRate channels now s) = (None, ∅).
Proof.
  unfold Batcher.clock at 1. intros [= P T].
  rewrite BatcherFacts.clock_endSession, P, T. by rewrite delete_singleton_eq.
Qed.

Section WithRuntime.
Variable JSON_parse : string -> Completion JSValue.
Variables (sampleRate channels : Z).

Local Abbreviation handle := (Relay.handle JSON_parse sampleRate channels).
Local Abbreviation run := (Relay.run JSON_parse sampleRate channels).

Lemma timing_onBotMessage message w : timing (onBotMessage message w) = timing w.
Proof.
  unfold onBotMessage.
  apply (foldl_invariant (fun w' => timing w' = timing w)); [|done].
  intros w' client <-. by destruct (isOpen client w').
Qed.

Lemma timing_onMeetingMessage message w :
  timing (Relay.onMeetingMessage JSON_parse message w) = timing w.
Proof.
  unfold Relay.onMeetingMessage. rewrite timing_sendToBot.
  destruct message as [b|s]; [|done].
  destruct (Relay.speakerActivity JSON_parse b w) as [w'|] eqn:S.
  - by destruct (speakerActivity_cases JSON_parse b w w' S) as [-> | [name ->]].
  - by destruct (isGladiaSessionActive (proxy w)).
Qed.

Lemma timing_callback t1 t2 c w : timing (callback t1 t2 c w) = timing w.
Proof.
  unfold callback. destruct c as [text final].
  destruct (if final then _ else _); [done|].
  unfold callback_send. by rewrite timing_sendToBot.
Qed.

Lemma setupMeetingBaasClient_timer ws w :
  microtasks (net w) = [] -> one_timer w ->
  timer_pending (setupMeetingBaasClient ws w).
Proof.
  intros M T. unfold setupMeetingBaasClient, one_timer in *.
  cbn [proxy isGladiaSessionActive set_meetingBaasClients gladiaClient].
  destruct (isGladiaSessionActive (proxy w)) eqn:A; cbn.
  - left. split; [done|]. unfold one_timer. cbn. by rewrite A.
  - right. cbn. rewrite M. split; [done|].
    unfold Batcher.clock in T. injection T as P T.
    eexists. unfold Batcher.clock. cbn. by rewrite T.
Qed.

(** Ending the session, as [onMeetingClose] and [shutdown] do it. *)
Lemma ended_timer now w :
  microtasks (net w) = [] -> one_timer w ->
  isGladiaSessionActive (proxy w) = true ->
  timer_pending
    (set_isGladiaSessionActive false
       (set_gladiaClient
          (Batcher.endSession sampleRate channels now (gladiaClient (proxy w)))
          w)).
Proof.
  intros M T A. left. split; [done|]. unfold one_timer in *. cbn.
  rewrite A in T. destruct T as [id T]. by eapply ended_clock.
Qed.

Lemma onMeetingClose_timer ws now w :
  microtasks (net w) = [] -> one_timer w ->
  timer_pending (Relay.onMeetingClose sampleRate channels ws now w).
Proof.
  intros M T. unfold Relay.onMeetingClose.
  cbn [proxy meetingBaasClients isGladiaSessionActive set_meetingBaasClients
       gladiaClient].
  destruct (bool_decide _); cbn [andb]; [|by left].
  destruct (isGladiaSessionActive (proxy w)) eqn:A; [|by left].
  apply (timer_pending_timing
           (set_isGladiaSessionActive false
              (set_gladiaClient
                 (Batcher.endSession sampleRate channels now
                    (gladiaClient (proxy w))) w))); [done|].
  by apply ended_timer.
Qed.

Lemma shutdown_timer now w :
  microtasks (net w) = [] -> one_timer w ->
  timer_pending (Relay.shutdown sampleRate channels now w).
Proof.
  intros M T. unfold Relay.shutdown.
  set (w1 := if isGladiaSessionActive (proxy w) then _ else w).
  assert (T1 : timer_pending w1).
  { subst w1. destruct (isGladiaSessionActive (proxy w)) eqn:A;
      [by apply ended_timer | by left]. }
  clearbody w1.
  set (w2 := foldl _ w1 _).
  assert (E2 : timing w2 = timing w1).
  { subst w2.
    apply (foldl_invariant (fun w' => timing w' = timing w1)); [|done].
    intros w' client <-. by destruct (isOpen client w'). }
  clearbody w2.
  apply (timer_pending_timing w1); [|done]. rewrite <- E2.
  destruct (botClient (proxy w2)); [|done]. by destruct (isOpen _ _).
Qed.

Lemma handle_timer w e :
  microtasks (net w) = [] -> one_timer w ->
  exists w', handle w e = Normal w' /\ timer_pending w'.
Proof.
  intros M T.
  assert (P : timer_pending w) by (by left).
  destruct e; cbn -[Batcher.step].
  - destruct (roles (net w) !! ws) as [[]|].
    + eexists; split; [done|].
      apply (timer_pending_timing w); [apply timing_onBotMessage | done].
    + eexists; split; [done|].
      apply (timer_pending_timing w); [apply timing_onMeetingMessage | done].
    + rewrite onFirstMessage_decision. eexists; split; [done|].
      destruct (decision _ _) as [[]|];
        try (by apply setupMeetingBaasClient_timer).
      by apply (timer_pending_timing w).
  - destruct (_ !! ws) as [[]|]; eexists; (split; [done|]).
    + by apply (timer_pending_timing w).
    + by apply onMeetingClose_timer.
    + by apply (timer_pending_timing w).
  - eexists; split; [done|]. by apply (timer_pending_timing w).
  - eexists; split; [done|]. apply (timer_pending_timing w); [|done].
    unfold timing. cbn -[Batcher.step].
    by rewrite (BatcherFacts.clock_step sampleRate channels _
                  (Batcher.TimerFires id now)).
  - pose proof (BatcherFacts.clock_step sampleRate channels
                  (gladiaClient (proxy w)) (Batcher.PostSettles i o)) as C.
    destruct (Batcher.step _ _ _ _) as [client call].
    assert (E : timing (set_gladiaClient client w) = timing w)
      by (unfold timing; cbn; cbn in C; by rewrite C).
    eexists; split; [done|]. apply (timer_pending_timing w); [|done].
    destruct call as [c|]; [by rewrite timing_callback | done].
  - destruct (appending (net w) !! i); eexists; (split; [done|]); [|done].
    apply (timer_pending_timing w); [|done]. unfold callback_send.
    by rewrite timing_sendToBot.
  - eexists; split; [done|]. by apply shutdown_timer.
Qed.

Lemma drain_timer w :
  timer_pending w -> microtasks (net (drain w)) = [] /\ one_timer (drain w).
Proof.
  unfold drain, one_timer.
  intros [[M T] | [M [id C]]]; rewrite M; cbn; [done|]. split; [done | eauto].
Qed.

Lemma run_timer evs : forall w,
  microtasks (net w) = [] -> one_timer w ->
  exists w', run w evs = Some w' /\ one_timer w'.
Proof.
  induction evs as [|e evs IH]; intros w M T; cbn; [eauto|].
  destruct (handle_timer w e M T) as (w1 & E & P).
  unfold Relay.dispatch. rewrite E. cbn.
  destruct (drain_timer w1 P) as [M1 T1]. by apply IH.
Qed.

Lemma one_timer_size w :
  one_timer w ->
  (size (Batcher.timers (Batcher.node (gladiaClient (proxy w)))) <= 1)%nat.
Proof.
  unfold one_timer, Batcher.clock.
  destruct (isGladiaSessionActive (proxy w)).
  - intros [id [= _ ->]]. rewrite map_size_singleton. lia.
  - intros [= _ ->]. rewrite map_size_empty. lia.
Qed.

End WithRuntime.

End TimerFacts.

Section Gate.
Import JS Relay RelayFacts SessionFacts TimerFacts.
Variable JSON_parse : string -> Completion JSValue.
Variables (sampleRate channels : Z).

(** C7, as the code has it.  [initSession] is not guarded: every call
    reports success, arms one more repeating timer of 5000 ms, keeps its
    handle and leaves the audio buffer (and the rest of the state) as it
    is.  The guard is the session flag of the relay: registering a Meeting
    connection while the flag is set does not call it, so that the Batcher
    is unchanged and no promise reaction is queued; while the flag is clear
    it is called once and the reaction that sets the flag is queued, after
    which the flag is set.  Hence, along every sequence of events of a new
    relay, never more than one timer is armed. *)
Theorem start_is_gated_by_the_relay (s : Batcher.State) (w : World) (ws : nat)
    botId existed files evs :
  ((Batcher.initSession s).2 = true
   /\ Batcher.timers (Batcher.node (Batcher.initSession s).1)
      = <[Batcher.nextTimer (Batcher.node s) := 5000]>
          (Batcher.timers (Batcher.node s))
   /\ Batcher.processingInterval (Batcher.this (Batcher.initSession s).1)
      = Some (Batcher.nextTimer (Batcher.node s))
   /\ Batcher.audioBuffer (Batcher.this (Batcher.initSession s).1)
      = Batcher.audioBuffer (Batcher.this s)
   /\ Batcher.isProcessing (Batcher.this (Batcher.initSession s).1)
      = Batcher.isProcessing (Batcher.this s)
   /\ Batcher.inflight (Batcher.node (Batcher.initSession s).1)
      = Batcher.inflight (Batcher.node s))
  /\ (isGladiaSessionActive (proxy w) = true ->
      gladiaClient (proxy (setupMeetingBaasClient ws w)) = gladiaClient (proxy w)
      /\ microtasks (net (setupMeetingBaasClient ws w)) = microtasks (net w)
      /\ isGladiaSessionActive (proxy (setupMeetingBaasClient ws w)) = true)
  /\ (isGladiaSessionActive (proxy w) = false ->
      gladiaClient (proxy (setupMeetingBaasClient ws w))
        = (Batcher.initSession (gladiaClient (proxy w))).1
      /\ microtasks (net (setupMeetingBaasClient ws w))
         = microtasks (net w) ++ [SessionStarted true]
      /\ isGladiaSessionActive (proxy (drain (setupMeetingBaasClient ws w)))
         = true)
  /\ (exists w',
        Relay.run JSON_parse sampleRate channels
          (Relay.constructor botId existed files) evs = Some w'
        /\ (size (Batcher.timers (Batcher.node (gladiaClient (proxy w'))))
            <= 1)%nat).
Proof.
  split; [done|]. split; [|split].
  - intros A. unfold setupMeetingBaasClient. cbn. rewrite A. done.
  - intros A. unfold setupMeetingBaasClient. cbn. rewrite A. cbn.
    split; [done|]. split; [done|].
    unfold drain. cbn. rewrite foldl_app. done.
  - destruct (run_timer JSON_parse sampleRate channels evs
                (Relay.constructor botId existed files)) as (w' & R & T);
      [done | done |].
    exists w'. split; [exact R | by apply one_timer_size].
Qed.


End Gate.

(** In the relay of the runs the session is active: a third connection
    registers without a call of [initSession]. *)
Lemma start_is_gated_by_the_relay_witness :
  let w := Scenario.after Scenario.connected in
  Relay.isGladiaSessionActive (Relay.proxy w) = true
  /\ Relay.gladiaClient (Relay.proxy (Relay.setupMeetingBaasClient 3 w))
     = Relay.gladiaClient (Relay.proxy w)
  /\ Relay.gladiaClient
       (Relay.proxy
          (Relay.setupMeetingBaasClient 2
             (Relay.constructor (Some "bot-1"%string) true ∅)))
     = (Batcher.initSession
          (Relay.gladiaClient
             (Relay.proxy (Relay.constructor (Some "bot-1"%string) true ∅)))).1.
Proof.
  intros w.
  assert (A : Relay.isGladiaSessionActive (Relay.proxy w) = true)
    by (vm_compute; reflexivity).
  split; [exact A|]. split.
  - apply (start_is_gated_by_the_relay Scenario.parse Scenario.sampleRate
             Scenario.channels Scenario.ready w 3 None true ∅ []). exact A.
  - apply (start_is_gated_by_the_relay Scenario.parse Scenario.sampleRate
             Scenario.channels Scenario.ready
             (Relay.constructor (Some "bot-1"%string) true ∅) 2 None true ∅ []).
    reflexivity.
Defined.

(** C7 as stated fails: [initSession] called on a Batcher whose timer is
    armed is not a no-op, it arms a second timer (and the handle of the
    first is lost). *)
Lemma second_start_arms_second_timer :
  let s := (Batcher.initSession (Batcher.constructor true ∅)).1 in
  Batcher.processingInterval (Batcher.this s) = Some 0%nat
  /\ (Batcher.initSession s).1 <> s
  /\ Batcher.timers (Batcher.node (Batcher.initSession s).1)
     = {[ 0%nat := 5000; 1%nat := 5000 ]}
  /\ Batcher.processingInterval (Batcher.this (Batcher.initSession s).1)
     = Some 1%nat.
Proof.
  intros s. split; [reflexivity|]. split; [|split; [|reflexivity]].
  - intros E.
    apply (f_equal (fun s => Batcher.nextTimer (Batcher.node s))) in E.
    vm_compute in E. discriminate.
  - vm_compute. reflexivity.
Qed.

(* ================================================================== *)
(** * Further properties of the sources *)
(* ================================================================== *)

(** ** The Audio Batcher: what a flush submits, and when it no longer can *)

Module FlushFacts.
Import JS Batcher BatcherFacts Views.

Lemma feed_audioBuffer chunks : forall s,
  audioBuffer (this (feed chunks s)) = audioBuffer (this s) ++ chunks
  /\ isProcessing (this (feed chunks s)) = isProcessing (this s)
  /\ node (feed chunks s) = node s
  /\ processingInterval (this (feed chunks s)) = processingInterval (this s)
  /\ onTranscriptionCallback (this (feed chunks s))
     = onTranscriptionCallback (this s).
Proof.
  unfold feed. induction chunks as [|c chunks IH]; intros s; cbn [foldl].
  - by rewrite app_nil_r.
  - destruct (IH (sendAudioChunk c s).1) as (A & P & N & T & C).
    rewrite A, P, N, T, C. cbn. by rewrite <- app_assoc.
Qed.

Section WithConfig.
Variables (sampleRate channels : Z).

Local Abbreviation processAudioBuffer :=
  (Batcher.processAudioBuffer sampleRate channels).
Local Abbreviation step := (Batcher.step sampleRate channels).
Local Abbreviation run := (Batcher.run sampleRate channels).

(** A flush of an idle Batcher whose directory exists, in full. *)
Lemma processAudioBuffer_idle now s :
  isProcessing (this s) = false ->
  audioBuffer (this s) <> [] ->
  tempDirExists (node s) = true ->
  let raw := concat (audioBuffer (this s)) in
  processAudioBuffer now s =
  if Wav.fits (Z.of_nat (length raw)) sampleRate channels
  then suspended now
         (Wav.spec_header (Z.of_nat (length raw)) sampleRate channels ++ raw) s
  else dropped s.
Proof.
  intros P A D raw. rewrite processAudioBuffer_unfold, P, D.
  rewrite bool_decide_eq_false_2 by done. cbn [orb]. fold raw.
  rewrite WavFacts.getWavHeader_spec. by destruct (Wav.fits _ _ _).
Qed.

Lemma run_app evs1 evs2 s :
  run s (evs1 ++ evs2)
  = ((run (run s evs1).1 evs2).1, (run s evs1).2 ++ (run (run s evs1).1 evs2).2).
Proof.
  revert s. induction evs1 as [|e evs1 IH]; intros s; cbn.
  - by destruct (run s evs2).
  - destruct (step s e) as [s1 c]. rewrite IH.
    destruct (run s1 evs1) as [s2 cs]. cbn.
    destruct (run s2 evs2) as [s3 cs']. cbn. by rewrite app_assoc.
Qed.

Lemma tidy_processAudioBuffer now s : tidy s -> tidy (processAudioBuffer now s).
Proof.
  intros T.
  destruct (processAudioBuffer_cases sampleRate channels now s)
    as [-> | [[_ ->] | (_ & D & hdr & ->)]]; [done|done|].
  intros D'. cbn in D'. done.
Qed.

Lemma tidy_endSession now s :
  tidy s -> swept (Batcher.endSession sampleRate channels now s).
Proof.
  intros T. unfold Batcher.endSession.
  set (s1 := match processingInterval (this s) with
             | Some id => _ | None => s end).
  assert (T1 : tidy s1) by (subst s1; by destruct (processingInterval (this s))).
  clearbody s1.
  set (s2 := if bool_decide _ then processAudioBuffer now s1 else s1).
  assert (T2 : tidy s2)
    by (subst s2; destruct (bool_decide _);
        [by apply tidy_processAudioBuffer | done]).
  clearbody s2. destruct (tempDirExists (node s2)) eqn:D; [done|].
  split; [done | by apply T2].
Qed.

Lemma tidy_resume r o s : tidy s -> tidy (processAudioBuffer_resume r o s).1.
Proof.
  intros T. unfold processAudioBuffer_resume, unlinkSync.
  destruct o as [data|]; [|done].
  destruct (tempFiles (node s) !! tempFile r); [|done].
  assert (T' : forall s', node s' = set_files (tempDirExists (node s))
                                      (delete (tempFile r) (tempFiles (node s)))
                                      (node s) -> tidy s').
  { intros s' E D. rewrite E in D |- *. cbn in *. rewrite (T D).
    apply delete_empty. }
  destruct (and_then _ _) as [t|]; [|by apply T'].
  destruct (truthy t); by apply T'.
Qed.

Lemma tidy_step s e : tidy s -> tidy (step s e).1.
Proof.
  intros T. destruct e as [id now| |b| |now|i o]; cbn; try done.
  - destruct (bool_decide _); [by apply tidy_processAudioBuffer | done].
  - intros D. by apply tidy_endSession.
  - destruct (inflight (node s) !! i) as [r|]; [|done]. by apply tidy_resume.
Qed.

Lemma tidy_run evs : forall s, tidy s -> tidy (run s evs).1.
Proof.
  induction evs as [|e evs IH]; intros s T; cbn; [done|].
  pose proof (tidy_step s e T) as T1. destruct (step s e) as [s1 c].
  specialize (IH s1 T1). by destruct (run s1 evs).
Qed.

(** Once the directory is swept, a flush stages nothing and a settling
    request finds no file: no step submits or calls back. *)
Lemma swept_step s e :
  swept s ->
  swept (step s e).1 /\ (step s e).2 = None
  /\ (length (inflight (node (step s e).1)) <= length (inflight (node s)))%nat.
Proof.
  intros [D F].
  assert (PAB : forall now s', swept s' ->
            swept (processAudioBuffer now s')
            /\ inflight (node (processAudioBuffer now s')) = inflight (node s')).
  { intros now s' [D' F'].
    destruct (processAudioBuffer_cases sampleRate channels now s')
      as [-> | [[_ ->] | (_ & E & _)]]; [done|done|congruence]. }
  destruct e as [id now| |b| |now|i o]; cbn;
    try (split; [done|]; split; [done | lia]).
  - destruct (bool_decide _); [|split; [done|]; split; [done | lia]].
    destruct (PAB now s (conj D F)) as [S ->].
    split; [done|]. split; [done | lia].
  - split; [|split; [done|]].
    + apply tidy_endSession. by intros _.
    + unfold Batcher.endSession.
      set (s1 := match processingInterval (this s) with
                 | Some id => _ | None => s end).
      assert (S1 : swept s1 /\ inflight (node s1) = inflight (node s))
        by (subst s1; by destruct (processingInterval (this s))).
      destruct S1 as [S1 <-]. clearbody s1.
      set (s2 := if bool_decide _ then processAudioBuffer now s1 else s1).
      assert (I2 : inflight (node s2) = inflight (node s1))
        by (subst s2; destruct (bool_decide _); [apply (PAB now s1 S1) | done]).
      clearbody s2. rewrite <- I2.
      destruct (tempDirExists (node s2)); cbn [set_node set_files node inflight];
        lia.
  - destruct (inflight (node s) !! i) as [r|] eqn:L;
      [|cbn; split; [done|]; split; [done | lia]].
    unfold processAudioBuffer_resume, unlinkSync. cbn. rewrite F, lookup_empty.
    destruct o; cbn; (split; [done|]); (split; [done|]);
      rewrite length_delete by eauto; lia.
Qed.

Lemma swept_run evs : forall s,
  swept s ->
  swept (run s evs).1 /\ (run s evs).2 = []
  /\ (length (inflight (node (run s evs).1)) <= length (inflight (node s)))%nat.
Proof.
  induction evs as [|e evs IH]; intros s S; cbn; [done|].
  destruct (swept_step s e S) as (S1 & C1 & L1).
  destruct (step s e) as [s1 c]. cbn in *. subst c.
  destruct (IH s1 S1) as (S2 & C2 & L2).
  destruct (run s1 evs) as [s2 cs]. cbn in *. subst cs.
  split; [done|]. split; [done | lia].
Qed.

End WithConfig.

End FlushFacts.

Section FlushWindows.
Import JS Batcher BatcherFacts Views FlushFacts.
Variables (sampleRate channels : Z).

Local Abbreviation processAudioBuffer :=
  (Batcher.processAudioBuffer sampleRate channels).

Lemma length_spec_header d : length (Wav.spec_header d sampleRate channels) = 44%nat.
Proof. reflexivity. Qed.

(** X1. What a flush submits.  On an idle Batcher whose scratch directory
    exists, the chunks handed over since the last flush are submitted in
    the order they arrived, as one container: the 44-octet header for their
    total length followed by their octets.  The container is also what the
    scratch file holds, the buffer is emptied and the in-flight flag set.
    When the total length does not fit the header the segment is dropped:
    nothing is submitted and the buffer is emptied all the same. *)
Theorem flush_submits_header_and_chunks now chunks s :
  isProcessing (this s) = false ->
  tempDirExists (node s) = true ->
  audioBuffer (this s) ++ chunks <> [] ->
  let raw := concat (audioBuffer (this s) ++ chunks) in
  let container :=
    Wav.spec_header (Z.of_nat (length raw)) sampleRate channels ++ raw in
  let s' := processAudioBuffer now (feed chunks s) in
  audioBuffer (this s') = []
  /\ if Wav.fits (Z.of_nat (length raw)) sampleRate channels
     then inflight (node s')
          = inflight (node s) ++ [{| body := container; tempFile := now |}]
          /\ length container = (44 + length raw)%nat
          /\ tempFiles (node s') = <[now := container]> (tempFiles (node s))
          /\ isProcessing (this s') = true
     else inflight (node s') = inflight (node s)
          /\ tempFiles (node s') = tempFiles (node s)
          /\ isProcessing (this s') = false.
Proof.
  intros P D A raw container s'.
  destruct (feed_audioBuffer chunks s) as (FA & FP & FN & _).
  assert (E : s' = if Wav.fits (Z.of_nat (length raw)) sampleRate channels
                   then suspended now container (feed chunks s)
                   else dropped (feed chunks s)).
  { subst s' container raw. rewrite <- FA.
    apply processAudioBuffer_idle; [congruence | by rewrite FA | by rewrite FN]. }
  assert (L : length container = (44 + length raw)%nat)
    by (subst container; by rewrite length_app, length_spec_header).
  clearbody container.
  rewrite E. destruct (Wav.fits _ _ _); cbn; rewrite ?FN; done.
Qed.

(** X2. Flush windows are independent.  While a flush is in flight the
    chunks that arrive are kept and a timer firing changes nothing; when
    the request settles, whatever the outcome (an answer, an empty answer,
    a rejection), the buffer holds exactly the chunks that arrived
    meanwhile: the segment that was submitted is never put back. *)
Theorem flush_windows_are_independent now chunks s :
  isProcessing (this s) = false ->
  inflight (node s) = [] ->
  tempDirExists (node s) = true ->
  audioBuffer (this s) <> [] ->
  Wav.fits (Z.of_nat (length (concat (audioBuffer (this s)))))
    sampleRate channels = true ->
  let s2 := feed chunks (processAudioBuffer now s) in
  audioBuffer (this s2) = chunks
  /\ (forall now', processAudioBuffer now' s2 = s2)
  /\ (forall o,
        let s3 := (Batcher.step sampleRate channels s2 (PostSettles 0 o)).1 in
        audioBuffer (this s3) = chunks
        /\ isProcessing (this s3) = false
        /\ inflight (node s3) = []).
Proof.
  intros P I D A F s2.
  pose proof (processAudioBuffer_idle sampleRate channels now s P A D) as E.
  cbn zeta in E. rewrite F in E.
  set (c := Wav.spec_header _ _ _ ++ _) in E. clearbody c.
  destruct (feed_audioBuffer chunks (processAudioBuffer now s))
    as (FA & FP & FN & _).
  fold s2 in FA, FP, FN. rewrite E in FA, FP, FN.
  unfold suspended, post in FN. cbn in FA, FP, FN.
  rewrite I in FN. cbn in FN.
  split; [done|]. split.
  - intros now'. by rewrite processAudioBuffer_unfold, FP.
  - intros o.
    set (r := {| body := c; tempFile := now |}) in FN.
    assert (L0 : inflight (node s2) !! 0%nat = Some r)
      by (by rewrite FN).
    unfold Batcher.step. rewrite L0.
    set (s2' := set_node _ s2).
    pose proof (resume_isProcessing r o s2') as RP.
    pose proof (resume_inflight r o s2') as RI.
    assert (RA : audioBuffer (this (processAudioBuffer_resume r o s2').1)
                 = audioBuffer (this s2')).
    { unfold processAudioBuffer_resume, unlinkSync.
      destruct o as [data|]; [|done].
      destruct (tempFiles (node s2') !! tempFile r); [|done].
      destruct (and_then _ _) as [t|]; [|done]. by destruct (truthy t). }
    cbn zeta. rewrite RA, RP, RI. subst s2'. cbn. by rewrite FN.
Qed.

(** X3. After [endSession] the Batcher is spent.  [endSession] removes the
    scratch directory and no method makes it again, so from then on,
    whatever is called and whatever the backend answers (a restart with
    [initSession] included), the callback is never called, no submission is
    started, and the directory stays away.  The answer to a flush that was
    in flight when the session ended is dropped too. *)
Theorem no_transcript_after_endSession existed files evs1 now evs2 :
  let s := (Batcher.run sampleRate channels (Batcher.constructor existed files)
              (evs1 ++ [CallEndSession now])).1 in
  let s' := (Batcher.run sampleRate channels s evs2).1 in
  (Batcher.run sampleRate channels s evs2).2 = []
  /\ tempDirExists (node s') = false
  /\ (length (inflight (node s')) <= length (inflight (node s)))%nat.
Proof.
  intros s s'.
  assert (S : swept s).
  { subst s. rewrite run_app. cbn.
    apply tidy_endSession, tidy_run. intros D. cbn in D. done. }
  destruct (swept_run sampleRate channels evs2 s S) as ([D _] & C & L).
  done.
Qed.

End FlushWindows.

(** The chunks [01] and [02 03] on a started Batcher are submitted as one
    container of 47 octets. *)
Lemma flush_submits_header_and_chunks_witness :
  let s' := Batcher.processAudioBuffer 16000 1 1000
              (Views.feed [[x01]; [x02; x03]] Views.started) in
  Batcher.audioBuffer (Batcher.this s') = []
  /\ (length <$> (Batcher.body <$> Batcher.inflight (Batcher.node s')))
     = [47%nat].
Proof.
  intros s'. split; [|vm_compute; reflexivity].
  assert (P : Batcher.isProcessing (Batcher.this Views.started) = false)
    by reflexivity.
  assert (D : Batcher.tempDirExists (Batcher.node Views.started) = true)
    by reflexivity.
  assert (A : Batcher.audioBuffer (Batcher.this Views.started)
              ++ [[x01]; [x02; x03]] <> []) by discriminate.
  pose proof (flush_submits_header_and_chunks 16000 1 1000 [[x01]; [x02; x03]]
                Views.started P D A) as T.
  exact (proj1 T).
Defined.

(** With the flush of the runs in flight, a chunk that arrives is all the
    buffer holds once the request is rejected. *)
Lemma flush_windows_are_independent_witness :
  let s2 := Views.feed [[x09]]
              (Batcher.processAudioBuffer 16000 1 1000 Scenario.ready) in
  Batcher.audioBuffer
    (Batcher.this (Batcher.step 16000 1 s2
                     (Batcher.PostSettles 0 Batcher.Rejected)).1) = [[x09]].
Proof.
  intros s2.
  assert (P : Batcher.isProcessing (Batcher.this Scenario.ready) = false)
    by reflexivity.
  assert (I : Batcher.inflight (Batcher.node Scenario.ready) = [])
    by reflexivity.
  assert (D : Batcher.tempDirExists (Batcher.node Scenario.ready) = true)
    by reflexivity.
  assert (A : Batcher.audioBuffer (Batcher.this Scenario.ready) <> [])
    by discriminate.
  assert (F : Wav.fits
                (Z.of_nat (length (concat (Batcher.audioBuffer
                                             (Batcher.this Scenario.ready)))))
                16000 1 = true) by (vm_compute; reflexivity).
  pose proof (flush_windows_are_independent 16000 1 1000 [[x09]] Scenario.ready
                P I D A F) as T.
  exact (proj1 (proj2 (proj2 T) Batcher.Rejected)).
Defined.

(** ** The Relay Core: routing, fan-out, the bot reference, shutdown *)

Module RoutingFacts.
Import JS Relay RelayFacts SessionFacts Views.

Lemma lead_reached b p : (Utf8.lead b).2 = Some p -> reached p.
Proof.
  intros L xs.
  assert (S : Utf8.seen p = [b] /\ (Utf8.lead b).1 = []).
  { unfold Utf8.lead in *.
    repeat (destruct (_ : bool) in L |- *; cbn in L; try done);
      by injection L as <-. }
  destruct S as [-> O]. cbn. destruct (Utf8.lead b) as [out st] eqn:E.
  cbn in *. by subst.
Qed.

Lemma decode_replacement xs :
  Utf8.decode None (Utf8.replacement ++ xs)
  = Utf8.replacement ++ Utf8.decode None xs.
Proof. reflexivity. Qed.

Lemma decode_lead b xs :
  Utf8.decode None ((Utf8.lead b).1 ++ xs)
  = (Utf8.lead b).1 ++ Utf8.decode None xs.
Proof.
  unfold Utf8.lead.
  destruct (Byte.to_N b <=? 127)%N eqn:A.
  - cbn. unfold Utf8.lead. by rewrite A.
  - repeat (destruct (Utf8.between _ _ _); [done|]). apply decode_replacement.
Qed.

(** Decoding what the decoder wrote changes nothing. *)
Lemma decode_idempotent bs : forall st,
  match st with Some p => reached p | None => True end ->
  Utf8.decode None (Utf8.decode st bs) = Utf8.decode st bs.
Proof.
  induction bs as [|b bs IH]; intros st V.
  - by destruct st.
  - destruct st as [p|]; cbn [Utf8.decode].
    + destruct (Utf8.between _ _ _) eqn:R.
      * assert (C : Utf8.decode None ((Utf8.seen p ++ [b]) ++ Utf8.decode None bs)
                    = if Utf8.between (Utf8.lower p) (Utf8.upper p) (Byte.to_N b)
                      then match Utf8.needed p with
                           | 0%nat | 1%nat =>
                               (Utf8.seen p ++ [b])
                               ++ Utf8.decode None (Utf8.decode None bs)
                           | S k =>
                               Utf8.decode
                                 (Some {| Utf8.needed := k;
                                          Utf8.seen := Utf8.seen p ++ [b];
                                          Utf8.lower := 128;
                                          Utf8.upper := 191 |})
                                 (Utf8.decode None bs)
                           end
                      else Utf8.decode None (Utf8.decode None bs))
          by (rewrite <- app_assoc, V; cbn [app Utf8.decode]; by rewrite R).
        rewrite R in C.
        destruct (Utf8.needed p) as [|[|k]] eqn:N.
        -- rewrite C. by rewrite (IH None).
        -- rewrite C. by rewrite (IH None).
        -- apply IH. intros xs. cbn [Utf8.seen].
           rewrite <- app_assoc, V. cbn [app Utf8.decode]. by rewrite R, N.
      * destruct (Utf8.lead b) as [out st'] eqn:L.
        rewrite decode_replacement.
        pose proof (decode_lead b (Utf8.decode st' bs)) as DL.
        rewrite L in DL. cbn in DL. rewrite DL. rewrite IH; [done|].
        destruct st' as [p'|]; [|done]. apply (lead_reached b). by rewrite L.
    + destruct (Utf8.lead b) as [out st'] eqn:L.
      pose proof (decode_lead b (Utf8.decode st' bs)) as DL.
      rewrite L in DL. cbn in DL. rewrite DL. rewrite IH; [done|].
      destruct st' as [p'|]; [|done]. apply (lead_reached b). by rewrite L.
Qed.

(** What a walk over connections sends: one frame to each open one. *)
Lemma fan_out_sent f (l : list nat) : forall w,
  let w' := foldl (fun w client => if isOpen client w then send client f w else w)
                  w l in
  proxy w' = proxy w
  /\ readyState (net w') = readyState (net w)
  /\ sent (net w')
     = sent (net w)
       ++ ((fun c => (c, f)) <$> filter (fun c => readyState (net w) c = OPEN) l).
Proof.
  induction l as [|c l IH]; intros w; cbn [foldl].
  - cbn. by rewrite app_nil_r.
  - set (w1 := if isOpen c w then send c f w else w).
    assert (E : proxy w1 = proxy w /\ readyState (net w1) = readyState (net w)
                /\ sent (net w1)
                   = sent (net w)
                     ++ (if isOpen c w then [(c, f)] else []))
      by (subst w1; destruct (isOpen c w); cbn; by rewrite ?app_nil_r).
    destruct E as (E1 & E2 & E3). clearbody w1.
    destruct (IH w1) as (I1 & I2 & I3).
    cbn zeta. rewrite I1, I2, I3, E1, E2, E3. split; [done|]. split; [done|].
    rewrite filter_cons. unfold isOpen.
    destruct (decide (readyState (net w) c = OPEN)) as [O|O].
    + rewrite bool_decide_eq_true_2 by done. cbn. by rewrite <- app_assoc.
    + rewrite bool_decide_eq_false_2 by done. by rewrite app_nil_r.
Qed.

(** What a walk that closes connections leaves open: nothing it met. *)
Lemma close_all_states (l : list nat) : forall w,
  let w' := foldl (fun w client => if isOpen client w then close client w else w)
                  w l in
  proxy w' = proxy w
  /\ sent (net w') = sent (net w)
  /\ microtasks (net w') = microtasks (net w)
  /\ (forall c, c ∈ l -> isOpen c w' = false)
  /\ (forall c, isOpen c w = false -> isOpen c w' = false).
Proof.
  induction l as [|c l IH]; intros w; cbn [foldl].
  - cbn. repeat split; try done. intros c H. by apply elem_of_nil in H.
  - set (w1 := if isOpen c w then close c w else w).
    assert (E : proxy w1 = proxy w /\ sent (net w1) = sent (net w)
                /\ microtasks (net w1) = microtasks (net w)
                /\ isOpen c w1 = false
                /\ (forall c', isOpen c' w = false -> isOpen c' w1 = false)).
    { subst w1. destruct (isOpen c w) eqn:O; [|done].
      repeat split; try done.
      - unfold isOpen, close. cbn. by rewrite fn_lookup_insert.
      - intros c' H. unfold isOpen, close in *. cbn.
        destruct (decide (c = c')) as [->|N].
        + by rewrite fn_lookup_insert.
        + by rewrite fn_lookup_insert_ne. }
    destruct E as (E1 & E2 & E3 & E4 & E5). clearbody w1.
    destruct (IH w1) as (I1 & I2 & I3 & I4 & I5).
    cbn zeta. rewrite I1, I2, I3. repeat split; try done.
    + intros c' [->|H]%elem_of_cons; [by apply I5 | by apply I4].
    + intros c' H. by apply I5, E5.
Qed.

End RoutingFacts.

Section Routing.
Import JS Relay RelayFacts SessionFacts Views RoutingFacts.
Variable JSON_parse : string -> Completion JSValue.
Variables (sampleRate channels : Z).

Local Abbreviation onMeetingMessage := (Relay.onMeetingMessage JSON_parse).
Local Abbreviation speakerActivity := (Relay.speakerActivity JSON_parse).
Local Abbreviation dispatch := (Relay.dispatch JSON_parse sampleRate channels).



(** X6. Fan-out of a bot message.  A message from a bot connection is sent,
    as [message.toString()], once to every Meeting connection that is open
    and to no other connection; a closed one is skipped.  With no Meeting
    connection (or none open) nothing is sent.  Nothing else changes. *)
Theorem bot_message_fans_out (message : RawData) (w : World) :
  exists frames,
    sent (net (onBotMessage message w)) = sent (net w) ++ frames
    /\ NoDup frames
    /\ (forall c f,
          (c, f) ∈ frames
          <-> f = Text (Utf8.messageToString message)
              /\ c ∈ meetingBaasClients (proxy w) /\ isOpen c w = true)
    /\ (meetingBaasClients (proxy w) = ∅ -> frames = [])
    /\ proxy (onBotMessage message w) = proxy w.
Proof.
  unfold onBotMessage.
  destruct (fan_out_sent (Text (Utf8.messageToString message))
              (elements (meetingBaasClients (proxy w))) w) as (P & _ & S).
  eexists. split; [exact S|]. split; [|split; [|split; [|exact P]]].
  - apply NoDup_fmap_2; [by intros c1 c2 [= ->]|].
    apply NoDup_filter, NoDup_elements.
  - intros c f. rewrite list_elem_of_fmap. split.
    + intros (c' & [= -> ->] & H). apply list_elem_of_filter in H as [O H].
      apply elem_of_elements in H. unfold isOpen.
      by rewrite bool_decide_eq_true_2.
    + intros (-> & H & O). exists c. split; [done|].
      apply list_elem_of_filter. split; [|by apply elem_of_elements].
      unfold isOpen in O. by apply bool_decide_eq_true in O.
  - intros ->. by rewrite elements_empty.
Qed.

(** X7. The bot reference: last writer wins, and any bot close clears it.
    A registration makes the connection the bot connection whatever the
    reference held before.  The close of any connection that registered as
    a bot clears the reference, also when a later bot connection holds it;
    from then on a message of a Meeting connection sends nothing. *)
Theorem bot_reference_discipline (w : World) (ws : nat) (now : Z) :
  botClient (proxy (setupBotClient ws w)) = Some ws
  /\ (roles (net w) !! ws = Some Bot ->
      exists w',
        dispatch w (Close ws now) = Some w'
        /\ botClient (proxy w') = None
        /\ forall message,
             sent (net (onMeetingMessage message w')) = sent (net w')).
Proof.
  split; [done|]. intros R. unfold Relay.dispatch. cbn [Relay.handle]. cbn.
  rewrite R. eexists. split; [done|].
  destruct (drain_logs (onBotClose
              (set_readyState (<[ws:=CLOSED]> (readyState (net w))) w)))
    as (_ & _ & _).
  assert (B : botClient (proxy (drain (onBotClose
                (set_readyState (<[ws:=CLOSED]> (readyState (net w))) w))))
              = None).
  { unfold drain.
    apply (foldl_invariant (fun w' => botClient (proxy w') = None)); [|done].
    by intros w' []. }
  split; [exact B|]. intros message.
  set (w' := drain _) in *. clearbody w'.
  unfold Relay.onMeetingMessage.
  set (w1 := match message with BufferData _ => _ | StringData _ => w' end).
  assert (L : botClient (proxy w1) = None /\ sent (net w1) = sent (net w')).
  { subst w1. destruct message as [b|s]; [|done].
    destruct (speakerActivity b w') as [w2|] eqn:S.
    - by destruct (speakerActivity_cases JSON_parse b w' w2 S)
        as [-> | [name ->]].
    - by destruct (isGladiaSessionActive (proxy w')). }
  destruct L as [B1 S1]. unfold sendToBot. by rewrite B1.
Qed.

(** X8. What the relay forwards is well-formed text: decoding the octets of
    a forwarded buffer again gives the same string, so a payload that went
    through the relay once goes through it unchanged from then on. *)
Theorem forwarded_text_is_stable (b : Buffer) :
  Utf8.toString (list_byte_of_string (Utf8.toString b)) = Utf8.toString b.
Proof.
  unfold Utf8.toString. rewrite list_byte_of_string_of_list_byte.
  by rewrite (decode_idempotent b None).
Qed.

Lemma filter_none {A} (P : A -> Prop) `{!forall x, Decision (P x)} (l : list A) :
  (forall x, x ∈ l -> ~ P x) -> filter P l = [].
Proof.
  induction l as [|a l IH]; intros Hn; [done|].
  rewrite filter_cons. destruct (decide (P a)) as [Pa|Pa].
  - exfalso. apply (Hn a); [left | done].
  - apply IH. intros x Hx. apply Hn. by right.
Qed.

(** With nobody open on the other side, a message sends nothing. *)
Lemma bot_message_quiet w :
  (forall message,
     (forall c, c ∈ meetingBaasClients (proxy w) -> isOpen c w = false) ->
     sent (net (onBotMessage message w)) = sent (net w))
  /\ (forall message,
        (forall bot, botClient (proxy w) = Some bot -> isOpen bot w = false) ->
        sent (net (onMeetingMessage message w)) = sent (net w)).
Proof.
  split; intros message H.
  - unfold onBotMessage.
    destruct (fan_out_sent (Text (Utf8.messageToString message))
                (elements (meetingBaasClients (proxy w))) w) as (_ & _ & S).
    cbn zeta in S. rewrite S, filter_none; [by rewrite app_nil_r|].
    intros c Hc O. apply elem_of_elements in Hc. specialize (H c Hc).
    unfold isOpen in H. by rewrite bool_decide_eq_true_2 in H.
  - unfold Relay.onMeetingMessage.
    set (w1 := match message with BufferData _ => _ | StringData _ => w end).
    assert (L : botClient (proxy w1) = botClient (proxy w)
                /\ readyState (net w1) = readyState (net w)
                /\ sent (net w1) = sent (net w)).
    { subst w1. destruct message as [b|s]; [|done].
      destruct (speakerActivity b w) as [w2|] eqn:S.
      - by destruct (speakerActivity_cases JSON_parse b w w2 S)
          as [-> | [name ->]].
      - by destruct (isGladiaSessionActive (proxy w)). }
    destruct L as (B1 & R1 & S1). clearbody w1.
    unfold sendToBot. rewrite B1.
    destruct (botClient (proxy w)) as [bot|]; [|done].
    specialize (H bot eq_refl). unfold isOpen in *. rewrite R1, H. done.
Qed.

(** X9. After [shutdown()] the relay is quiet.  The session flag is clear,
    and when it was set the Batcher's [endSession] has run; every Meeting
    connection and the bot connection are no longer open (the open ones
    are closing), while the references to them are kept; so a message from
    either side, arriving before the close events, sends nothing. *)
Theorem shutdown_quiesces (now : Z) (w : World) :
  let w' := Relay.shutdown sampleRate channels now w in
  isGladiaSessionActive (proxy w') = false
  /\ gladiaClient (proxy w')
     = (if isGladiaSessionActive (proxy w)
        then Batcher.endSession sampleRate channels now (gladiaClient (proxy w))
        else gladiaClient (proxy w))
  /\ meetingBaasClients (proxy w') = meetingBaasClients (proxy w)
  /\ botClient (proxy w') = botClient (proxy w)
  /\ (forall c, c ∈ meetingBaasClients (proxy w) -> isOpen c w' = false)
  /\ (forall bot, botClient (proxy w) = Some bot -> isOpen bot w' = false)
  /\ (forall message,
        sent (net (onBotMessage message w')) = sent (net w')
        /\ sent (net (onMeetingMessage message w')) = sent (net w')).
Proof.
  intros w'. subst w'. unfold Relay.shutdown.
  set (w1 := if isGladiaSessionActive (proxy w) then _ else w).
  assert (E1 : isGladiaSessionActive (proxy w1) = false
               /\ gladiaClient (proxy w1)
                  = (if isGladiaSessionActive (proxy w)
                     then Batcher.endSession sampleRate channels now
                            (gladiaClient (proxy w))
                     else gladiaClient (proxy w))
               /\ meetingBaasClients (proxy w1) = meetingBaasClients (proxy w)
               /\ botClient (proxy w1) = botClient (proxy w))
    by (subst w1; by destruct (isGladiaSessionActive (proxy w)) eqn:A).
  destruct E1 as (A1 & G1 & M1 & B1). clearbody w1.
  destruct (close_all_states (elements (meetingBaasClients (proxy w1))) w1)
    as (P2 & _ & _ & C2 & K2).
  set (w2 := foldl _ w1 _) in *. clearbody w2.
  set (w3 := match botClient (proxy w2) with
             | Some bot => if isOpen bot w2 then close bot w2 else w2
             | None => w2 end).
  assert (E3 : proxy w3 = proxy w2
               /\ (forall c, isOpen c w2 = false -> isOpen c w3 = false)
               /\ (forall bot, botClient (proxy w2) = Some bot ->
                               isOpen bot w3 = false)).
  { subst w3. destruct (botClient (proxy w2)) as [bot|]; [|done].
    destruct (isOpen bot w2) eqn:O.
    - split; [done|]. split.
      + intros c H. unfold isOpen, close in *. cbn.
        destruct (decide (bot = c)) as [->|N];
          [by rewrite fn_lookup_insert | by rewrite fn_lookup_insert_ne].
      + intros ? [= <-]. unfold isOpen, close. cbn. by rewrite fn_lookup_insert.
    - split; [done|]. split; [done|]. by intros ? [= <-]. }
  destruct E3 as (P3 & K3 & B3). clearbody w3.
  rewrite P3, P2. repeat split; try done.
  - intros c H. apply K3, C2. apply elem_of_elements. by rewrite M1.
  - intros bot H. apply B3. by rewrite P2, B1.
  - destruct (bot_message_quiet w3) as [S _]. exact (S message
      ltac:(intros c H; apply K3, C2, elem_of_elements; by rewrite <- P2, <- P3)).
  - destruct (bot_message_quiet w3) as [_ S]. exact (S message
      ltac:(intros bot H; apply B3; by rewrite <- P3)).
Qed.

End Routing.


(** ** The bot *)

Module BotFacts.
Import JS Bot.

Lemma iter_invariant {A} (P : A -> Prop) (f : A -> A) n :
  (forall a, P a -> P (f a)) -> forall a, P a -> P (Nat.iter n f a).
Proof. intros Hf a Ha. induction n as [|n IH]; cbn; [done | by apply Hf]. Qed.

(** What the end of [shutdown()] leaves alone. *)
Lemma shutdown_rest_keeps s :
  Batcher.this (batch (shutdown_rest s)) = Batcher.this (batch s)
  /\ Batcher.inflight (Batcher.node (batch (shutdown_rest s)))
     = Batcher.inflight (Batcher.node (batch s))
  /\ reading (shutdown_rest s) = reading s
  /\ sent (shutdown_rest s) = sent s
  /\ awaiting (shutdown_rest s) = awaiting s
  /\ closed (shutdown_rest s) = true.
Proof.
  unfold shutdown_rest.
  destruct (Batcher.tempDirExists (Batcher.node (batch s))); cbn;
    destruct (proxyClient s) as [ws|]; cbn; try done;
    unfold isOpen; cbn; by destruct (bool_decide _).
Qed.

(** The invariant looks at the flag and at the two lists of promises. *)
Lemma serialized_view s s' :
  Batcher.isProcessing (Batcher.this (batch s'))
  = Batcher.isProcessing (Batcher.this (batch s)) ->
  Batcher.inflight (Batcher.node (batch s'))
  = Batcher.inflight (Batcher.node (batch s)) ->
  reading s' = reading s ->
  serialized s -> serialized s'.
Proof. unfold serialized, flushes_in_flight. by intros -> -> ->. Qed.

Lemma serialized_idle s :
  serialized s -> Batcher.isProcessing (Batcher.this (batch s)) = false ->
  Batcher.inflight (Batcher.node (batch s)) = [] /\ reading s = [].
Proof.
  unfold serialized, flushes_in_flight. intros E P. rewrite P in E.
  by destruct (Batcher.inflight _), (reading s).
Qed.

Lemma serialized_busy s :
  serialized s -> (0 < flushes_in_flight s)%nat ->
  Batcher.isProcessing (Batcher.this (batch s)) = true
  /\ flushes_in_flight s = 1%nat.
Proof.
  unfold serialized. intros E L.
  destruct (Batcher.isProcessing _); [done | lia].
Qed.

Lemma finish_keeps s :
  Batcher.isProcessing (Batcher.this (batch (finish s))) = false
  /\ Batcher.audioBuffer (Batcher.this (batch (finish s)))
     = Batcher.audioBuffer (Batcher.this (batch s))
  /\ Batcher.inflight (Batcher.node (batch (finish s)))
     = Batcher.inflight (Batcher.node (batch s))
  /\ reading (finish s) = reading s
  /\ sent (finish s) = sent s.
Proof.
  unfold finish. cbn [awaiting set_batch].
  destruct (awaiting s); [|done].
  destruct (shutdown_rest_keeps
              (set_awaiting false
                 (set_batch (Batcher.set_isProcessing false (batch s)) s)))
    as (T & I & R & S & _).
  by rewrite T, I, R, S.
Qed.

Section WithRuntime.
Variable JSON_parse : string -> Completion JSValue.
Variable Buffer_from_base64 : JSValue -> Completion Buffer.
Variables (sampleRate channels : Z).

Local Abbreviation onMessage := (Bot.onMessage JSON_parse Buffer_from_base64).
Local Abbreviation audio_of := (Bot.audio_of JSON_parse Buffer_from_base64).
Local Abbreviation step :=
  (Bot.step JSON_parse Buffer_from_base64 sampleRate channels).
Local Abbreviation run :=
  (Bot.run JSON_parse Buffer_from_base64 sampleRate channels).
Local Abbreviation resume_json := (Bot.resume_json).

(** One run of the message handler. *)
Lemma onMessage_audio message s :
  onMessage message s
  = match audio_of message with
    | Some b => set_batch (Batcher.sendAudioChunk b (batch s)).1 s
    | None => s
    end.
Proof.
  unfold Bot.onMessage, Bot.audio_of, processAudioData.
  destruct (JSON_parse _) as [msg|]; cbn; [|done].
  destruct (get msg "type") as [type|]; cbn; [|done].
  destruct (is_string "audio" type); [|done].
  destruct (get msg "data") as [data|]; cbn; [|done].
  destruct (get data "audio") as [audio|]; cbn; [|done].
  by destruct (Buffer_from_base64 audio).
Qed.

(** A view of the state that the handlers of connections leave alone,
    but for the audio buffer. *)
Lemma onMessage_keeps message s :
  Batcher.isProcessing (Batcher.this (batch (onMessage message s)))
  = Batcher.isProcessing (Batcher.this (batch s))
  /\ Batcher.node (batch (onMessage message s)) = Batcher.node (batch s)
  /\ reading (onMessage message s) = reading s
  /\ sent (onMessage message s) = sent s
  /\ attached (onMessage message s) = attached s
  /\ listeners (onMessage message s) = listeners s.
Proof. rewrite onMessage_audio. by destruct (audio_of message). Qed.

Lemma resume_json_sent rd body t1 t2 s :
  Forall final_transcript (sent s) ->
  Forall final_transcript (sent (resume_json rd body t1 t2 s)).
Proof.
  intros F. unfold Bot.resume_json.
  assert (K : forall s', sent s' = sent s ->
                         Forall final_transcript (sent (finish s')))
    by (intros s' E; destruct (finish_keeps s') as (_ & _ & _ & _ & ->);
        by rewrite E).
  destruct (ok rd); [|by apply K].
  destruct (mbind _ body) as [text|]; [|by apply K].
  destruct (truthy text) eqn:T; [|by apply K].
  destruct (proxyClient s) as [ws|]; [|by apply K].
  destruct (isOpen ws s); [|by apply K].
  destruct (finish_keeps
              (set_sent (sent s ++ [(ws, Relay.Transcription
                 {| Relay.text := text; Relay.isFinal := true;
                    Relay.startTime := t1 - 5000; Relay.endTime := t2 |})]) s))
    as (_ & _ & _ & _ & ->).
  cbn. apply Forall_app. split; [done|]. by repeat constructor.
Qed.

Lemma resume_json_flight rd body t1 t2 s :
  Batcher.isProcessing (Batcher.this (batch (resume_json rd body t1 t2 s)))
  = false
  /\ Batcher.inflight (Batcher.node (batch (resume_json rd body t1 t2 s)))
     = Batcher.inflight (Batcher.node (batch s))
  /\ reading (resume_json rd body t1 t2 s) = reading s.
Proof.
  unfold Bot.resume_json.
  assert (K : forall s',
            batch s' = batch s -> reading s' = reading s ->
            Batcher.isProcessing (Batcher.this (batch (finish s'))) = false
            /\ Batcher.inflight (Batcher.node (batch (finish s')))
               = Batcher.inflight (Batcher.node (batch s))
            /\ reading (finish s') = reading s)
    by (intros s' E1 E2; destruct (finish_keeps s') as (P & _ & I & R & _);
        by rewrite P, I, R, E1, E2).
  destruct (ok rd); [|by apply K].
  destruct (mbind _ body) as [text|]; [|by apply K].
  destruct (truthy text); [|by apply K].
  destruct (proxyClient s) as [ws|]; [|by apply K].
  destruct (isOpen ws s); by apply K.
Qed.

Lemma shutdown_flight now s :
  serialized s -> serialized (Bot.shutdown sampleRate channels now s)
  /\ sent (Bot.shutdown sampleRate channels now s) = sent s.
Proof.
  intros E. unfold Bot.shutdown.
  set (b := match Batcher.processingInterval (Batcher.this (batch s)) with
            | Some id => _ | None => batch s end).
  assert (Eb : Batcher.isProcessing (Batcher.this b)
               = Batcher.isProcessing (Batcher.this (batch s))
               /\ Batcher.inflight (Batcher.node b)
                  = Batcher.inflight (Batcher.node (batch s)))
    by (subst b; by destruct (Batcher.processingInterval _)).
  destruct Eb as [EP EI]. clearbody b.
  assert (R : forall b',
            Batcher.isProcessing (Batcher.this b')
            = Batcher.isProcessing (Batcher.this (batch s)) ->
            Batcher.inflight (Batcher.node b')
            = Batcher.inflight (Batcher.node (batch s)) ->
            serialized (shutdown_rest (set_batch b' s))
            /\ sent (shutdown_rest (set_batch b' s)) = sent s).
  { intros b' P' I'.
    destruct (shutdown_rest_keeps (set_batch b' s)) as (T & I & R & S & _).
    split; [|done].
    apply (serialized_view s); [by rewrite T | by rewrite I | done | done]. }
  destruct (bool_decide _); [|by apply R].
  destruct (BatcherFacts.processAudioBuffer_cases sampleRate channels now b)
    as [-> | [[P ->] | (P & _ & hdr & ->)]].
  - rewrite andb_negb_l. by apply R.
  - rewrite P. cbn [negb andb Batcher.dropped Batcher.set_isProcessing
                      Batcher.this Batcher.isProcessing].
    apply R; cbn; [congruence | done].
  - rewrite P. cbn. split; [|done].
    rewrite EP in P. destruct (serialized_idle s E P) as [I0 R0].
    unfold serialized, flushes_in_flight. cbn. by rewrite EI, I0, R0.
Qed.

Lemma bot_step_serialized s e :
  serialized s -> Forall final_transcript (sent s) ->
  serialized (step s e) /\ Forall final_transcript (sent (step s e)).
Proof.
  intros E F.
  assert (V : forall s',
            Batcher.isProcessing (Batcher.this (batch s'))
            = Batcher.isProcessing (Batcher.this (batch s)) ->
            Batcher.inflight (Batcher.node (batch s'))
            = Batcher.inflight (Batcher.node (batch s)) ->
            reading s' = reading s -> sent s' = sent s ->
            serialized s' /\ Forall final_transcript (sent s')).
  { intros s' P I R S. split; [by apply (serialized_view s) | by rewrite S]. }
  destruct e as [|ws|ws message|ws|ws st|id now|i o|i body t1 t2|now];
    cbn [Bot.step].
  - by apply (V (start s)).
  - apply (iter_invariant
             (fun s' => serialized s' /\ Forall final_transcript (sent s')));
      [|done].
    intros a [Ea Fa]. done.
  - apply (iter_invariant
             (fun s' => serialized s' /\ Forall final_transcript (sent s')));
      [|done].
    intros a [Ea Fa].
    destruct (onMessage_keeps message a) as (P & N & R & S & _).
    split; [|by rewrite S].
    apply (serialized_view a); [done | by rewrite N | done | done].
  - apply (iter_invariant
             (fun s' => serialized s' /\ Forall final_transcript (sent s')));
      [|by apply (V (set_readyState _ s))].
    intros a [Ea Fa]. done.
  - by apply (V (set_readyState _ s)).
  - cbn [Batcher.step fst].
    destruct (bool_decide _); [|by apply (V (set_batch (batch s) s))].
    destruct (BatcherFacts.processAudioBuffer_cases sampleRate channels now
                (batch s)) as [-> | [[P ->] | (P & _ & hdr & ->)]].
    + by apply (V (set_batch (batch s) s)).
    + apply (V (set_batch (Batcher.dropped (batch s)) s)); cbn; done.
    + split; [|done]. destruct (serialized_idle s E P) as [I0 R0].
      unfold serialized, flushes_in_flight. cbn. by rewrite I0, R0.
  - destruct (Batcher.inflight (Batcher.node (batch s)) !! i) as [r|] eqn:Li;
      [|done].
    destruct (serialized_busy s E) as (P0 & L);
      [unfold flushes_in_flight;
       destruct (Batcher.inflight _); [done | cbn; lia]|].
    unfold flushes_in_flight in L.
    destruct (Batcher.inflight (Batcher.node (batch s))) as [|r0 [|r1 l]] eqn:I;
      [done| |cbn in L; lia].
    destruct (reading s) as [|rd l] eqn:R; [|cbn in L; lia].
    destruct i; [|done]. cbn [delete list_delete].
    set (s0 := set_batch _ s).
    assert (E0 : Batcher.inflight (Batcher.node (batch s0)) = []
                 /\ reading s0 = [] /\ sent s0 = sent s
                 /\ Batcher.isProcessing (Batcher.this (batch s0)) = true)
      by (subst s0; cbn; by rewrite R).
    destruct E0 as (I0 & R0 & S0 & Q0). clearbody s0.
    assert (K : serialized (finish s0)
                /\ Forall final_transcript (sent (finish s0))).
    { destruct (finish_keeps s0) as (P & _ & I' & R' & S').
      unfold serialized, flushes_in_flight.
      by rewrite P, I', R', S', I0, R0, S0. }
    unfold resume_fetch. destruct o as [okk|]; [|done].
    destruct (Batcher.unlinkSync _ _) as [n|] eqn:U; [|done].
    unfold Batcher.unlinkSync in U.
    destruct (Batcher.tempFiles _ !! _); [|done]. injection U as <-.
    unfold serialized, flushes_in_flight. cbn.
    by rewrite I0, R0, S0, Q0.
  - destruct (reading s !! i) as [rd|] eqn:Li; [|done].
    destruct (serialized_busy s E) as (P0 & L);
      [unfold flushes_in_flight;
       destruct (reading s); [done | cbn; lia]|].
    unfold flushes_in_flight in L.
    destruct (reading s) as [|rd0 [|rd1 l]] eqn:R;
      [done| |cbn in L; lia].
    destruct (Batcher.inflight (Batcher.node (batch s))) as [|r0 l] eqn:I;
      [|cbn in L; lia].
    destruct i; [|done]. cbn [delete list_delete].
    destruct (resume_json_flight rd body t1 t2 (set_reading [] s))
      as (P & I' & R').
    split; [|by apply resume_json_sent].
    unfold serialized, flushes_in_flight. rewrite P, I', R'. cbn.
    by rewrite I.
  - destruct (shutdown_flight now s) as [S1 E1]; [done|]. by rewrite E1.
Qed.

Lemma bot_run_serialized evs : forall s,
  serialized s -> Forall final_transcript (sent s) ->
  serialized (run s evs) /\ Forall final_transcript (sent (run s evs)).
Proof.
  unfold Bot.run. induction evs as [|e evs IH]; intros s S F; cbn; [done|].
  destruct (bot_step_serialized s e S F) as [S1 F1]. by apply IH.
Qed.

End WithRuntime.

End BotFacts.

Module BotRuns.
Import JS Bot BotFacts.

Lemma iter_onConnection ws n : forall s,
  default 0%nat (attached (Nat.iter n (onConnection ws) s) !! ws)
  = (n + default 0%nat (attached s !! ws))%nat
  /\ batch (Nat.iter n (onConnection ws) s) = batch s
  /\ sent (Nat.iter n (onConnection ws) s) = sent s
  /\ proxyClient (Nat.iter n (onConnection ws) s)
     = if n is O then proxyClient s else Some ws.
Proof.
  induction n as [|n IH]; intros s; [done|].
  rewrite Nat.iter_succ. destruct (IH s) as (A & B & S & _).
  cbn. rewrite lookup_insert_eq. cbn. by rewrite A, B, S.
Qed.

Lemma iter_onClose n : forall s,
  batch (Nat.iter n onClose s) = batch s
  /\ reading (Nat.iter n onClose s) = reading s
  /\ sent (Nat.iter n onClose s) = sent s
  /\ proxyClient (Nat.iter n onClose s)
     = if n is O then proxyClient s else None.
Proof.
  induction n as [|n IH]; intros s; [done|].
  rewrite Nat.iter_succ. destruct (IH s) as (B & R & S & _).
  cbn. by rewrite B, R, S.
Qed.

Lemma resume_json_unheard rd body t1 t2 s :
  proxyClient s = None -> sent (resume_json rd body t1 t2 s) = sent s.
Proof.
  intros N. unfold resume_json. rewrite N.
  destruct (finish_keeps s) as (_ & _ & _ & _ & S).
  destruct (ok rd); [|done].
  destruct (mbind _ body) as [text|]; [|done].
  by destruct (truthy text).
Qed.

Section WithRuntime.
Variable JSON_parse : string -> Completion JSValue.
Variable Buffer_from_base64 : JSValue -> Completion Buffer.
Variables (sampleRate channels : Z).

Local Abbreviation onMessage := (Bot.onMessage JSON_parse Buffer_from_base64).
Local Abbreviation audio_of := (Bot.audio_of JSON_parse Buffer_from_base64).
Local Abbreviation step :=
  (Bot.step JSON_parse Buffer_from_base64 sampleRate channels).
Local Abbreviation run :=
  (Bot.run JSON_parse Buffer_from_base64 sampleRate channels).

Lemma iter_onMessage message n : forall s,
  Batcher.audioBuffer (Batcher.this (batch (Nat.iter n (onMessage message) s)))
  = Batcher.audioBuffer (Batcher.this (batch s))
    ++ match audio_of message with
       | Some b => replicate n b
       | None => []
       end.
Proof.
  induction n as [|n IH]; intros s.
  - cbn. destruct (audio_of message); by rewrite app_nil_r.
  - rewrite Nat.iter_succ, onMessage_audio. specialize (IH s).
    destruct (audio_of message) as [b|]; [|done].
    cbn -[replicate]. rewrite IH, replicate_S_end. by rewrite app_assoc.
Qed.

(** [start()] called [k] times on a new bot. *)
Lemma run_starts dirExisted files k :
  let s := run (constructor dirExisted files) (replicate k CallStart) in
  listeners s = k
  /\ attached s = ∅
  /\ sent s = []
  /\ Batcher.this (batch s)
     = {| Batcher.audioBuffer := []; Batcher.isProcessing := false;
          Batcher.onTranscriptionCallback := false;
          Batcher.processingInterval :=
            if k is S j then Some j else None |}
  /\ Batcher.nextTimer (Batcher.node (batch s)) = k
  /\ (forall i, is_Some (Batcher.timers (Batcher.node (batch s)) !! i)
                <-> (i < k)%nat).
Proof.
  induction k as [|k IH]; cbn zeta.
  - cbn. repeat split; try done; rewrite lookup_empty;
      intros H; [by destruct H | lia].
  - rewrite replicate_S_end. unfold Bot.run. rewrite foldl_snoc.
    fold (run (constructor dirExisted files) (replicate k CallStart)).
    cbn zeta in IH. destruct IH as (L & A & S & T & N & M).
    cbn. rewrite L, A, S, T, N. cbn. repeat split; try done.
    + destruct (decide (i = k)) as [->|Ne]; [lia|].
      rewrite lookup_insert_ne by done. intros H. apply M in H. lia.
    + intros H. destruct (decide (i = k)) as [->|Ne].
      * by rewrite lookup_insert_eq.
      * rewrite lookup_insert_ne by done. apply M. lia.
Qed.

End WithRuntime.

End BotRuns.

Section BotProperties.
Import JS Bot BotFacts BotRuns.
Variable JSON_parse : string -> Completion JSValue.
Variable Buffer_from_base64 : JSValue -> Completion Buffer.
Variables (sampleRate channels : Z).

Local Abbreviation step :=
  (Bot.step JSON_parse Buffer_from_base64 sampleRate channels).
Local Abbreviation run :=
  (Bot.run JSON_parse Buffer_from_base64 sampleRate channels).
Local Abbreviation audio_of := (Bot.audio_of JSON_parse Buffer_from_base64).

(** X10. The flag of the bot counts its flushes.  Along every run of a new
    bot, the number of flushes under way (waiting for the answer of the
    backend or for its body) is one while [isProcessing] is set and zero
    while it is not: flushes never overlap, and the flag is never left set
    with nothing under way. *)
Theorem bot_flag_counts_flushes dirExisted files evs :
  let s := run (constructor dirExisted files) evs in
  flushes_in_flight s
  = if Batcher.isProcessing (Batcher.this (batch s)) then 1%nat else 0%nat.
Proof.
  intros s.
  by destruct (bot_run_serialized JSON_parse Buffer_from_base64 sampleRate
                 channels evs (constructor dirExisted files)).
Qed.

(** X11. The bot sends final transcripts only.  Along every run of a new
    bot, every frame it has sent is a transcription marked final whose text
    is truthy. *)
Theorem bot_sends_final_transcripts_only dirExisted files evs :
  Forall final_transcript (sent (run (constructor dirExisted files) evs)).
Proof.
  by destruct (bot_run_serialized JSON_parse Buffer_from_base64 sampleRate
                 channels evs (constructor dirExisted files)).
Qed.

(** X12. The scratch file of the bot.  When the request of a flush settles
    while no [shutdown] waits for it: on any answer of the backend, good or
    bad, the scratch file of the flush is removed, the flag stays as it
    is and the body is awaited; when there was no answer the file is kept
    and the flag is reset. *)
Theorem bot_scratch_file_fate i r data o s :
  Batcher.inflight (Batcher.node (batch s)) !! i = Some r ->
  Batcher.tempFiles (Batcher.node (batch s)) !! Batcher.tempFile r
  = Some data ->
  awaiting s = false ->
  let s' := step s (FetchSettles i o) in
  match o with
  | Responded ok =>
      Batcher.tempFiles (Batcher.node (batch s'))
      = delete (Batcher.tempFile r) (Batcher.tempFiles (Batcher.node (batch s)))
      /\ reading s' = reading s ++ [{| ok := ok |}]
      /\ Batcher.isProcessing (Batcher.this (batch s'))
         = Batcher.isProcessing (Batcher.this (batch s))
  | NetworkError =>
      Batcher.tempFiles (Batcher.node (batch s'))
      = Batcher.tempFiles (Batcher.node (batch s))
      /\ reading s' = reading s
      /\ Batcher.isProcessing (Batcher.this (batch s')) = false
  end.
Proof.
  intros I F A s'. subst s'. cbn [Bot.step]. rewrite I.
  unfold resume_fetch. destruct o as [okk|].
  - unfold Batcher.unlinkSync. cbn. by rewrite F.
  - unfold finish. cbn. by rewrite A.
Qed.

(** X13. Audio is buffered once for every call of [start()].  On a new bot
    on which [start()] was called [k] times, a message on a connection made
    afterwards puts its audio into the buffer [k] times; a message that is
    not an audio message, or whose audio cannot be decoded, puts in
    nothing. *)
Theorem bot_buffers_audio_once_per_start k ws message dirExisted files :
  let s := run (constructor dirExisted files)
             (replicate k CallStart ++ [Connection ws; Message ws message]) in
  Batcher.audioBuffer (Batcher.this (batch s))
  = match audio_of message with
    | Some b => replicate k b
    | None => []
    end.
Proof.
  intros s. subst s. unfold Bot.run. rewrite foldl_app.
  fold (run (constructor dirExisted files) (replicate k CallStart)).
  destruct (run_starts JSON_parse Buffer_from_base64 sampleRate channels
              dirExisted files k) as (L & A & _ & T & _).
  cbn zeta in L, A, T.
  set (s0 := run _ _) in *. clearbody s0. cbn [foldl Bot.step].
  destruct (iter_onConnection ws (listeners s0) s0) as (C & B & _).
  set (s1 := Nat.iter _ (onConnection ws) s0) in *. clearbody s1.
  rewrite iter_onMessage, B, T, C, A, L, lookup_empty. cbn -[replicate].
  by rewrite Nat.add_0_r.
Qed.

(** X14. One timer for every call of [start()], one cleared by
    [shutdown()].  On a new bot on which [start()] was called [k] times
    the timers armed are the [k] first; [shutdown()] clears the last of
    them and leaves the others armed. *)
Theorem bot_shutdown_clears_last_timer_only k now dirExisted files :
  let s := run (constructor dirExisted files) (replicate k CallStart) in
  (forall i, is_Some (Batcher.timers (Batcher.node (batch s)) !! i)
             <-> (i < k)%nat)
  /\ (forall i,
        is_Some (Batcher.timers
                   (Batcher.node (batch (step s (CallShutdown now)))) !! i)
        <-> (S i < k)%nat).
Proof.
  intros s.
  destruct (run_starts JSON_parse Buffer_from_base64 sampleRate channels
              dirExisted files k) as (_ & _ & _ & T & _ & M).
  cbn zeta in T, M. fold s in T, M. clearbody s. split; [done|].
  assert (AB : Batcher.audioBuffer (Batcher.this (batch s)) = [])
    by (by rewrite T).
  assert (PI : Batcher.processingInterval (Batcher.this (batch s))
               = if k is S j then Some j else None) by (by rewrite T).
  clear T. intros i. cbn [Bot.step]. unfold Bot.shutdown. rewrite PI.
  assert (R : forall b,
            Batcher.timers (Batcher.node (batch (shutdown_rest (set_batch b s))))
            = Batcher.timers (Batcher.node b)).
  { intros b. unfold shutdown_rest. cbn.
    destruct (Batcher.tempDirExists _); cbn;
      destruct (proxyClient s); cbn; try done;
      unfold isOpen; cbn; by destruct (bool_decide _). }
  destruct k as [|k]; cbn -[shutdown_rest Batcher.processAudioBuffer];
    rewrite AB, bool_decide_eq_false_2 by (intros H; by apply H); rewrite R.
  - rewrite M. lia.
  - cbn.
    destruct (decide (i = k)) as [->|Ne].
    + rewrite lookup_delete_eq. split; [by intros [? ?] | lia].
    + rewrite lookup_delete_ne by done. rewrite M. lia.
Qed.

(** X15. A closing connection makes the bot forget its proxy client.  When
    a connection on which the handlers of the bot are attached closes, the
    bot has no proxy client afterwards, whichever connection its proxy
    client was; the transcript of a flush that ends then is sent to no
    one. *)
Theorem bot_close_forgets_proxy ws s :
  (0 < default 0%nat (attached s !! ws))%nat ->
  let s' := step s (Close ws) in
  proxyClient s' = None
  /\ sent s' = sent s
  /\ forall i body t1 t2, sent (step s' (JsonSettles i body t1 t2)) = sent s.
Proof.
  intros A s'. subst s'. cbn [Bot.step]. cbn [attached set_readyState].
  destruct (default 0%nat (attached s !! ws)) as [|n]; [lia|].
  destruct (iter_onClose (S n)
              (set_readyState (<[ws:=Relay.CLOSED]> (readyState s)) s))
    as (_ & R & S & P).
  set (s1 := Nat.iter _ _ _) in *. clearbody s1.
  split; [done|]. split; [done|]. intros i body t1 t2. cbn [Bot.step].
  destruct (reading s1 !! i) as [rd|]; [|done].
  by rewrite resume_json_unheard.
Qed.


End BotProperties.

(** With the flush of the bot of the runs under way, a refusal of the
    backend removes the scratch file and leaves the flag set. *)
Lemma bot_scratch_file_fate_witness :
  let s := Views.bot_flushing in
  let r := {| Batcher.body := Scenario.container; Batcher.tempFile := 1000 |} in
  let s' := Bot.step Views.audio_parse Views.from_base64 Scenario.sampleRate
              Scenario.channels s (Bot.FetchSettles 0 (Bot.Responded false)) in
  Batcher.tempFiles (Batcher.node (Bot.batch s'))
  = delete (Batcher.tempFile r) (Batcher.tempFiles (Batcher.node (Bot.batch s)))
  /\ Bot.reading s' = Bot.reading s ++ [{| Bot.ok := false |}]
  /\ Batcher.isProcessing (Batcher.this (Bot.batch s'))
     = Batcher.isProcessing (Batcher.this (Bot.batch s)).
Proof.
  intros s r s'.
  assert (I : Batcher.inflight (Batcher.node (Bot.batch s)) !! 0%nat = Some r)
    by (vm_compute; reflexivity).
  assert (F : Batcher.tempFiles (Batcher.node (Bot.batch s))
              !! Batcher.tempFile r = Some Scenario.container)
    by (vm_compute; reflexivity).
  assert (A : Bot.awaiting s = false) by (vm_compute; reflexivity).
  pose proof (bot_scratch_file_fate Views.audio_parse Views.from_base64
                Scenario.sampleRate Scenario.channels 0 r Scenario.container
                (Bot.Responded false) s I F A) as T.
  exact T.
Defined.

(** Connection 2 is the proxy client of the bot; connection 1 closes, and
    the bot has no proxy client. *)
Lemma bot_close_forgets_proxy_witness :
  let s := Views.bot_two in
  let s' := Bot.step Views.audio_parse Views.from_base64 Scenario.sampleRate
              Scenario.channels s (Bot.Close 1) in
  Bot.proxyClient s = Some 2%nat /\ Bot.proxyClient s' = None.
Proof.
  intros s s'. split; [vm_compute; reflexivity|].
  assert (A : (0 < default 0%nat (Bot.attached s !! 1%nat))%nat)
    by (vm_compute; lia).
  pose proof (bot_close_forgets_proxy Views.audio_parse Views.from_base64
                Scenario.sampleRate Scenario.channels 1 s A) as T.
  exact (proj1 T).
Defined.


(** ** The server *)

Module ServerFacts.
Import JS Server.



Lemma getBotId_set_botId c v s :
  (c < length (clients s))%nat -> getBotId c (set_botId c v s) = v.
Proof.
  intros L. unfold getBotId, set_botId. cbn.
  by rewrite list_lookup_insert_eq.
Qed.

Lemma getBotId_set_botId_ne c c' v s :
  c <> c' -> getBotId c' (set_botId c v s) = getBotId c' s.
Proof.
  intros N. unfold getBotId, set_botId. cbn.
  by rewrite list_lookup_insert_ne.
Qed.








Lemma bot_of_Some o id :
  bot_of o = Some id ->
  exists data, o = Resolved data /\ get data "bot_id" = Normal id
               /\ truthy id = true.
Proof.
  destruct o as [data|]; [|done]. cbn.
  destruct (get data "bot_id") as [v|] eqn:G; [|done].
  destruct (truthy v) eqn:T; [|done]. intros [= <-]. by exists data.
Qed.

Lemma connect_resume_created c o id s :
  bot_of o = Some id ->
  connect_resume c o s
  = set_inserting (inserting s ++ [c])
      (set_inserted (inserted s ++ [(id, meetingId c)])
         (set_botId (this c) id s)).
Proof.
  intros B. destruct (bot_of_Some o id B) as (data & -> & G & T).
  unfold connect_resume. by rewrite G, T.
Qed.

Lemma connect_resume_failed c o s :
  bot_of o = None ->
  connect_resume c o s = respond (request c) FailedToConnect s.
Proof.
  destruct o as [data|]; [|done]. cbn.
  destruct (get data "bot_id") as [v|]; [|done].
  by destruct (truthy v).
Qed.

Lemma startBotHandler_cases req body s :
  (exists e, startBotHandler req body s = Throw e)
  \/ startBotHandler req body s = Normal (respond req MissingParameters s)
  \/ exists m,
       startBotHandler req body s
       = Normal
           (set_posting
              (posting s ++ [{| request := req; this := length (clients s);
                                meetingId := m |}])
              (set_meetingBaasClient (Some (length (clients s)))
                 (set_clients (clients s ++ [{| botId := JNull |}]) s))).
Proof.
  unfold startBotHandler.
  destruct (get body "meeting_id") as [m|e]; cbn; [|by eauto].
  destruct (get body "meeting_url") as [u|e]; cbn; [|by eauto].
  destruct (get body "bot_name") as [b|e]; cbn; [|by eauto].
  destruct (get body "ngrok_url") as [n|e]; cbn; [|by eauto].
  destruct (_ || _); eauto.
Qed.

(** What holds of the server along its runs. *)
Lemma step_sound s e :
  let sound s :=
    wired s
    /\ Forall (fun x => x.2 <> InternalError) (answers s)
    /\ (forall id, proxy s = Some id -> truthy id = true)
    /\ Forall (fun x => truthy x.1 = true) (inserted s)
    /\ (length (List.filter past_insert (answers s)) + length (inserting s)
        = length (inserted s))%nat in
  sound s -> sound (step s e).
Proof.
  intros sound (W & A & X & R & N). subst sound. cbn beta.
  destruct e as [req body|i o|i]; cbn [step].
  - destruct (startBotHandler_cases req body s) as [[e ->]|[->|[m ->]]].
    + done.
    + unfold wired. cbn. rewrite List.filter_app, length_app. cbn.
      repeat split; try done; [|lia].
      apply Forall_app. split; [done|]. by repeat constructor.
    + unfold wired. cbn. repeat split; try done; by eauto.
  - destruct (posting s !! i) as [c|] eqn:L; [|done].
    assert (G : is_Some (meetingBaasClient s))
      by (apply W; left; by intros E; rewrite E in L).
    destruct (bot_of o) as [id|] eqn:B.
    + rewrite (connect_resume_created _ o id _ B).
      destruct (bot_of_Some o id B) as (_ & _ & _ & T).
      unfold wired. cbn. rewrite !length_app. cbn.
      repeat split; try done; [|lia].
      apply Forall_app. split; [done|]. by repeat constructor.
    + rewrite (connect_resume_failed _ o _ B).
      unfold wired. cbn. rewrite List.filter_app, length_app. cbn.
      repeat split; try done; [|lia].
      apply Forall_app. split; [done|]. by repeat constructor.
  - destruct (inserting s !! i) as [c|] eqn:L; [|done].
    assert (G : is_Some (meetingBaasClient s))
      by (apply W; right; by intros E; rewrite E in L).
    destruct G as [g G].
    assert (D : S (length (delete i (inserting s))) = length (inserting s)).
    { rewrite length_delete by eauto.
      apply lookup_lt_Some in L. lia. }
    unfold startBotHandler_resume. cbn [negb meetingBaasClient set_inserting].
    rewrite G.
    set (s0 := set_inserting _ s).
    destruct (truthy (getBotId g s0)) eqn:T; cbn [negb];
      unfold wired; cbn; rewrite G, List.filter_app, length_app; cbn;
      (repeat split; try done; try lia;
       try (apply Forall_app; split; [done|]; by repeat constructor)).
    by intros id [= <-].
Qed.

End ServerFacts.

Section ServerProperties.
Import JS Server ServerFacts.



(** X19. The answers of the server account for the bots recorded.  Along
    every run of the server: "internal server error" is never answered;
    every bot recorded in the database, and the bot of every proxy made,
    has a truthy identifier; and the bots recorded are as many as the
    answers "started" and "bot id missing" together with the calls of
    [connect] that wait for the database. *)
Theorem server_answers_account_for_bots evs :
  let s := run init evs in
  Forall (fun x => x.2 <> InternalError) (answers s)
  /\ (forall id, proxy s = Some id -> truthy id = true)
  /\ Forall (fun x => truthy x.1 = true) (inserted s)
  /\ (length (List.filter past_insert (answers s)) + length (inserting s)
      = length (inserted s))%nat.
Proof.
  intros s.
  enough (H : wired s
              /\ Forall (fun x => x.2 <> InternalError) (answers s)
              /\ (forall id, proxy s = Some id -> truthy id = true)
              /\ Forall (fun x => truthy x.1 = true) (inserted s)
              /\ (length (List.filter past_insert (answers s))
                  + length (inserting s) = length (inserted s))%nat)
    by (by destruct H).
  subst s. unfold run. induction evs as [|e evs IH] using rev_ind.
  - unfold wired. cbn. repeat split; try done. by intros [|].
  - rewrite foldl_snoc. by apply step_sound.
Qed.


End ServerProperties.



(** ** The relay: transcripts and the database *)

Section Persistence.
Import JS Relay.
Variable JSON_parse : string -> Completion JSValue.
Variables (sampleRate channels : Z).

Local Abbreviation run := (Relay.run JSON_parse sampleRate channels).

(** X21. With a bot identifier, a transcript waits for its database append.
    When two transcripts are handed to the callback of a relay that has a
    bot identifier and an open bot connection, both are given to
    [appendTranscription] at once, in order, and neither is sent; each is
    sent to the bot when its own append settles, so that the bot receives
    them in the order in which the appends settle, whichever that is. *)
Theorem transcripts_follow_append_order x1 x2 t1 t2 t3 t4 id bot w :
  botId_set (activeBotId (proxy w)) = Some id ->
  botClient (proxy w) = Some bot ->
  isOpen bot w = true ->
  appending (net w) = [] ->
  microtasks (net w) = [] ->
  let m1 := {| text := x1; isFinal := true; startTime := t1; endTime := t2 |} in
  let m2 := {| text := x2; isFinal := true; startTime := t3; endTime := t4 |} in
  let w2 := callback t3 t4 (x2, true) (callback t1 t2 (x1, true) w) in
  sent (net w2) = sent (net w)
  /\ appended (net w2) = appended (net w) ++ [(id, x1); (id, x2)]
  /\ (exists w4,
        run w2 [AppendSettles 0; AppendSettles 0] = Some w4
        /\ sent (net w4)
           = sent (net w) ++ [(bot, Transcription m1); (bot, Transcription m2)])
  /\ (exists w4,
        run w2 [AppendSettles 1; AppendSettles 0] = Some w4
        /\ sent (net w4)
           = sent (net w) ++ [(bot, Transcription m2); (bot, Transcription m1)]).
Proof.
  intros B C O A M m1 m2 w2.
  destruct w as [p n]. destruct p as [bc mc gc act ls ab].
  destruct n as [ro rs mt ap se ad ca]. cbn in B, C, A, M. subst bc ap mt.
  unfold isOpen in O. cbn in O.
  assert (E : w2 = {| proxy := {| botClient := Some bot;
                                  meetingBaasClients := mc;
                                  gladiaClient := gc;
                                  isGladiaSessionActive := act;
                                  lastSpeaker := ls;
                                  activeBotId := ab |};
                      net := {| roles := ro; readyState := rs;
                                microtasks := [];
                                appending := [m1; m2];
                                sent := se;
                                appended := (ad ++ [(id, x1)]) ++ [(id, x2)];
                                calls := (ca ++ [(x1, true)]) ++ [(x2, true)] |} |}).
  { subst w2. unfold callback. cbn. rewrite B. cbn. by rewrite B. }
  clearbody w2. subst w2. cbn [net sent appended].
  split; [done|]. split; [by rewrite <- app_assoc|].
  split; eexists; (split;
    [cbn; unfold callback_send, sendToBot, isOpen; cbn; rewrite O; cbn;
     unfold callback_send, sendToBot, isOpen; cbn; rewrite O; reflexivity|]);
    cbn; by rewrite <- app_assoc.
Qed.

End Persistence.

(** Two transcripts on the relay of the runs, whose bot identifier is
    "bot-1": both are given to the database and none is sent yet. *)
Lemma transcripts_follow_append_order_witness :
  let w := Scenario.after Scenario.connected in
  let w2 := Relay.callback 10 11 (JS.JString "two", true)
              (Relay.callback 1 2 (JS.JString "one", true) w) in
  Relay.sent (Relay.net w2) = Relay.sent (Relay.net w)
  /\ Relay.appended (Relay.net w2)
     = Relay.appended (Relay.net w)
       ++ [("bot-1"%string, JS.JString "one"); ("bot-1"%string, JS.JString "two")].
Proof.
  intros w w2.
  assert (B : Relay.botId_set (Relay.activeBotId (Relay.proxy w))
              = Some "bot-1"%string) by (vm_compute; reflexivity).
  assert (C : Relay.botClient (Relay.proxy w) = Some 1%nat)
    by (vm_compute; reflexivity).
  assert (O : Relay.isOpen 1 w = true) by (vm_compute; reflexivity).
  assert (A : Relay.appending (Relay.net w) = []) by (vm_compute; reflexivity).
  assert (M : Relay.microtasks (Relay.net w) = [])
    by (vm_compute; reflexivity).
  pose proof (transcripts_follow_append_order Scenario.parse Scenario.sampleRate
                Scenario.channels (JS.JString "one") (JS.JString "two")
                1 2 10 11 "bot-1"%string 1%nat w B C O A M) as T.
  exact (conj (proj1 T) (proj1 (proj2 T))).
Defined.
